(** * pru-property: the scanning pipeline of [scrapper.py]

    A shallow embedding of [PropertyScanner], of the adapters' fetch stage,
    id construction and parsing, of the run wrapper [run_scraper.py] and of
    the web front-end [app.py], with the properties of the pipeline stated
    and proved over it.

    Conventions of the embedding.
    - Python values that reach the code from JSON are [pyval]s (None, bool,
      int, str); floats are outside the model.
    - Python [str] is [string]; [str.lower] acts on the ASCII letters.
    - A dict with a fixed key set is a record whose optional keys are
      [option] fields; a dict used as a map is a [gmap].
    - A call that may raise returns a [result]; only subclasses of
      [Exception] are modelled, which is what [except Exception] catches.
    - Effects (logger, network, file system, clock, mail, console) are
      threaded through an explicit [state], against surroundings [env]
      that stay fixed during a run.  The log records every WARNING and
      ERROR call, and the INFO calls of [run_scraper]; the adapters'
      debugging prints and [time.sleep] are not recorded. *)

From Stdlib Require Import ZArith Bool Ascii String List Lia.
From stdpp Require Import base option list strings gmap pretty.
Import ListNotations.
Local Open Scope string_scope.
Local Open Scope Z_scope.

(** ** Python values and exceptions *)

Inductive pyval :=
  | PNone
  | PBool (b : bool)
  | PInt (z : Z)
  | PStr (s : string).

Inductive exn := Exn (cls : string) (msg : string).

Definition exn_cls (e : exn) : string := let 'Exn c _ := e in c.
Definition exn_msg (e : exn) : string := let 'Exn _ m := e in m.

Inductive result (A : Type) :=
  | Ok (a : A)
  | Raise (e : exn).
Arguments Ok {A} a.
Arguments Raise {A} e.

(** Sequencing of calls that may raise: [x ← r; k] runs [k] on the value
    of [r] and passes an exception on. *)
#[global] Instance result_ret : MRet result := fun _ a => Ok a.
#[global] Instance result_bind : MBind result := fun _ _ k r =>
  match r with
  | Ok a => k a
  | Raise e => Raise e
  end.

(** [d.get(key, default)] on an optional key. *)
Definition get {A} (field : option A) (dflt : A) : A :=
  match field with
  | Some v => v
  | None => dflt
  end.

(** Python truthiness, as used by [if x:] and [not x]. *)
Definition truthy (v : pyval) : bool :=
  match v with
  | PNone => false
  | PBool b => b
  | PInt z => negb (z =? 0)
  | PStr s => negb (String.eqb s "")
  end.

(** [str(v)], also what an f-string placeholder prints. *)
Definition py_str (v : pyval) : string :=
  match v with
  | PNone => "None"
  | PBool true => "True"
  | PBool false => "False"
  | PInt z => pretty z
  | PStr s => s
  end.

(** ** Strings *)

Definition lower_ascii (c : ascii) : ascii :=
  let n := N_of_ascii c in
  if ((65 <=? n) && (n <=? 90))%N then ascii_of_N (n + 32) else c.

Fixpoint lower (s : string) : string :=
  match s with
  | EmptyString => EmptyString
  | String c s' => String (lower_ascii c) (lower s')
  end.

(** [needle in hay] on strings. *)
Fixpoint contains (needle hay : string) : bool :=
  String.prefix needle hay ||
  match hay with
  | EmptyString => false
  | String _ hay' => contains needle hay'
  end.

Definition is_digit (c : ascii) : bool :=
  let n := N_of_ascii c in ((48 <=? n) && (n <=? 57))%N.

Definition digit_val (c : ascii) : Z := Z.of_N (N_of_ascii c) - 48.

Definition is_space (c : ascii) : bool :=
  let n := N_of_ascii c in
  ((9 <=? n) && (n <=? 13) || (28 <=? n) && (n <=? 32))%N.

Fixpoint lstrip (s : string) : string :=
  match s with
  | String c s' => if is_space c then lstrip s' else s
  | EmptyString => EmptyString
  end.

Definition strip (s : string) : string :=
  String.rev (lstrip (String.rev (lstrip s))).

(** Decimal digits with single underscores between them, as [int] accepts. *)
Fixpoint digits_go (s : string) (acc : Z) (prev_digit : bool) : option Z :=
  match s with
  | EmptyString => if prev_digit then Some acc else None
  | String c s' =>
      if is_digit c then digits_go s' (10 * acc + digit_val c) true
      else if Ascii.eqb c "_" && prev_digit then digits_go s' acc false
      else None
  end.

Definition parse_int (s : string) : option Z :=
  match strip s with
  | String "-" d => Z.opp <$> digits_go d 0 false
  | String "+" d => digits_go d 0 false
  | d => digits_go d 0 false
  end.

(** [int(v)]: raises ValueError on a malformed string, TypeError on None. *)
Definition py_int (v : pyval) : result Z :=
  match v with
  | PInt z => Ok z
  | PBool b => Ok (if b then 1 else 0)
  | PStr s =>
      match parse_int s with
      | Some z => Ok z
      | None => Raise (Exn "ValueError" ("invalid literal for int() with base 10: " ++ s))
      end
  | PNone => Raise (Exn "TypeError" "int() argument must be a string, a bytes-like object or a real number, not 'NoneType'")
  end.

(** ** Data model *)

(** A listing dict.  Every adapter writes the key ['id'] with a [str]; the
    other keys are read with [.get], so each is optional here.  Such a
    dict is never empty, hence the guard [if not listing] of
    [_meets_criteria] never fires. *)
Record listing := Listing {
  id : string;
  title : option pyval;
  price : option pyval;
  price_text : option pyval;
  address : option pyval;
  bedrooms : option pyval;
  description : option pyval;
  link : option pyval;
  images : option (list string);
  source : option pyval
}.

(** [config["filters"]].  A bound is [None] when its key is absent or
    null, and an integer otherwise. *)
Record filters := Filters {
  keywords : option (list string);
  exclude_keywords : option (list string);
  min_price : option Z;
  max_price : option Z;
  min_beds : option Z;
  max_beds : option Z
}.

Definition no_filters : filters := Filters None None None None None None.

(** [config["notifications"]["email"]]. *)
Record email_config := EmailConfig {
  sender : option string;
  recipient : option string;
  smtp_server : option string;
  smtp_port : option Z;
  username : option string;
  password : option string
}.

(** What an adapter reads with [config.get(<its name>, {})]: a top-level
    key of the config named after the site. *)
Record adapter_config := AdapterConfig {
  base_url : option string;
  search_url : option string;
  params : option (gmap string pyval)
}.

Definition no_adapter_config : adapter_config := AdapterConfig None None None.

(** The config dict.  [cfg_sites] keeps the order of the JSON object,
    which is the order in which [dict.items()] yields the sites;
    [cfg_adapter] holds the top-level keys named after a site. *)
Record config := Config {
  cfg_sort_type : option string;
  cfg_sites : option (list (string * gmap string pyval));
  cfg_filters : option filters;
  cfg_email : option email_config;
  cfg_bypass_seen_check : option pyval;
  cfg_adapter : gmap string adapter_config
}.

(** The [{}] that [_load_config] returns on failure. *)
Definition empty_config : config := Config None None None None None ∅.

(** ** Filter engine: [PropertyScanner._meets_criteria] *)

Definition listing_text (l : listing) : string :=
  lower (py_str (get (title l) (PStr "")) ++ " " ++
         py_str (get (address l) (PStr "")) ++ " " ++
         py_str (get (description l) (PStr ""))).

(** The loop over [exclude_keywords]: true when some keyword matches. *)
Definition excluded_by_keyword (f : filters) (l : listing) : bool :=
  existsb (fun keyword => contains (lower keyword) (listing_text l))
          (get (exclude_keywords f) []).

(** The required-keywords step: true when the listing survives it. *)
Definition keyword_check (f : filters) (l : listing) : bool :=
  match get (keywords f) [] with
  | [] => true
  | kws => existsb (fun keyword => contains (lower keyword) (listing_text l)) kws
  end.

(** The body shared by the price and the bedrooms step: true when the
    listing survives.  The [except (ValueError, TypeError): pass] is the
    [Raise] branch. *)
Definition bound_check (lo hi : option Z) (v : pyval) : bool :=
  match lo, hi with
  | None, None => true
  | _, _ =>
      match py_int v with
      | Ok n =>
          negb (match lo with Some m => n <? m | None => false end) &&
          negb (match hi with Some m => n >? m | None => false end)
      | Raise _ => true
      end
  end.

Definition price_check (f : filters) (l : listing) : bool :=
  bound_check (min_price f) (max_price f) (get (price l) (PInt 0)).

Definition beds_check (f : filters) (l : listing) : bool :=
  bound_check (min_beds f) (max_beds f) (get (bedrooms l) (PInt 0)).

Definition _meets_criteria (c : config) (l : listing) : bool :=
  let f := get (cfg_filters c) no_filters in
  if excluded_by_keyword f l then false
  else if negb (keyword_check f l) then false
  else if negb (price_check f l) then false
  else if negb (beds_check f l) then false
  else true.

(** ** Effects *)

Inductive level := INFO | WARNING | ERROR.

(** One HTTP GET: [requests.get(url, headers=...)] or [session.get]. *)
Record request := Request {
  req_url : string;
  req_headers : gmap string string
}.

Record response := Response {
  status_code : Z;
  text : string
}.

(** The message handed to [server.send_message]. *)
Record mail := Mail {
  mail_from : option string;
  mail_to : option string;
  mail_subject : string;
  mail_body : string
}.

(** What a run can change: the scanner's [seen_listings] attribute and the
    outside world.  [st_requests] lists the GETs issued so far, oldest
    first; [st_clock] counts the reads of [datetime.now()];
    [st_seen_file] is [seen_listings.csv] (absent, unreadable, or its
    content). *)
Record state := State {
  seen_listings : gmap string string;
  st_log : list (level * string);
  st_requests : list request;
  st_clock : nat;
  st_seen_file : option (result (gmap string string));
  st_outbox : list mail;
  st_stdout : list string
}.

Definition io (A : Type) : Type := state -> result A * state.

#[global] Instance io_ret : MRet io := fun _ a st => (Ok a, st).
#[global] Instance io_bind : MBind io := fun _ _ k m st =>
  match m st with
  | (Ok a, st') => k a st'
  | (Raise e, st') => (Raise e, st')
  end.

Definition raise {A} (e : exn) : io A := fun st => (Raise e, st).

(** [try: body except Exception as e: handler(e)]. *)
Definition try_except {A} (body : io A) (handler : exn -> io A) : io A :=
  fun st =>
    match body st with
    | (Ok a, st') => (Ok a, st')
    | (Raise e, st') => handler e st'
    end.

Definition lift {A} (r : result A) : io A := fun st => (r, st).

Definition log (lv : level) (msg : string) : io unit := fun st =>
  (Ok tt,
   State (seen_listings st) (st_log st ++ [(lv, msg)]) (st_requests st)
         (st_clock st) (st_seen_file st) (st_outbox st) (st_stdout st)).

Definition print (line : string) : io unit := fun st =>
  (Ok tt,
   State (seen_listings st) (st_log st) (st_requests st) (st_clock st)
         (st_seen_file st) (st_outbox st) (st_stdout st ++ [line])).

(** Reads [datetime.now()]: the tick, and the clock moves on. *)
Definition now : io nat := fun st =>
  (Ok (st_clock st),
   State (seen_listings st) (st_log st) (st_requests st) (S (st_clock st))
         (st_seen_file st) (st_outbox st) (st_stdout st)).

Definition get_seen : io (gmap string string) := fun st =>
  (Ok (seen_listings st), st).

Definition set_seen (m : gmap string string) : io unit := fun st =>
  (Ok tt,
   State m (st_log st) (st_requests st) (st_clock st)
         (st_seen_file st) (st_outbox st) (st_stdout st)).

Definition record_request (r : request) (st : state) : state :=
  State (seen_listings st) (st_log st) (st_requests st ++ [r]) (st_clock st)
        (st_seen_file st) (st_outbox st) (st_stdout st).

(** ** What the adapters see of a page

    [BeautifulSoup] and [json.loads] are library code.  A page reaches
    the model as the items the selectors or the JSON navigation yield,
    each with the attributes that its id is built from and with the
    display fields that the rest of the loop body extracts (an exception
    raised while extracting them is the [Raise] case). *)

Record card_fields := CardFields {
  cf_title : pyval;
  cf_price : pyval;
  cf_price_text : pyval;
  cf_address : pyval;
  cf_bedrooms : pyval;
  cf_description : pyval;
  cf_link : pyval;
  cf_images : list string
}.

(** [price_data] of a Rightmove property; [rm_displayPrices] lists the
    ['displayPrice'] key of each entry. *)
Record rm_price := RmPrice {
  rm_amount : option pyval;
  rm_displayPrices : option (list (option pyval))
}.

(** One element of [property_data] in the [__NEXT_DATA__] blob.
    [rm_images] is [prop['propertyImages']['images']] when both keys are
    there, as the ['srcUrl'] key of each image. *)
Record rm_prop := RmProp {
  rm_id : option pyval;
  rm_summary : option pyval;
  rm_bedrooms : option pyval;
  rm_displayAddress : option pyval;
  rm_price_data : option rm_price;
  rm_propertyUrl : option pyval;
  rm_images : option (list (option string))
}.

(** A Zoopla result card: attributes [id] and [data-listing-id], and the
    [href] of its first [a[href*="/details/"]]. *)
Record zoopla_card := ZooplaCard {
  zc_id : option string;
  zc_data_listing_id : option string;
  zc_details_href : option string;
  zc_fields : result card_fields
}.

(** A property of Zoopla's embedded JSON: keys ['id'] and ['listingId']. *)
Record zoopla_prop := ZooplaProp {
  zp_id : option pyval;
  zp_listingId : option pyval;
  zp_fields : result card_fields
}.

(** An OnTheMarket card: attributes [id] and [data-property-id], and the
    [href] of its first [a[href*="/details/"]]. *)
Record otm_card := OtmCard {
  oc_id : option string;
  oc_data_property_id : option string;
  oc_details_href : option string;
  oc_fields : result card_fields
}.

(** A SpareRoom card: attribute [data-listing-id], and the same attribute
    of the enclosing [li] when there is one. *)
Record spareroom_card := SpareroomCard {
  sc_data_listing_id : option string;
  sc_parent_li : option (option string);
  sc_fields : result card_fields
}.

(** An OpenRent card: attribute [data-listing-id] of its
    [.property-row-carousel], when it has one. *)
Record openrent_card := OpenrentCard {
  rc_carousel : option (option string);
  rc_fields : result card_fields
}.

(** The surroundings of a run, fixed while it lasts.  [http_get] answers a
    GET given the GETs that came before it (cookies, rate limits and
    blocking are functions of that history) or raises; [open_json] is
    [open(path)] followed by [json.load]; [dump_error] is the exception,
    if any, that writing [seen_listings.csv] raises; [smtp_send] is the
    SMTP session of [_send_email]; [isoformat], [strftime] and
    [timestamp] render the clock; the remaining fields are the view an
    adapter has of a page, given its text. *)
Record env := Env {
  http_get : list request -> request -> result response;
  open_json : string -> result config;
  dump_error : option exn;
  smtp_send : mail -> result unit;
  isoformat : nat -> string;
  strftime : nat -> string;
  timestamp : nat -> string;
  rightmove_data : string -> result (list rm_prop);
  zoopla_cards : string -> list zoopla_card;
  zoopla_scripts : string -> result (list (result (list zoopla_prop)));
  onthemarket_cards : string -> list otm_card;
  spareroom_cards : string -> list spareroom_card;
  openrent_cards : string -> list openrent_card
}.

Definition GET (E : env) (url : string) (headers : gmap string string)
  : io response := fun st =>
  let r := Request url headers in
  (http_get E (st_requests st) r, record_request r st).

(** ** Adapters: the fetch stage *)

Definition mac_chrome : string :=
  "Mozilla/5.0 (Macintosh; Intel Mac OS X 10_15_7) AppleWebKit/537.36 (KHTML, like Gecko) Chrome/120.0.0.0 Safari/537.36".

Definition windows_chrome : string :=
  "Mozilla/5.0 (Windows NT 10.0; Win64; x64) AppleWebKit/537.36 (KHTML, like Gecko) Chrome/120.0.0.0 Safari/537.36".

(** The double-quote character, as a string. *)
Definition dq : string := String (ascii_of_nat 34) EmptyString.

(** [BaseAdapter.__init__]: [self.headers]. *)
Definition base_headers : gmap string string :=
  <["User-Agent" := mac_chrome]>
  (<["Accept" := "text/html,application/xhtml+xml,application/xml;q=0.9,image/avif,image/webp,*/*;q=0.8"]>
  (<["Accept-Language" := "en-US,en;q=0.5"]>
  (<["Accept-Encoding" := "gzip, deflate, br"]>
  (<["Connection" := "keep-alive"]> ∅)))).

(** [ZooplaAdapter.__init__]: [self.headers]. *)
Definition zoopla_headers : gmap string string :=
  <["User-Agent" := mac_chrome]>
  (<["Accept" := "text/html,application/xhtml+xml,application/xml;q=0.9,image/avif,image/webp,image/apng,*/*;q=0.8,application/signed-exchange;v=b3;q=0.7"]>
  (<["Accept-Language" := "en-US,en;q=0.9"]>
  (<["Accept-Encoding" := "gzip, deflate, br"]>
  (<["Referer" := "https://www.zoopla.co.uk/"]>
  (<["sec-ch-ua" := dq ++ "Google Chrome" ++ dq ++ ";v=" ++ dq ++ "120" ++ dq ++ ", " ++ dq ++ "Chromium" ++ dq ++ ";v=" ++ dq ++ "120" ++ dq ++ ", " ++ dq ++ "Not=A?Brand" ++ dq ++ ";v=" ++ dq ++ "99" ++ dq]>
  (<["sec-ch-ua-mobile" := "?0"]>
  (<["sec-ch-ua-platform" := dq ++ "macOS" ++ dq]>
  (<["sec-fetch-dest" := "document"]>
  (<["sec-fetch-mode" := "navigate"]>
  (<["sec-fetch-site" := "same-origin"]>
  (<["sec-fetch-user" := "?1"]>
  (<["Connection" := "keep-alive"]>
  (<["Cookie" := ""]>
  (<["Upgrade-Insecure-Requests" := "1"]> ∅)))))))))))))).

(** [BaseAdapter.fetch_listings]: one GET, whatever the status.  It is
    the fetch stage of the OnTheMarket, SpareRoom and OpenRent adapters,
    which do not override it. *)
Definition base_fetch_listings (E : env) (headers : gmap string string)
  (url : string) : io string :=
  response ← GET E url headers;
  mret (text response).

(** The body shared, word for word up to the site's name and homepage, by
    [RightmoveAdapter.fetch_listings] and [ZooplaAdapter.fetch_listings].
    The [time.sleep] before it changes nothing that the model observes. *)
Definition session_fetch_listings (E : env) (site homepage : string)
  (headers : gmap string string) (url : string) : io string :=
  try_except
    (GET E homepage headers;;
     response ← GET E url headers;
     response ← (if status_code response =? 403 then
                   log ERROR ("Received 403 Forbidden - " ++ site ++ " may be blocking scrapers");;
                   let alt_headers := <["User-Agent" := windows_chrome]> headers in
                   GET E url alt_headers
                 else mret response);
     mret (text response))
    (fun e =>
       log ERROR ("Error fetching " ++ site ++ " listings: " ++ exn_msg e);;
       mret "").

Definition rightmove_fetch_listings (E : env) : string -> io string :=
  session_fetch_listings E "Rightmove" "https://www.rightmove.co.uk/" base_headers.

Definition zoopla_fetch_listings (E : env) : string -> io string :=
  session_fetch_listings E "Zoopla" "https://www.zoopla.co.uk/" zoopla_headers.

(** ** Adapters: the parse stage *)

(** [a or b] on strings. *)
Definition str_or (a b : string) : string :=
  if String.eqb a "" then b else a.

Fixpoint take_while (p : ascii -> bool) (s : string) : string :=
  match s with
  | String c s' => if p c then String c (take_while p s') else EmptyString
  | EmptyString => EmptyString
  end.

Fixpoint skip (n : nat) (s : string) : string :=
  match n, s with
  | S n', String _ s' => skip n' s'
  | _, _ => s
  end.

(** [re.search(marker + '(C+)', s)] for a character class [C]: group 1 of
    the leftmost match, the longest run of [C] that follows [marker]. *)
Fixpoint search_group (marker : string) (C : ascii -> bool) (s : string)
  : option string :=
  let here :=
    if String.prefix marker s
    then take_while C (skip (String.length marker) s)
    else EmptyString in
  if negb (String.eqb here "") then Some here
  else match s with
       | String _ s' => search_group marker C s'
       | EmptyString => None
       end.

Definition not_slash (c : ascii) : bool := negb (Ascii.eqb c "/").

(** A [for item in items: try: ... except Exception as e: ...] loop that
    appends to [listings]; the body yields [None] where the code says
    [continue]. *)
Fixpoint collect {A} (body : A -> io (option listing))
  (on_error : exn -> io unit) (items : list A) (listings : list listing)
  : io (list listing) :=
  match items with
  | [] => mret listings
  | item :: rest =>
      listings ← try_except
        (o ← body item;
         mret (match o with
               | Some l => (listings ++ [l])%list
               | None => listings
               end))
        (fun e => on_error e;; mret listings);
      collect body on_error rest listings
  end.

(** *** Rightmove *)

(** [summary[:100] if summary else "Property"]; slicing a number raises. *)
Definition rightmove_title (summary : pyval) : result pyval :=
  if truthy summary then
    match summary with
    | PStr s => Ok (PStr (String.substring 0 100 s))
    | _ => Raise (Exn "TypeError" "object is not subscriptable")
    end
  else Ok (PStr "Property").

Definition rightmove_prop_listing (prop : rm_prop) : result listing :=
  let prop_id := get (rm_id prop) PNone in
  let summary := get (rm_summary prop) (PStr "") in
  let bedrooms := get (rm_bedrooms prop) (PInt 1) in
  let address := get (rm_displayAddress prop) (PStr "") in
  let price_data := get (rm_price_data prop) (RmPrice None None) in
  let amount := get (rm_amount price_data) (PInt 0) in
  let display_prices := get (rm_displayPrices price_data) [] in
  let price_text :=
    match display_prices with
    | d :: _ => get d (PStr ("£" ++ py_str amount))
    | [] => PStr ("£" ++ py_str amount)
    end in
  let property_url := get (rm_propertyUrl prop) (PStr "") in
  match rightmove_title summary with
  | Raise e => Raise e
  | Ok title =>
  Ok {| id := py_str prop_id;
        title := Some title;
        price := Some amount;
        price_text := Some price_text;
        address := Some address;
        bedrooms := Some bedrooms;
        description := None;
        link := Some (PStr (if truthy property_url
                            then "https://www.rightmove.co.uk" ++ py_str property_url
                            else ""));
        images := omap (M:=list) (fun src_url : option string => src_url) <$> rm_images prop;
        source := Some (PStr "rightmove") |}
  end.

(** [RightmoveAdapter._parse_from_json_data], which is all that
    [RightmoveAdapter.parse_listings] runs. *)
Definition rightmove_parse_listings (E : env) (raw_data : string)
  : io (list listing) :=
  match rightmove_data E raw_data with
  | Ok property_data =>
      collect (fun prop => l ← lift (rightmove_prop_listing prop); mret (Some l))
              (fun e => log ERROR ("Error parsing property from JSON: " ++ exn_msg e))
              property_data []
  | Raise e => log ERROR ("Error extracting JSON data: " ++ exn_msg e);; mret []
  end.

(** *** Zoopla *)

Definition zoopla_card_id (card : zoopla_card) : string :=
  let id_elem := str_or (get (zc_id card) "") (get (zc_data_listing_id card) "") in
  if String.eqb id_elem "" then
    match zc_details_href card with
    | Some href =>
        if String.eqb href "" then id_elem
        else get (search_group "/details/" is_digit href) id_elem
    | None => id_elem
    end
  else id_elem.

Definition zoopla_card_listing (card : zoopla_card) : io (option listing) :=
  let id_elem := zoopla_card_id card in
  if String.eqb id_elem "" then mret None
  else
    f ← lift (zc_fields card);
    mret (Some {| id := "zoopla-" ++ id_elem;
                  title := Some (cf_title f);
                  price := Some (cf_price f);
                  price_text := Some (cf_price_text f);
                  address := Some (cf_address f);
                  bedrooms := Some (cf_bedrooms f);
                  description := None;
                  link := Some (cf_link f);
                  images := Some (cf_images f);
                  source := Some (PStr "zoopla") |}).

Definition zoopla_prop_listing (prop : zoopla_prop) : io (option listing) :=
  let prop_id := get (zp_id prop) (get (zp_listingId prop) (PStr "")) in
  if negb (truthy prop_id) then mret None
  else
    f ← lift (zp_fields prop);
    mret (Some {| id := "zoopla-" ++ py_str prop_id;
                  title := Some (cf_title f);
                  price := Some (cf_price f);
                  price_text := Some (cf_price_text f);
                  address := Some (cf_address f);
                  bedrooms := Some (cf_bedrooms f);
                  description := None;
                  link := Some (cf_link f);
                  images := Some (cf_images f);
                  source := Some (PStr "zoopla") |}).

(** The loop over the script tags of [ZooplaAdapter._parse_from_json_data];
    a script whose JSON does not load is passed over by the bare
    [except: continue]. *)
Fixpoint zoopla_scripts_loop (scripts : list (result (list zoopla_prop)))
  (listings : list listing) : io (list listing) :=
  match scripts with
  | [] => mret listings
  | Ok property_data :: rest =>
      listings ← collect zoopla_prop_listing
        (fun e => log ERROR ("Error parsing Zoopla property from JSON: " ++ exn_msg e))
        property_data listings;
      zoopla_scripts_loop rest listings
  | Raise _ :: rest => zoopla_scripts_loop rest listings
  end.

Definition zoopla_parse_from_json_data (E : env) (raw_data : string)
  : io (list listing) :=
  match zoopla_scripts E raw_data with
  | Ok script_tags => zoopla_scripts_loop script_tags []
  | Raise e => log ERROR ("Error extracting Zoopla JSON data: " ++ exn_msg e);; mret []
  end.

Definition zoopla_parse_listings (E : env) (raw_data : string)
  : io (list listing) :=
  listings ← collect zoopla_card_listing
    (fun e => log ERROR ("Error parsing Zoopla property: " ++ exn_msg e))
    (zoopla_cards E raw_data) [];
  match listings with
  | [] => zoopla_parse_from_json_data E raw_data
  | _ => mret listings
  end.

(** *** OnTheMarket *)

Definition otm_card_id (card : otm_card) : string :=
  let id_elem := str_or (get (oc_id card) "") (get (oc_data_property_id card) "") in
  if String.eqb id_elem "" then
    match oc_details_href card with
    | Some href =>
        if String.eqb href "" then id_elem
        else get (search_group "/details/" not_slash href) id_elem
    | None => id_elem
    end
  else id_elem.

Definition otm_card_listing (card : otm_card) : io (option listing) :=
  let id_elem := otm_card_id card in
  if String.eqb id_elem "" then mret None
  else
    f ← lift (oc_fields card);
    mret (Some {| id := "otm-" ++ id_elem;
                  title := Some (cf_title f);
                  price := Some (cf_price f);
                  price_text := Some (cf_price_text f);
                  address := Some (cf_address f);
                  bedrooms := Some (cf_bedrooms f);
                  description := Some (cf_description f);
                  link := Some (cf_link f);
                  images := Some (cf_images f);
                  source := Some (PStr "onthemarket") |}).

Definition onthemarket_parse_listings (E : env) (raw_data : string)
  : io (list listing) :=
  collect otm_card_listing
    (fun e => log ERROR ("Error parsing OnTheMarket property: " ++ exn_msg e))
    (onthemarket_cards E raw_data) [].

(** *** SpareRoom *)

Definition spareroom_card_listing (E : env) (card : spareroom_card)
  : io (option listing) :=
  let listing_id := get (sc_data_listing_id card) "" in
  let listing_id :=
    if String.eqb listing_id "" then
      match sc_parent_li card with
      | Some parent_li => get parent_li ""
      | None => listing_id
      end
    else listing_id in
  listing_id ← (if String.eqb listing_id ""
                then t ← now; mret ("sr-" ++ timestamp E t)
                else mret listing_id);
  f ← lift (sc_fields card);
  mret (Some {| id := "spareroom-" ++ listing_id;
                title := Some (cf_title f);
                price := Some (cf_price f);
                price_text := Some (cf_price_text f);
                address := Some (cf_address f);
                bedrooms := Some (PInt 1);
                description := None;
                link := Some (cf_link f);
                images := Some (cf_images f);
                source := Some (PStr "spareroom") |}).

Definition spareroom_parse_listings (E : env) (raw_data : string)
  : io (list listing) :=
  collect (spareroom_card_listing E)
    (fun e => log ERROR ("Error parsing SpareRoom property: " ++ exn_msg e))
    (spareroom_cards E raw_data) [].

(** *** OpenRent *)

Definition openrent_card_id (card : openrent_card) : string :=
  match rc_carousel card with
  | Some (Some data_listing_id) => data_listing_id
  | Some None => ""
  | None => ""
  end.

Definition openrent_card_listing (card : openrent_card) : io (option listing) :=
  let id_elem := openrent_card_id card in
  if String.eqb id_elem "" then mret None
  else
    f ← lift (rc_fields card);
    mret (Some {| id := "openrent-" ++ id_elem;
                  title := Some (cf_title f);
                  price := Some (cf_price f);
                  price_text := Some (cf_price_text f);
                  address := Some (cf_address f);
                  bedrooms := Some (cf_bedrooms f);
                  description := None;
                  link := Some (cf_link f);
                  images := Some (cf_images f);
                  source := Some (PStr "openrent") |}).

Definition openrent_parse_listings (E : env) (raw_data : string)
  : io (list listing) :=
  collect openrent_card_listing
    (fun e => log ERROR ("Error parsing OpenRent property: " ++ exn_msg e))
    (openrent_cards E raw_data) [].

(** ** Adapters: the search URL *)

Definition upper_ascii (c : ascii) : ascii :=
  let n := N_of_ascii c in
  if ((97 <=? n) && (n <=? 122))%N then ascii_of_N (n - 32) else c.

(** [str.capitalize]. *)
Definition capitalize (s : string) : string :=
  match s with
  | String c s' => String (upper_ascii c) (lower s')
  | EmptyString => EmptyString
  end.

(** [self.params.get(key, default)], printed into the URL. *)
Definition param (a : adapter_config) (key : string) (dflt : pyval) : pyval :=
  get (get (params a) ∅ !! key) dflt.

(** [sort_mapping.get(self.sort_type, sort_mapping["default"])], behind
    the [site_specific] shortcut that every [get_sort_parameter] but
    Zoopla's starts with. *)
Definition mapped_sort_parameter (sort_mapping : gmap string string)
  (sort_type : string) (site_specific : bool) : string :=
  if site_specific && negb (String.eqb sort_type "default") then sort_type
  else get (sort_mapping !! sort_type) (get (sort_mapping !! "default") "").

Definition rightmove_sort_mapping : gmap string string :=
  list_to_map [("price_high_to_low", "sortType=2");
               ("price_low_to_high", "sortType=1");
               ("newest_first", "sortType=6");
               ("oldest_first", "sortType=10");
               ("default", "sortType=6")].

Definition onthemarket_sort_mapping : gmap string string :=
  list_to_map [("price_high_to_low", "sort-field=price");
               ("price_low_to_high", "direction=asc&sort-field=price");
               ("newest_first", "sort-field=update_date");
               ("default", "")].

Definition spareroom_sort_mapping : gmap string string :=
  list_to_map [("price_high_to_low", "sort_by=price_high_to_low");
               ("price_low_to_high", "sort_by=price_low_to_high");
               ("newest_first", "sort_by=days_since_placed");
               ("last_updated", "sort_by=last_updated");
               ("default", "sort_by=days_since_placed")].

Definition openrent_sort_mapping : gmap string string :=
  list_to_map [("price_high_to_low", "sortType=2");
               ("price_low_to_high", "sortType=1");
               ("default", "")].

(** [if sort_param: url += f"&{sort_param}"]. *)
Definition add_sort (url sort_param : string) : string :=
  if String.eqb sort_param "" then url else url ++ "&" ++ sort_param.

(** The float defaults [0.0] are only ever printed; they stand here as
    the text they print as. *)
Definition rightmove_build_url (a : adapter_config) (sort_type : string) : string :=
  let search_url := get (search_url a) "https://www.rightmove.co.uk/property-to-rent/find.html" in
  let url :=
    search_url ++ "?" ++
    "locationIdentifier=" ++ py_str (param a "location_identifier" (PStr "REGION^219")) ++
    "&minPrice=" ++ py_str (param a "min_price" (PInt 0)) ++
    "&maxPrice=" ++ py_str (param a "max_price" (PInt 1200)) ++
    "&minBedrooms=" ++ py_str (param a "min_beds" (PInt 1)) ++
    "&maxBedrooms=" ++ py_str (param a "max_beds" (PInt 1)) ++
    "&radius=" ++ py_str (param a "radius" (PStr "0.0")) ++
    "&includeLetAgreed=" ++ lower (py_str (param a "include_let_agreed" (PBool false))) ++
    "&dontShow=" ++ py_str (param a "dont_show" (PStr "houseShare,student,retirement")) ++
    "&letType=" ++ py_str (param a "let_type" (PStr "shortTerm")) ++
    "&propertyTypes=&mustHave=&dontShow=&furnishTypes=&keywords=" in
  add_sort url (mapped_sort_parameter rightmove_sort_mapping sort_type false).

Definition zoopla_build_url (a : adapter_config) : string :=
  let search_url := get (search_url a) "https://www.zoopla.co.uk/to-rent/property/" in
  search_url ++ py_str (param a "location" (PStr "bristol")) ++ "?" ++
  "q=" ++ py_str (param a "q" (PStr "property bristol bristol")) ++ "&" ++
  "beds_min=" ++ py_str (param a "beds_min" (PInt 0)) ++ "&" ++
  "beds_max=" ++ py_str (param a "beds_max" (PInt 1)) ++ "&" ++
  "price_min=" ++ py_str (param a "price_min" (PInt 0)) ++ "&" ++
  "price_max=" ++ py_str (param a "price_max" (PInt 1500)) ++ "&" ++
  "radius=" ++ py_str (param a "radius" (PStr "0.0")) ++ "&" ++
  "price_frequency=" ++ py_str (param a "price_frequency" (PStr "per_month")) ++ "&" ++
  "search_source=" ++ py_str (param a "search_source" (PStr "to-rent")) ++ "&" ++
  "is_retirement_home=" ++ py_str (param a "is_retirement_home" (PBool false)) ++ "&" ++
  "is_shared_accommodation=" ++ py_str (param a "is_shared_accommodation" (PBool false)) ++ "&" ++
  "is_student_accommodation=" ++ py_str (param a "is_student_accommodation" (PBool false)) ++ "&" ++
  "furnished_state=" ++ py_str (param a "furnished_state" (PStr "any")) ++ "&" ++
  "available_from=" ++ py_str (param a "available_from" (PStr "1month")).

Definition onthemarket_build_url (a : adapter_config) (sort_type : string) : string :=
  let base_url := get (base_url a) "https://www.onthemarket.com" in
  let url :=
    base_url ++ "/to-rent/property/" ++ py_str (param a "location" (PStr "bristol")) ++ "/" ++
    "?min-bedrooms=" ++ py_str (param a "min-bedrooms" (PInt 0)) ++
    "&max-bedrooms=" ++ py_str (param a "max-bedrooms" (PInt 1)) ++
    "&max-price=" ++ py_str (param a "max-price" (PInt 1500)) ++
    "&let-length=" ++ py_str (param a "let-length" (PStr "short-term")) ++
    "&furnished=" ++ py_str (param a "furnished" (PStr "furnished")) ++
    "&shared=" ++ py_str (param a "shared" (PBool false)) ++
    "&student=" ++ py_str (param a "student" (PBool false)) in
  add_sort url (mapped_sort_parameter onthemarket_sort_mapping sort_type false).

Definition spareroom_build_url (a : adapter_config) (sort_type : string) : string :=
  let url := get (search_url a) "https://www.spareroom.co.uk/flatshare/?search_id=1361538853&mode=list" in
  let sort_param := mapped_sort_parameter spareroom_sort_mapping sort_type false in
  if String.eqb sort_param "" then url
  else
    let separator := if contains "?" url then "&" else "?" in
    url ++ separator ++ sort_param.

(** [location.capitalize()] needs a [str]; anything else raises. *)
Definition openrent_build_url (a : adapter_config) (sort_type : string)
  : result string :=
  let search_url := get (search_url a) "https://www.openrent.co.uk/properties-to-rent/bristol" in
  let min_price := param a "min_price" (PInt 0) in
  let accept_non_students := param a "accept-non-students" (PBool true) in
  let is_live := param a "is-live" (PBool true) in
  match param a "location" (PStr "bristol") with
  | PStr location =>
      let location_term := capitalize location ++ ", " ++ capitalize location in
      let url :=
        search_url ++ "?" ++
        "term=" ++ location_term ++
        (if truthy min_price then "&prices_min=" ++ py_str min_price else "") ++
        "&prices_max=" ++ py_str (param a "max_price" (PInt 1500)) ++
        "&bedrooms_min=" ++ py_str (param a "min_beds" (PInt 0)) ++
        "&bedrooms_max=" ++ py_str (param a "max_beds" (PInt 1)) ++
        "&furnishedType=" ++ py_str (param a "furnished-type" (PStr "1")) ++
        (if truthy accept_non_students
         then "&acceptNonStudents=" ++ py_str accept_non_students else "") ++
        (if truthy is_live then "&isLive=" ++ py_str is_live else "") in
      Ok (add_sort url (mapped_sort_parameter openrent_sort_mapping sort_type false))
  | _ => Raise (Exn "AttributeError" "object has no attribute 'capitalize'")
  end.

(** ** The orchestrator: [PropertyScanner] *)

(** The three stages that [PropertyScanner.fetch_listings] calls on an
    adapter. *)
Record adapter := Adapter {
  adapter_build_url : result string;
  adapter_fetch_listings : string -> io string;
  adapter_parse_listings : string -> io (list listing)
}.

(** The attributes of a scanner that a run only reads;
    [self.seen_listings] lives in the [state]. *)
Record scanner := Scanner {
  self_config : config;
  self_sort_type : string;
  self_adapters : gmap string adapter
}.

Definition site_config (c : config) (site : string) : adapter_config :=
  get (cfg_adapter c !! site) no_adapter_config.

(** The five adapter classes, each with the stages it defines or
    inherits from [BaseAdapter]. *)
Definition RightmoveAdapter (E : env) (c : config) (sort_type : string) : adapter :=
  Adapter (Ok (rightmove_build_url (site_config c "rightmove") sort_type))
          (rightmove_fetch_listings E) (rightmove_parse_listings E).

Definition ZooplaAdapter (E : env) (c : config) (sort_type : string) : adapter :=
  Adapter (Ok (zoopla_build_url (site_config c "zoopla")))
          (zoopla_fetch_listings E) (zoopla_parse_listings E).

Definition SpareroomAdapter (E : env) (c : config) (sort_type : string) : adapter :=
  Adapter (Ok (spareroom_build_url (site_config c "spareroom") sort_type))
          (base_fetch_listings E base_headers) (spareroom_parse_listings E).

Definition OnTheMarketAdapter (E : env) (c : config) (sort_type : string) : adapter :=
  Adapter (Ok (onthemarket_build_url (site_config c "onthemarket") sort_type))
          (base_fetch_listings E base_headers) (onthemarket_parse_listings E).

Definition OpenRentAdapter (E : env) (c : config) (sort_type : string) : adapter :=
  Adapter (openrent_build_url (site_config c "openrent") sort_type)
          (base_fetch_listings E base_headers) (openrent_parse_listings E).

Definition _initialize_adapters (E : env) (c : config) (sort_type : string)
  : gmap string adapter :=
  list_to_map
    [("rightmove", RightmoveAdapter E c sort_type);
     ("zoopla", ZooplaAdapter E c sort_type);
     ("spareroom", SpareroomAdapter E c sort_type);
     ("onthemarket", OnTheMarketAdapter E c sort_type);
     ("openrent", OpenRentAdapter E c sort_type)].

Definition _load_config (E : env) (config_path : string) : io config :=
  try_except (lift (open_json E config_path))
    (fun e => log ERROR ("Failed to load config: " ++ exn_msg e);;
              mret empty_config).

Definition _load_seen_listings : io (gmap string string) := fun st =>
  match st_seen_file st with
  | Some (Ok seen) => (Ok seen, st)
  | Some (Raise e) =>
      (log ERROR ("Failed to load seen listings: " ++ exn_msg e);; mret ∅) st
  | None => (Ok ∅, st)
  end.

(** [PropertyScanner.__init__]. *)
Definition PropertyScanner (E : env) (config_path : string) : io scanner :=
  c ← _load_config E config_path;
  seen ← _load_seen_listings;
  set_seen seen;;
  let sort_type := get (cfg_sort_type c) "default" in
  mret (Scanner c sort_type (_initialize_adapters E c sort_type)).

Definition write_seen_file : io unit := fun st =>
  (Ok tt,
   State (seen_listings st) (st_log st) (st_requests st) (st_clock st)
         (Some (Ok (seen_listings st))) (st_outbox st) (st_stdout st)).

Definition _save_seen_listings (E : env) : io unit :=
  try_except
    (match dump_error E with
     | Some e => raise e
     | None => write_seen_file
     end)
    (fun e => log ERROR ("Failed to save seen listings: " ++ exn_msg e)).

(** The loop of [_get_enabled_sites] over [sites.items()]. *)
Fixpoint enabled_loop (sites : list (string * gmap string pyval))
  (enabled_sites : list string) : list string :=
  match sites with
  | [] => enabled_sites
  | (site, site_config) :: rest =>
      if truthy (get (site_config !! "enabled") (PBool true))
      then enabled_loop rest (enabled_sites ++ [site])
      else enabled_loop rest enabled_sites
  end.

Definition _get_enabled_sites (c : config) : list string :=
  let sites := get (cfg_sites c) [] in
  let enabled_sites := enabled_loop sites [] in
  match enabled_sites with
  | [] => ["rightmove"]
  | _ => enabled_sites
  end.

(** The body of the [try] in the loop of [fetch_listings]: the listings
    the site adds, none where the code says [continue]. *)
Definition fetch_site (s : scanner) (site_name : string) : io (list listing) :=
  match self_adapters s !! lower site_name with
  | None => log WARNING ("No adapter available for " ++ site_name);; mret []
  | Some a =>
      url ← lift (adapter_build_url a);
      raw_data ← adapter_fetch_listings a url;
      site_listings ← adapter_parse_listings a raw_data;
      mret site_listings
  end.

Fixpoint fetch_loop (s : scanner) (sites : list string)
  (all_listings : list listing) : io (list listing) :=
  match sites with
  | [] => mret all_listings
  | site_name :: rest =>
      all_listings ← try_except
        (site_listings ← fetch_site s site_name;
         mret (all_listings ++ site_listings)%list)
        (fun e =>
           log ERROR ("Failed to fetch listings from " ++ site_name ++ ": " ++ exn_msg e);;
           mret all_listings);
      fetch_loop s rest all_listings
  end.

Definition fetch_listings (s : scanner) : io (list listing) :=
  fetch_loop s (_get_enabled_sites (self_config s)) [].

(** [listing['id'] in self.seen_listings]. *)
Definition seen_before (seen : gmap string string) (l : listing) : bool :=
  match seen !! id l with
  | Some _ => true
  | None => false
  end.

Fixpoint filter_loop (E : env) (c : config) (bypass_seen_check : pyval)
  (listings filtered_listings : list listing) : io (list listing) :=
  match listings with
  | [] => mret filtered_listings
  | l :: rest =>
      seen ← get_seen;
      if seen_before seen l && negb (truthy bypass_seen_check)
      then filter_loop E c bypass_seen_check rest filtered_listings
      else if _meets_criteria c l then
        t ← now;
        set_seen (<[id l := isoformat E t]> seen);;
        filter_loop E c bypass_seen_check rest (filtered_listings ++ [l])%list
      else filter_loop E c bypass_seen_check rest filtered_listings
  end.

Definition filter_listings (E : env) (s : scanner) (listings : list listing)
  : io (list listing) :=
  let bypass_seen_check := get (cfg_bypass_seen_check (self_config s)) (PBool false) in
  filter_loop E (self_config s) bypass_seen_check listings [].

(** ** The notifier *)

Definition nl : string := String (ascii_of_nat 10) EmptyString.

Definition field_text (field : option pyval) (dflt : string) : string :=
  py_str (get field (PStr dflt)).

Fixpoint email_body (listings : list listing) (body : string) : string :=
  match listings with
  | [] => body
  | l :: rest =>
      email_body rest
        (body ++
         field_text (title l) "Property" ++ " - " ++ field_text (price_text l) "" ++
         " - " ++ field_text (address l) "" ++
         " - [" ++ field_text (source l) "unknown" ++ "]" ++ nl ++
         "Link: " ++ field_text (link l) "" ++ nl ++ nl)
  end.

Definition deliver (E : env) (message : mail) : io unit := fun st =>
  match smtp_send E message with
  | Ok _ =>
      (Ok tt,
       State (seen_listings st) (st_log st) (st_requests st) (st_clock st)
             (st_seen_file st) (st_outbox st ++ [message]) (st_stdout st))
  | Raise e => (Raise e, st)
  end.

Definition _send_email (E : env) (s : scanner) (listings : list listing) : io unit :=
  match cfg_email (self_config s) with
  | None => log WARNING "No email configuration found"
  | Some email_config =>
      try_except
        (t ← now;
         let subject := "New Properties Found: " ++ pretty (length listings) ++
                        " at " ++ strftime E t in
         let body := email_body listings ("New properties found:" ++ nl ++ nl) in
         deliver E (Mail (sender email_config) (recipient email_config) subject body))
        (fun e => raise (Exn "Exception" ("Failed to send email: " ++ exn_msg e)))
  end.

Fixpoint print_each (listings : list listing) : io unit :=
  match listings with
  | [] => mret tt
  | l :: rest =>
      print (field_text (title l) "Property" ++ " - " ++
             field_text (price_text l) "" ++ " - " ++ field_text (address l) "");;
      print ("Link: " ++ field_text (link l) "");;
      print "";;
      print_each rest
  end.

Definition _print_listings (listings : list listing) : io unit :=
  print_each (take 5 listings);;
  if (5 <? length listings)%nat
  then print ("... and " ++ pretty (length listings - 5)%nat ++ " more listings")
  else mret tt.

Definition notify_user (E : env) (s : scanner) (listings : list listing) : io unit :=
  try_except (_send_email E s listings)
    (fun e =>
       log ERROR ("Failed to send notification: " ++ exn_msg e);;
       _print_listings listings).

(** ** A run *)

(** [PropertyScanner.run_scraper].  Its INFO lines are recorded.  The
    call [self.notify_user(filtered_listings)] is a comment in the
    source, so the branch only logs. *)
Definition run_scraper (E : env) (s : scanner) : io unit :=
  try_except
    (log INFO "Fetching listings...";;
     listings ← fetch_listings s;
     log INFO ("Found " ++ pretty (length listings) ++ " listings");;
     log INFO "Filtering listings...";;
     filtered_listings ← filter_listings E s listings;
     log INFO ("Filtered to " ++ pretty (length filtered_listings) ++ " listings");;
     match filtered_listings with
     | _ :: _ =>
         log INFO "Notifying user...";;
         log INFO "User notified"
     | [] => mret tt
     end;;
     _save_seen_listings E;;
     log INFO "Seen listings saved")
    (fun e => log ERROR ("Error running scraper: " ++ exn_msg e)).

(** ** The run wrapper: [run_scraper.py] *)

(** How [main] ends: it returns, [sys.exit] is called, or an exception
    escapes. *)
Inductive outcome :=
  | Returned
  | SystemExit (code : Z)
  | Uncaught (e : exn).

(** [main] of [run_scraper.py], without the [--log] redirection and the
    lines it prints about timing.  [load_config] is its first half. *)
Definition main (E : env) (config_path : string) : state -> outcome * state :=
  fun st =>
    match open_json E config_path with
    | Raise e =>
        let '(_, st) := print ("Error loading config file: " ++ exn_msg e) st in
        (SystemExit 1, st)
    | Ok _ =>
        match (s ← PropertyScanner E config_path; run_scraper E s) st with
        | (Ok _, st) => (Returned, st)
        | (Raise e, st) => (Uncaught e, st)
        end
    end.

(** ** Vocabulary of the properties *)

(** The state once [filter_listings] has registered [l]: a timestamp
    under its id, and the clock one tick on. *)
Definition register (E : env) (l : listing) (st : state) : state :=
  State (<[id l := isoformat E (st_clock st)]> (seen_listings st))
        (st_log st) (st_requests st) (S (st_clock st))
        (st_seen_file st) (st_outbox st) (st_stdout st).

(** The ids of some listings, as a set. *)
Definition ids (ls : list listing) : gset string := list_to_set (id <$> ls).

(** [config["debug"]["bypass_seen_check"]], as [filter_listings] reads it. *)
Definition bypass (c : config) : bool :=
  truthy (get (cfg_bypass_seen_check c) (PBool false)).

(** A site's entry says [enabled] in so many words. *)
Definition explicitly_enabled (site_config : gmap string pyval) : bool :=
  match site_config !! "enabled" with
  | Some v => truthy v
  | None => false
  end.

(** A site's entry does not switch the site off: [enabled] is truthy or
    is not there. *)
Definition not_disabled (site_config : gmap string pyval) : bool :=
  truthy (get (site_config !! "enabled") (PBool true)).

(** A request sent under the alternate client identity. *)
Definition alt_identity (r : request) : bool :=
  bool_decide (req_headers r !! "User-Agent" = Some windows_chrome).

(** How many of the requests [new] are retries under that identity. *)
Definition retries (new : list request) : nat :=
  length (List.filter alt_identity new).

(** The line that [fetch_listings] logs when a site's turn ends in [e]. *)
Definition failure_message (site_name : string) (e : exn) : string :=
  "Failed to fetch listings from " ++ site_name ++ ": " ++ exn_msg e.

(** What each site came to when the sites are processed in order from
    [st]: the listings of its three stages, or the exception that ended
    its turn. *)
Fixpoint site_outcomes (s : scanner) (sites : list string) (st : state)
  : list (string * result (list listing)) :=
  match sites with
  | [] => []
  | site_name :: rest =>
      let '(r, st1) := fetch_site s site_name st in
      (site_name, r) ::
      site_outcomes s rest
        match r with
        | Ok _ => st1
        | Raise e => (log ERROR (failure_message site_name e) st1).2
        end
  end.

(** The listings of the sites that succeeded, in order. *)
Fixpoint successes (outcomes : list (string * result (list listing)))
  : list listing :=
  match outcomes with
  | [] => []
  | (_, Ok site_listings) :: rest => (site_listings ++ successes rest)%list
  | (_, Raise _) :: rest => successes rest
  end.

(** [m], run from any state, ends in a state that [R] relates to it. *)
Definition preserves (R : relation state) {A} (m : io A) : Prop :=
  forall st, R st (m st).2.

(** Both stages of every adapter of the scanner preserve [R]. *)
Definition adapters_preserve (R : relation state) (s : scanner) : Prop :=
  forall site a, self_adapters s !! site = Some a ->
    (forall url, preserves R (adapter_fetch_listings a url)) /\
    (forall raw_data, preserves R (adapter_parse_listings a raw_data)).

(** The log has only grown. *)
Definition log_grows : relation state := fun st st' =>
  st_log st `prefix_of` st_log st'.

(** The log and the list of requests have only grown, and nothing was
    mailed or printed. *)
Definition quietly : relation state := fun st st' =>
  st_log st `prefix_of` st_log st' /\
  st_requests st `prefix_of` st_requests st' /\
  st_outbox st' = st_outbox st /\
  st_stdout st' = st_stdout st.

(** The first request sent after [st] is [r]. *)
Definition first_request (r : request) : relation state := fun st st' =>
  (st_requests st ++ [r])%list `prefix_of` st_requests st'.

(** The id of [l] is some raw identifier behind the tag of a site. *)
Definition namespaced (tag : string) (l : listing) : Prop :=
  exists raw : string, id l = tag ++ "-" ++ raw.

(** ** Sample inputs *)

(** A listing with the given title, price and bedroom count. *)
Definition sample_listing (i : string) (t : string) (p b : pyval) : listing :=
  {| id := i; title := Some (PStr t); price := Some p;
     price_text := Some (PStr "POA"); address := Some (PStr "1 Park Row, Bristol");
     bedrooms := Some b; description := None;
     link := Some (PStr "https://example.org/1"); images := Some [];
     source := Some (PStr "zoopla") |}.

(** [{"filters": {"min_price": 800, "max_price": 1200}}]. *)
Definition price_filters : filters :=
  Filters None None (Some 800) (Some 1200) None None.

Definition price_config : config :=
  Config None None (Some price_filters) None None ∅.

(** [{"filters": {"exclude_keywords": ["student"]}}]. *)
Definition student_filters : filters :=
  Filters None (Some ["student"]) None None None None.

Definition student_config : config :=
  Config None None (Some student_filters) None None ∅.

(** [{"sites": {"zoopla": {}}}]: one site, and no [enabled] key. *)
Definition zoopla_only_config : config :=
  Config None (Some [("zoopla", ∅)]) None None None ∅.

(** A fresh process: nothing seen, logged, requested, saved or sent. *)
Definition sample_state : state := State ∅ [] [] 0 None [] [].

(** One property of Rightmove's [__NEXT_DATA__] blob. *)
Definition sample_prop : rm_prop :=
  RmProp (Some (PInt 12345)) (Some (PStr "Bright one-bed flat")) (Some (PInt 1))
         (Some (PStr "Park Row, Bristol")) (Some (RmPrice (Some (PInt 950)) None))
         (Some (PStr "/properties/12345")) None.

(** The exception of [open] on a missing [config.json]. *)
Definition no_config_file : exn :=
  Exn "FileNotFoundError" "[Errno 2] No such file or directory: 'config.json'".

(** Surroundings in which every GET is answered with [status], loading
    the config gives [loaded], the store file can be written, mail is
    accepted, Rightmove's page lists [sample_prop] and the other sites
    list nothing. *)
Definition sample_env (status : Z) (loaded : result config) : env :=
  Env (fun _ _ => Ok (Response status "<html></html>"))
      (fun _ => loaded)
      None
      (fun _ => Ok tt)
      (fun t => "2025-01-01T09:00:0" ++ pretty t)
      (fun _ => "2025-01-01 09:00:00")
      (fun _ => "1735722000.0")
      (fun _ => Ok [sample_prop])
      (fun _ => []) (fun _ => Ok []) (fun _ => []) (fun _ => []) (fun _ => []).

(** Two sites, [siteA] whose fetch stage raises a network error and
    [siteB] whose parse stage returns two listings. *)
Definition siteA_adapter : adapter :=
  Adapter (Ok "https://a.example/search")
          (fun _ => raise (Exn "ConnectionError" "Max retries exceeded"))
          (fun _ => mret []).

Definition siteB_listings : list listing :=
  [sample_listing "b-1" "Flat" (PInt 900) (PInt 1);
   sample_listing "b-2" "House" (PInt 1100) (PInt 2)].

Definition siteB_adapter : adapter :=
  Adapter (Ok "https://b.example/search")
          (fun _ => mret "<html></html>")
          (fun _ => mret siteB_listings).

Definition two_sites_config : config :=
  Config None
         (Some [("siteA", {["enabled" := PBool true]});
                ("siteB", {["enabled" := PBool true]})])
         None None None ∅.

Definition two_sites_scanner : scanner :=
  Scanner two_sites_config "default"
          (<["sitea" := siteA_adapter]> (<["siteb" := siteB_adapter]> ∅)).

(** A scanner as [PropertyScanner] builds it from [c]. *)
Definition scanner_of (E : env) (c : config) : scanner :=
  let sort_type := get (cfg_sort_type c) "default" in
  Scanner c sort_type (_initialize_adapters E c sort_type).

(** A run of the scanner in a fresh process where [config.json] cannot
    be opened and the network answers 200. *)
Definition unloadable_run : result unit * state :=
  (s ← PropertyScanner (sample_env 200 (Raise no_config_file)) "config.json";
   run_scraper (sample_env 200 (Raise no_config_file)) s) sample_state.

(** A config with mail settings and Rightmove switched on. *)
Definition mail_config : config :=
  Config None
         (Some [("rightmove", {["enabled" := PBool true]})])
         None
         (Some (EmailConfig (Some "scanner@example.org") (Some "tenant@example.org")
                            (Some "smtp.example.org") (Some 465)
                            (Some "scanner") (Some "secret")))
         None ∅.

(** A run of the scanner in a fresh process with that config, a network
    that answers 200 and a mail server that accepts mail. *)
Definition mailing_run : result unit * state :=
  (s ← PropertyScanner (sample_env 200 (Ok mail_config)) "config.json";
   run_scraper (sample_env 200 (Ok mail_config)) s) sample_state.

(** The listing that Rightmove's page yields in the sample surroundings. *)
Definition sample_rightmove_listing : listing :=
  {| id := "12345"; title := Some (PStr "Bright one-bed flat");
     price := Some (PInt 950); price_text := Some (PStr "£950");
     address := Some (PStr "Park Row, Bristol"); bedrooms := Some (PInt 1);
     description := None;
     link := Some (PStr "https://www.rightmove.co.uk/properties/12345");
     images := None; source := Some (PStr "rightmove") |}.

(** A Rightmove property whose id is the string [zoopla-7], and a Zoopla
    card whose [id] attribute is [7]. *)
Definition rightmove_prop_zoopla_7 : rm_prop :=
  RmProp (Some (PStr "zoopla-7")) None None None None None None.

Definition sample_fields : card_fields :=
  CardFields (PStr "Flat") (PInt 900) (PStr "£900 pcm") (PStr "Park Row")
             (PInt 1) (PStr "") (PStr "https://www.zoopla.co.uk/to-rent/details/7") [].

Definition zoopla_card_7 : zoopla_card :=
  ZooplaCard (Some "7") None None (Ok sample_fields).

(** [{"filters": {"min_beds": 1, "max_beds": 2, "max_price": 1200}}]. *)
Definition beds_filters : filters :=
  Filters None None None (Some 1200) (Some 1) (Some 2).

Definition beds_config : config :=
  Config None None (Some beds_filters) None None ∅.

(** [{"filters": {"keywords": ["garden", "balcony"]}}]. *)
Definition garden_filters : filters :=
  Filters (Some ["garden"; "Balcony"]) None None None None None.

Definition garden_config : config :=
  Config None None (Some garden_filters) None None ∅.

(** A listing dict without the keys ['price'] and ['bedrooms']. *)
Definition bare_listing : listing :=
  {| id := "otm-9"; title := Some (PStr "Flat"); price := None;
     price_text := None; address := None; bedrooms := None;
     description := None; link := None; images := None; source := None |}.

(** The two lines [run_scraper] logs around the notification it does not
    send, when there is something to notify about. *)
Definition notification_lines (filtered_listings : list listing) (st : state)
  : state :=
  match filtered_listings with
  | [] => st
  | _ :: _ => (log INFO "User notified" (log INFO "Notifying user..." st).2).2
  end.

(** The state in which [run_scraper] ends when fetching leaves
    [listings] and filtering leaves [filtered_listings] in [st]. *)
Definition run_end (E : env) (filtered_listings : list listing) (st : state)
  : state :=
  (log INFO "Seen listings saved"
     (_save_seen_listings E
        (notification_lines filtered_listings
           (log INFO ("Filtered to " ++ pretty (length filtered_listings) ++ " listings")
                st).2)).2).2.


(** A state whose store already holds the id of [sample_prop]. *)
Definition seen_state : state :=
  State {["12345" := "2024-12-24T18:00:00"]} [] [] 0
        (Some (Ok {["12345" := "2024-12-24T18:00:00"]})) [] [].

(** The store file is what it was. *)
Definition file_kept : relation state := fun st st' =>
  st_seen_file st' = st_seen_file st.

(** A state whose store file exists but does not hold JSON. *)
Definition corrupt_state : state :=
  State ∅ [] [] 0
        (Some (Raise (Exn "JSONDecodeError" "Expecting value: line 1 column 1 (char 0)")))
        [] [].

(** The three lines that [_print_listings] prints for a listing. *)
Definition console_lines (l : listing) : list string :=
  [field_text (title l) "Property" ++ " - " ++
   field_text (price_text l) "" ++ " - " ++ field_text (address l) "";
   "Link: " ++ field_text (link l) "";
   ""].

(** All that [_print_listings] prints for [listings]. *)
Definition console_fallback (listings : list listing) : list string :=
  (flat_map console_lines (take 5 listings) ++
   if (5 <? length listings)%nat
   then [("... and " ++ pretty (length listings - 5)%nat ++ " more listings")%string]
   else [])%list.

(** The message that [_send_email] composes at clock tick [t]. *)
Definition composed_mail (E : env) (email : email_config)
  (listings : list listing) (t : nat) : mail :=
  Mail (sender email) (recipient email)
       ("New Properties Found: " ++ pretty (length listings) ++ " at " ++ strftime E t)
       (email_body listings ("New properties found:" ++ nl ++ nl)).

(** [{"sites": {"rightmove": {"enabled": false}, "zoopla": {"enabled": false}}}]. *)
Definition all_off_config : config :=
  Config None
         (Some [("rightmove", {["enabled" := PBool false]});
                ("zoopla", {["enabled" := PBool false]})])
         None None None ∅.

(** Surroundings like [sample_env], but where every request fails with a
    connection error. *)
Definition offline_env : env :=
  Env (fun _ _ => Raise (Exn "ConnectionError" "Network is unreachable"))
      (fun _ => Ok empty_config)
      None
      (fun _ => Ok tt)
      (fun t => "2025-01-01T09:00:0" ++ pretty t)
      (fun _ => "2025-01-01 09:00:00")
      (fun _ => "1735722000.0")
      (fun _ => Ok [])
      (fun _ => []) (fun _ => Ok []) (fun _ => []) (fun _ => []) (fun _ => []).

(** A config whose [openrent] block gives the location as a number. *)
Definition numeric_location_config : config :=
  Config None (Some [("openrent", ∅)]) None None None
         {["openrent" := AdapterConfig None None (Some {["location" := PInt 7]})]}.

(** The values of the calls that returned, in order. *)
Definition kept {A} (rs : list (result A)) : list A :=
  omap (fun r => match r with Ok a => Some a | Raise _ => None end) rs.

(** The exceptions of the calls that raised, in order. *)
Definition failures {A} (rs : list (result A)) : list exn :=
  omap (fun r => match r with Ok _ => None | Raise e => Some e end) rs.

(** A SpareRoom card that carries no listing id anywhere. *)
Definition anonymous_card : spareroom_card :=
  SpareroomCard None (Some None) (Ok sample_fields).

(** ** JSON navigation of the adapters

    What [json.loads] returns: an object is the list of its members, and
    of two members with the same key the first one counts. *)
#[local] Unset Elimination Schemes.
Inductive json :=
  | JNull
  | JBool (b : bool)
  | JNum (z : Z)
  | JStr (s : string)
  | JArr (items : list json)
  | JObj (members : list (string * json)).
#[local] Set Elimination Schemes.

Fixpoint member (key : string) (members : list (string * json)) : option json :=
  match members with
  | [] => None
  | (k, v) :: rest => if String.eqb k key then Some v else member key rest
  end.

Definition is_text (key : string) (j : json) : bool :=
  match j with
  | JStr s => String.eqb s key
  | _ => false
  end.

(** [key in data]: membership among the keys of an object, among the
    elements of a list, substring of a string; anything else is not
    iterable. *)
Definition json_in (key : string) (data : json) : result bool :=
  match data with
  | JObj members => Ok (match member key members with Some _ => true | None => false end)
  | JArr items => Ok (existsb (is_text key) items)
  | JStr s => Ok (contains key s)
  | _ => Raise (Exn "TypeError" "argument is not iterable")
  end.

(** [data[key]] for a string [key]: only an object can be indexed so. *)
Definition json_getitem (key : string) (data : json) : result json :=
  match data with
  | JObj members =>
      match member key members with
      | Some v => Ok v
      | None => Raise (Exn "KeyError" key)
      end
  | JArr _ => Raise (Exn "TypeError" "list indices must be integers or slices, not str")
  | JStr _ => Raise (Exn "TypeError" "string indices must be integers, not 'str'")
  | _ => Raise (Exn "TypeError" "object is not subscriptable")
  end.

(** The inner loop of [ZooplaAdapter._extract_property_data_from_json]:
    [None] where the code sets [data = None] and breaks. *)
Fixpoint follow (data : json) (path : list string) : result (option json) :=
  match path with
  | [] => Ok (Some data)
  | key :: rest =>
      match json_in key data with
      | Raise e => Raise e
      | Ok true =>
          match json_getitem key data with
          | Ok data => follow data rest
          | Raise e => Raise e
          end
      | Ok false => Ok None
      end
  end.

Definition zoopla_paths : list (list string) :=
  [["props"; "pageProps"; "initialResults"; "properties"];
   ["props"; "pageProps"; "initialResults"; "listings"];
   ["props"; "pageProps"; "searchResults"; "listings"];
   ["initialState"; "searchResults"; "properties"];
   ["initialState"; "searchResults"; "listings"];
   ["results"; "properties"];
   ["results"; "listings"]].

(** The outer loop: a path whose walk raises is passed over by the bare
    [except: pass]. *)
Fixpoint extract_loop (json_data : json) (paths : list (list string))
  : list json :=
  match paths with
  | [] => []
  | path :: rest =>
      match follow json_data path with
      | Ok (Some (JArr (item :: items))) => item :: items
      | _ => extract_loop json_data rest
      end
  end.

Definition _extract_property_data_from_json (json_data : json) : list json :=
  extract_loop json_data zoopla_paths.

(** The member of nested objects that a path of keys leads to. *)
Fixpoint at_path (data : json) (path : list string) : option json :=
  match path with
  | [] => Some data
  | key :: rest =>
      match data with
      | JObj members =>
          match member key members with
          | Some v => at_path v rest
          | None => None
          end
      | _ => None
      end
  end.

(** The first non-empty list that one of [paths] leads to. *)
Fixpoint first_list (data : json) (paths : list (list string)) : list json :=
  match paths with
  | [] => []
  | path :: rest =>
      match at_path data path with
      | Some (JArr (item :: items)) => item :: items
      | _ => first_list data rest
      end
  end.

#[global] Instance result_fmap : FMap result := fun _ _ f r =>
  match r with
  | Ok a => Ok (f a)
  | Raise e => Raise e
  end.

(** [d.get(key, default)] on what must be a dict. *)
Definition json_get (key : string) (dflt : json) (data : json) : result json :=
  match data with
  | JObj members => Ok (get (member key members) dflt)
  | _ => Raise (Exn "AttributeError" "object has no attribute 'get'")
  end.

(** The navigation of [RightmoveAdapter._parse_from_json_data] from the
    decoded [__NEXT_DATA__] to [property_data]; [None] is the initial
    [property_data = None]. *)
Definition rightmove_property_data (json_data : json) : result (option json) :=
  match json_in "props" json_data with
  | Raise e => Raise e
  | Ok false => Ok None
  | Ok true =>
  match json_getitem "props" json_data with
  | Raise e => Raise e
  | Ok props =>
  match json_in "pageProps" props with
  | Raise e => Raise e
  | Ok false => Ok None
  | Ok true =>
  match json_getitem "pageProps" props with
  | Raise e => Raise e
  | Ok page_props =>
  match json_in "propertyData" page_props with
  | Raise e => Raise e
  | Ok true =>
      match json_getitem "propertyData" page_props with
      | Raise e => Raise e
      | Ok d =>
          match json_get "properties" (JArr []) d with
          | Ok property_data => Ok (Some property_data)
          | Raise e => Raise e
          end
      end
  | Ok false =>
      match json_in "searchResults" page_props with
      | Raise e => Raise e
      | Ok true =>
          match json_getitem "searchResults" page_props with
          | Raise e => Raise e
          | Ok d =>
              match json_get "properties" (JArr []) d with
              | Ok property_data => Ok (Some property_data)
              | Raise e => Raise e
              end
          end
      | Ok false => Ok None
      end
  end end end end end.

(** A decoded Rightmove page where [propertyData] has no properties and
    [searchResults] has one. *)
Definition sample_rightmove_json : json :=
  JObj [("props",
         JObj [("pageProps",
                JObj [("searchResults", JObj [("properties", JArr [JObj [("id", JNum 1)]])]);
                      ("propertyData", JObj [("id", JNum 5)])])])].

(** ** Card adapters: the price of a card *)

(** The character class [[\d,]]; [\d] is read as [0-9], which is what it
    matches in ASCII text. *)
Definition digit_or_comma (c : ascii) : bool := is_digit c || Ascii.eqb c ",".

(** [s.replace(',', '')]. *)
Fixpoint remove_commas (s : string) : string :=
  match s with
  | String c s' =>
      if Ascii.eqb c "," then remove_commas s' else String c (remove_commas s')
  | EmptyString => EmptyString
  end.

(** [re.search(r'£([\d,]+)', t) or re.search(r'([\d,]+)', t)], group 1. *)
Definition pound_or_bare (price_text : string) : option string :=
  match search_group "£" digit_or_comma price_text with
  | Some price_str => Some price_str
  | None => search_group "" digit_or_comma price_text
  end.

(** The price of a card in [ZooplaAdapter.parse_listings]: the pair of
    [price_text] and [price].  [price_elem] is the text of the element
    that the selector found, if it found one. *)
Definition zoopla_card_price (price_elem : option string) : string * Z :=
  match price_elem with
  | None => ("Price not specified", 0)
  | Some text =>
      let price_text := strip text in
      (price_text,
       match pound_or_bare price_text with
       | Some price_str =>
           match py_int (PStr (remove_commas price_str)) with
           | Ok price =>
               if contains "pw" (lower price_text) then price * 4 else price
           | Raise _ => 0
           end
       | None => 0
       end)
  end.

(** The price of a card in [OnTheMarketAdapter.parse_listings] and in
    [OpenRentAdapter.parse_listings], which read it alike. *)
Definition monthly_card_price (price_elem : option string) : string * Z :=
  match price_elem with
  | None => ("Price not specified", 0)
  | Some text =>
      let price_text := strip text in
      match search_group "£" digit_or_comma price_text with
      | Some price_str =>
          match py_int (PStr (remove_commas price_str)) with
          | Ok price =>
              (if negb (contains "per month" (lower price_text))
               then "£" ++ pretty price ++ " per month"
               else price_text,
               price)
          | Raise _ => (price_text, 0)
          end
      | None => (price_text, 0)
      end
  end.

(** The price of a card in [SpareroomAdapter.parse_listings], where
    [int] is called outside any [try] of its own. *)
Definition spareroom_card_price (price_elem : option string)
  : result (string * Z) :=
  match price_elem with
  | None => Ok ("Price not specified", 0)
  | Some text =>
      let price_text := strip text in
      match pound_or_bare price_text with
      | Some price_str =>
          match py_int (PStr (remove_commas price_str)) with
          | Ok price =>
              if contains "pw" (lower price_text)
              then let price := price * 4 in
                   Ok ("£" ++ pretty price ++ " pcm (calculated from " ++ price_text ++ ")",
                       price)
              else Ok (price_text, price)
          | Raise e => Raise e
          end
      | None => Ok (price_text, 0)
      end
  end.

(** Every character of [s] is in the class [C]. *)
Fixpoint all_chars (C : ascii -> bool) (s : string) : bool :=
  match s with
  | String c s' => C c && all_chars C s'
  | EmptyString => true
  end.

Definition not_digit (c : ascii) : bool := negb (is_digit c).

Definition not_comma (c : ascii) : bool := negb (Ascii.eqb c ",").

(** ** The web front-end, [app.py] *)

(** The entry that [add_favorite] stores under a listing's id: the form
    fields as they came, and the time. *)
Record favorite := Favorite {
  fav_id : string;
  fav_title : option string;
  fav_price_text : option string;
  fav_address : option string;
  fav_link : option string;
  fav_bedrooms : option string;
  fav_images : list string;
  fav_added_on : string
}.

(** What a request handler works on: the state that the scanner works
    on, the messages flashed so far, and [favorites.json], which is
    absent, or does not load, or holds a map.  The order of the map's
    entries, which only the favourites page shows, is not kept. *)
Record web_state := WebState {
  web_scan : state;
  web_flashes : list string;
  web_favorites_file : option (result (gmap string favorite))
}.

(** The surroundings of a handler: those of the scanner, and whether
    [favorites.json] can be opened for writing. *)
Record web_env := WebEnv {
  web_E : env;
  favorites_open_error : option exn
}.

Definition web (A : Type) : Type := web_state -> result A * web_state.

#[global] Instance web_ret : MRet web := fun _ a w => (Ok a, w).
#[global] Instance web_bind : MBind web := fun _ _ k m w =>
  match m w with
  | (Ok a, w') => k a w'
  | (Raise e, w') => (Raise e, w')
  end.

Definition web_try {A} (body : web A) (handler : exn -> web A) : web A :=
  fun w =>
    match body w with
    | (Ok a, w') => (Ok a, w')
    | (Raise e, w') => handler e w'
    end.

(** A call into the scanner. *)
Definition scan {A} (m : io A) : web A := fun w =>
  ((m (web_scan w)).1,
   WebState (m (web_scan w)).2 (web_flashes w) (web_favorites_file w)).

Definition flash (message : string) : web unit := fun w =>
  (Ok tt,
   WebState (web_scan w) (web_flashes w ++ [message]) (web_favorites_file w)).

(** What a handler answers: a page with its listings, each with its
    [is_favorite] mark, and the count of favourites, or a redirect to an
    endpoint. *)
Inductive view :=
  | Render (template : string) (listings : list (listing * bool))
           (favorites_count : nat)
  | Redirect (endpoint : string).

Module app.

Definition load_favorites : web (gmap string favorite) := fun w =>
  match web_favorites_file w with
  | Some (Ok favorites) => (Ok favorites, w)
  | Some (Raise e) => (Raise e, w)
  | None => (Ok ∅, w)
  end.

Definition save_favorites (W : web_env) (favorites : gmap string favorite)
  : web unit := fun w =>
  match favorites_open_error W with
  | Some e => (Raise e, w)
  | None =>
      (Ok tt, WebState (web_scan w) (web_flashes w) (Some (Ok favorites)))
  end.

(** [request.args.get(key, type=int)]: [None] also where the value is
    there and [int] refuses it. *)
Definition args_get_int (args : gmap string string) (key : string) : option Z :=
  match args !! key with
  | Some raw =>
      match py_int (PStr raw) with
      | Ok n => Some n
      | Raise _ => None
      end
  | None => None
  end.

(** [bound is not None and cmp(int(v), bound)]. *)
Definition beyond (bound : option Z) (cmp : Z -> Z -> bool) (v : pyval)
  : result bool :=
  match bound with
  | Some b => n ← py_int v; mret (cmp n b)
  | None => mret false
  end.

(** One round of the loop of [index]: [true] where the code says
    [continue]. *)
Definition passed_over (min_price max_price min_beds max_beds : option Z)
  (l : listing) : result bool :=
  c ← beyond min_price Z.ltb (get (price l) (PInt 0));
  if c : bool then mret true else
  c ← beyond max_price Z.gtb (get (price l) (PInt 0));
  if c : bool then mret true else
  c ← beyond min_beds Z.ltb (get (bedrooms l) (PInt 0));
  if c : bool then mret true else
  beyond max_beds Z.gtb (get (bedrooms l) (PInt 0)).

Fixpoint index_loop (min_price max_price min_beds max_beds : option Z)
  (all_listings filtered_listings : list listing) : result (list listing) :=
  match all_listings with
  | [] => mret filtered_listings
  | l :: rest =>
      c ← passed_over min_price max_price min_beds max_beds l;
      index_loop min_price max_price min_beds max_beds rest
        (if c : bool then filtered_listings else (filtered_listings ++ [l])%list)
  end.

(** [listing['is_favorite'] = listing['id'] in favorites]. *)
Definition mark (favorites : gmap string favorite) (l : listing)
  : listing * bool :=
  (l, match favorites !! id l with Some _ => true | None => false end).

Definition index (W : web_env) (args : gmap string string) : web view :=
  scanner ← scan (PropertyScanner (web_E W) "config.json");
  let min_price := args_get_int args "min_price" in
  let max_price := args_get_int args "max_price" in
  let min_beds := args_get_int args "min_beds" in
  let max_beds := args_get_int args "max_beds" in
  filtered_listings ← web_try
    (all_listings ← scan (fetch_listings scanner);
     filtered_listings ←
       scan (lift (index_loop min_price max_price min_beds max_beds
                     all_listings []));
     scan (filter_listings (web_E W) scanner filtered_listings))
    (fun e => flash ("Error fetching listings: " ++ exn_msg e);; mret []);
  favorites ← load_favorites;
  mret (Render "index.html" (mark favorites <$> filtered_listings)
               (size favorites)).

Definition add_favorite (W : web_env) (form : gmap string string)
  (images : list string) : web view :=
  let listing_id := form !! "listing_id" in
  let title := form !! "title" in
  let price := form !! "price" in
  let address := form !! "address" in
  let link := form !! "link" in
  let bedrooms := form !! "bedrooms" in
  if String.eqb (get listing_id "") "" then
    flash "Error: No listing ID provided";;
    mret (Redirect "index")
  else
    favorites ← load_favorites;
    t ← scan now;
    let favorites :=
      <[get listing_id "" :=
          Favorite (get listing_id "") title price address link bedrooms images
                   (isoformat (web_E W) t)]> favorites in
    save_favorites W favorites;;
    flash "Listing added to favorites";;
    mret (Redirect "index").

Definition remove_favorite (W : web_env) (form headers : gmap string string)
  : web view :=
  let listing_id := form !! "listing_id" in
  if String.eqb (get listing_id "") "" then
    flash "Error: No listing ID provided";;
    mret (Redirect "favorites")
  else
    favorites ← load_favorites;
    let favorites := delete (get listing_id "") favorites in
    save_favorites W favorites;;
    flash "Listing removed from favorites";;
    let referer := get (headers !! "Referer") "" in
    if contains "favorites" referer
    then mret (Redirect "favorites")
    else mret (Redirect "index").

(** The route [/run_scraper]. *)
Definition run_scraper (W : web_env) : web view :=
  scanner ← scan (PropertyScanner (web_E W) "config.json");
  web_try
    (scan (run_scraper (web_E W) scanner);;
     flash "Scraper run successfully! Check your email for new listings.")
    (fun e => flash ("Error running scraper: " ++ exn_msg e));;
  mret (Redirect "index").

End app.

(** Surroundings of the handlers in which [favorites.json] can be
    written. *)
Definition sample_web_env (E : env) : web_env := WebEnv E None.

(** A fresh process of the web application over the scanner state [st]. *)
Definition web_start (st : state) : web_state := WebState st [] None.

(** The end of [index]: marking the favourites and rendering. *)
Definition page (filtered_listings : list listing) : web view :=
  favorites ← app.load_favorites;
  mret (Render "index.html" (app.mark favorites <$> filtered_listings)
               (size favorites)).

(** The listings that a view of the homepage fetches. *)
Definition page_listings (W : web_env) (w : web_state) : list listing :=
  match PropertyScanner (web_E W) "config.json" (web_scan w) with
  | (Ok scanner, st) =>
      match fetch_listings scanner st with
      | (Ok all_listings, _) => all_listings
      | (Raise _, _) => []
      end
  | (Raise _, _) => []
  end.

(** The store file, the outbox and the console are what they were. *)
Definition untouched : relation state := fun st st' =>
  st_seen_file st' = st_seen_file st /\
  st_outbox st' = st_outbox st /\
  st_stdout st' = st_stdout st.

(** The store in memory is what it was. *)
Definition store_kept : relation state := fun st st' =>
  seen_listings st' = seen_listings st.

(** A property of Rightmove's blob whose price amount is [null]. *)
Definition null_price_prop : rm_prop :=
  RmProp (Some (PInt 777)) (Some (PStr "Price on application")) (Some (PInt 2))
         (Some (PStr "Queen Square, Bristol"))
         (Some (RmPrice (Some PNone) None))
         (Some (PStr "/properties/777")) None.

(** Surroundings like [sample_env 200], but where Rightmove's page lists
    [sample_prop] and then [null_price_prop]. *)
Definition null_price_env : env :=
  Env (fun _ _ => Ok (Response 200 "<html></html>"))
      (fun _ => Ok empty_config)
      None
      (fun _ => Ok tt)
      (fun t => "2025-01-01T09:00:0" ++ pretty t)
      (fun _ => "2025-01-01 09:00:00")
      (fun _ => "1735722000.0")
      (fun _ => Ok [sample_prop; null_price_prop])
      (fun _ => []) (fun _ => Ok []) (fun _ => []) (fun _ => []) (fun _ => []).

(** The form that the button "add to favourites" posts. *)
Definition sample_form : gmap string string :=
  {["listing_id" := "zoopla-1"; "title" := "Flat"; "price" := "£900 pcm"]}.

(** A fresh process whose [favorites.json] exists but does not hold
    JSON. *)
Definition corrupt_favorites_state : web_state :=
  WebState sample_state []
    (Some (Raise (Exn "JSONDecodeError" "Expecting value: line 1 column 1 (char 0)"))).
(** * Properties *)

(** ** Strings *)

Lemma lower_app (a b : string) : lower (a ++ b) = lower a ++ lower b.
Proof. induction a as [|c a IH]; simpl; [done | by rewrite IH]. Qed.

Lemma string_prefix_app (n a b : string) :
  String.prefix n a = true -> String.prefix n (a ++ b) = true.
Proof.
  revert a. induction n as [|c n IH]; intros a H.
  - by destruct (a ++ b).
  - destruct a as [|c' a]; simpl in *; [done |].
    destruct (ascii_dec c c'); [by apply IH | done].
Qed.

Lemma contains_app_l (n a b : string) :
  contains n a = true -> contains n (a ++ b) = true.
Proof.
  induction a as [|c a IH]; intros H.
  - destruct n; [by destruct b | done].
  - change (String c a ++ b) with (String c (a ++ b)).
    cbn [contains] in *.
    apply orb_true_iff in H as [H | H].
    + apply (string_prefix_app _ _ b) in H.
      change (String c a ++ b) with (String c (a ++ b)) in H.
      by rewrite H.
    + rewrite (IH H). apply orb_true_r.
Qed.

Lemma contains_app_r (n a b : string) :
  contains n b = true -> contains n (a ++ b) = true.
Proof.
  induction a as [|c a IH]; intros H; [done |].
  change (String c a ++ b) with (String c (a ++ b)).
  cbn [contains]. rewrite (IH H). apply orb_true_r.
Qed.

Lemma meets_criteria_checks (c : config) (l : listing) :
  let f := get (cfg_filters c) no_filters in
  _meets_criteria c l =
  negb (excluded_by_keyword f l) && keyword_check f l &&
  price_check f l && beds_check f l.
Proof.
  unfold _meets_criteria. simpl.
  destruct (excluded_by_keyword _ l), (keyword_check _ l),
    (price_check _ l), (beds_check _ l); reflexivity.
Qed.

(** ** The filter engine *)

Lemma bound_check_parsed (lo hi : option Z) (v : pyval) (n : Z) :
  py_int v = Ok n ->
  bound_check lo hi v =
  match lo, hi with
  | Some a, Some b => (a <=? n) && (n <=? b)
  | Some a, None => a <=? n
  | None, Some b => n <=? b
  | None, None => true
  end.
Proof.
  intros Hn. unfold bound_check. rewrite Hn.
  destruct lo as [a|], hi as [b|]; try reflexivity;
    rewrite ?andb_true_r; rewrite ?Z.gtb_ltb;
    rewrite <- ?Z.leb_antisym; reflexivity.
Qed.

Lemma bound_check_unparsed (lo hi : option Z) (v : pyval) (e : exn) :
  py_int v = Raise e -> bound_check lo hi v = true.
Proof.
  intros Hn. unfold bound_check. rewrite Hn. by destruct lo, hi.
Qed.

(** C6.  With [min_price=800] and [max_price=1200]: a listing priced 900
    passes the price check; one priced 1300 fails it and is excluded; one
    whose price [int()] cannot parse passes the price check, so that the
    other three checks alone decide.  Whatever bounds are configured, one
    or both, a parsed price is compared with exactly the bounds that are
    there. *)
Theorem price_bound_fail_open (c : config) (f : filters) (l : listing) :
  cfg_filters c = Some f ->
  min_price f = Some 800 ->
  max_price f = Some 1200 ->
  (price l = Some (PInt 900) -> price_check f l = true) /\
  (price l = Some (PInt 1300) ->
     price_check f l = false /\ _meets_criteria c l = false) /\
  (forall e, py_int (get (price l) (PInt 0)) = Raise e ->
     price_check f l = true /\
     _meets_criteria c l =
       negb (excluded_by_keyword f l) && keyword_check f l && beds_check f l) /\
  (forall (f' : filters) (l' : listing) (n : Z),
     py_int (get (price l') (PInt 0)) = Ok n ->
     price_check f' l' =
     match min_price f', max_price f' with
     | Some lo, Some hi => (lo <=? n) && (n <=? hi)
     | Some lo, None => lo <=? n
     | None, Some hi => n <=? hi
     | None, None => true
     end).
Proof.
  intros Hf Hmin Hmax.
  pose proof (meets_criteria_checks c l) as Hm. rewrite Hf in Hm. simpl in Hm.
  split; [| split; [| split]].
  - intros Hp. unfold price_check. by rewrite Hmin, Hmax, Hp.
  - intros Hp.
    assert (price_check f l = false) as Hc.
    { unfold price_check. by rewrite Hmin, Hmax, Hp. }
    split; [done |]. rewrite Hm, Hc. by rewrite andb_false_r.
  - intros e He.
    assert (price_check f l = true) as Hc.
    { unfold price_check. by apply bound_check_unparsed with e. }
    split; [done |]. rewrite Hm, Hc. by rewrite andb_true_r.
  - intros f' l' n Hn. unfold price_check. by apply bound_check_parsed.
Qed.

Lemma price_bound_fail_open_witness :
  price_check price_filters (sample_listing "zoopla-1" "Flat" (PInt 900) (PInt 1)) = true /\
  _meets_criteria price_config (sample_listing "zoopla-2" "Flat" (PInt 1300) (PInt 1)) = false /\
  price_check price_filters (sample_listing "zoopla-3" "Flat" (PStr "POA") (PInt 1)) = true.
Proof.
  split; [| split].
  - apply (price_bound_fail_open price_config price_filters
             (sample_listing "zoopla-1" "Flat" (PInt 900) (PInt 1)));
      reflexivity.
  - apply (price_bound_fail_open price_config price_filters
             (sample_listing "zoopla-2" "Flat" (PInt 1300) (PInt 1)));
      reflexivity.
  - apply (price_bound_fail_open price_config price_filters
             (sample_listing "zoopla-3" "Flat" (PStr "POA") (PInt 1))
             eq_refl eq_refl eq_refl)
      with (e := Exn "ValueError" "invalid literal for int() with base 10: POA").
    reflexivity.
Defined.

Lemma listing_text_fields (l : listing) :
  listing_text l =
  lower (field_text (title l) "") ++ " " ++
  lower (field_text (address l) "") ++ " " ++
  lower (field_text (description l) "").
Proof. unfold listing_text, field_text. by rewrite !lower_app. Qed.

Lemma excluded_by_keyword_hit (f : filters) (kws : list string)
  (keyword : string) (l : listing) :
  exclude_keywords f = Some kws ->
  keyword ∈ kws ->
  contains (lower keyword) (listing_text l) = true ->
  excluded_by_keyword f l = true.
Proof.
  intros Hk Hin Hc. unfold excluded_by_keyword. rewrite Hk. simpl.
  apply existsb_exists. exists keyword. split; [by apply list_elem_of_In | done].
Qed.

(** C9.  When an exclude-keyword, lowercased, occurs in the lowercased
    text that [_meets_criteria] builds from the title, the address and
    the description (joined by single spaces), the listing is rejected,
    whatever its price, its bedrooms and the include-keywords; an
    occurrence within any one of the three fields is such an occurrence;
    and [exclude_keywords=["student"]] rejects every listing titled
    "Student house". *)
Theorem exclude_keyword_short_circuit (c : config) (f : filters)
  (kws : list string) (l : listing) :
  cfg_filters c = Some f ->
  exclude_keywords f = Some kws ->
  (forall keyword, keyword ∈ kws ->
     contains (lower keyword) (listing_text l) = true ->
     _meets_criteria c l = false) /\
  (forall keyword, keyword ∈ kws ->
     contains (lower keyword) (lower (field_text (title l) "")) = true \/
     contains (lower keyword) (lower (field_text (address l) "")) = true \/
     contains (lower keyword) (lower (field_text (description l) "")) = true ->
     _meets_criteria c l = false) /\
  (kws = ["student"] -> title l = Some (PStr "Student house") ->
     _meets_criteria c l = false).
Proof.
  intros Hf Hk.
  assert (forall keyword, keyword ∈ kws ->
            contains (lower keyword) (listing_text l) = true ->
            _meets_criteria c l = false) as Hgen.
  { intros keyword Hin Hc. unfold _meets_criteria. rewrite Hf. simpl.
    by rewrite (excluded_by_keyword_hit f kws keyword l). }
  split; [done | split].
  - intros keyword Hin Hc. apply (Hgen keyword Hin).
    rewrite listing_text_fields. destruct Hc as [Hc | [Hc | Hc]].
    + by apply contains_app_l.
    + apply contains_app_r, contains_app_r. by apply contains_app_l.
    + by do 4 apply contains_app_r.
  - intros -> Ht. apply (Hgen "student"); [by apply list_elem_of_here |].
    rewrite listing_text_fields, Ht. reflexivity.
Qed.

Lemma exclude_keyword_short_circuit_witness :
  _meets_criteria student_config
    (sample_listing "zoopla-4" "Student house" (PInt 1) (PInt 9)) = false /\
  _meets_criteria student_config
    (sample_listing "zoopla-5" "Student house" (PStr "POA") PNone) = false.
Proof.
  split.
  - apply (exclude_keyword_short_circuit student_config student_filters ["student"]
             (sample_listing "zoopla-4" "Student house" (PInt 1) (PInt 9))
             eq_refl eq_refl); reflexivity.
  - apply (exclude_keyword_short_circuit student_config student_filters ["student"]
             (sample_listing "zoopla-5" "Student house" (PStr "POA") PNone)
             eq_refl eq_refl); reflexivity.
Defined.

(** ** The dedup store *)

Lemma filter_loop_cons (E : env) (c : config) (b : pyval) (l : listing)
  (rest filtered : list listing) (st : state) :
  filter_loop E c b (l :: rest) filtered st =
  if seen_before (seen_listings st) l && negb (truthy b)
  then filter_loop E c b rest filtered st
  else if _meets_criteria c l
       then filter_loop E c b rest (filtered ++ [l]) (register E l st)
       else filter_loop E c b rest filtered st.
Proof.
  cbn [filter_loop]. unfold mbind, io_bind, get_seen.
  destruct (seen_before (seen_listings st) l && negb (truthy b)); [done |].
  destruct (_meets_criteria c l); done.
Qed.

Lemma seen_before_dom (seen : gmap string string) (l : listing) :
  seen_before seen l = true <-> id l ∈ dom seen.
Proof.
  unfold seen_before. rewrite elem_of_dom.
  destruct (seen !! id l) eqn:Hl; split; intros H; done.
Qed.

Lemma ids_nil : ids [] = ∅.
Proof. reflexivity. Qed.

Lemma ids_cons (l : listing) (ls : list listing) : ids (l :: ls) = {[id l]} ∪ ids ls.
Proof. reflexivity. Qed.

Lemma elem_of_ids (k : string) (ls : list listing) :
  k ∈ ids ls <-> exists l, l ∈ ls /\ id l = k.
Proof.
  unfold ids. rewrite elem_of_list_to_set, list_elem_of_fmap.
  split; intros (l & H1 & H2); exists l; by split.
Qed.

(** What one call of the loop does: it returns listings of its input that
    meet the criteria, registers exactly those, each under a timestamp
    read during the call, and touches nothing else but the clock. *)
Lemma filter_loop_run (E : env) (c : config) (b : pyval) (ls : list listing) :
  forall (filtered : list listing) (st : state),
  exists (r : list listing) (st' : state),
    filter_loop E c b ls filtered st = (Ok (filtered ++ r)%list, st') /\
    r `sublist_of` ls /\
    Forall (fun l => _meets_criteria c l = true) r /\
    (forall k, k ∈ ids r ->
       exists t, seen_listings st' !! k = Some (isoformat E t) /\
                 (st_clock st <= t < st_clock st')%nat) /\
    (forall k, k ∉ ids r -> seen_listings st' !! k = seen_listings st !! k) /\
    st_log st' = st_log st /\ st_requests st' = st_requests st /\
    st_seen_file st' = st_seen_file st /\ st_outbox st' = st_outbox st /\
    st_stdout st' = st_stdout st /\
    st_clock st' = (st_clock st + length r)%nat.
Proof.
  induction ls as [|l rest IH]; intros filtered st.
  - exists [], st. cbn [filter_loop length]. rewrite app_nil_r.
    split; [done | split; [done | split; [done | split; [| split]]]].
    + intros k Hk. by rewrite ids_nil in Hk.
    + done.
    + repeat split; try done; lia.
  - rewrite filter_loop_cons.
    destruct (seen_before (seen_listings st) l && negb (truthy b)) eqn:Hskip;
      [| destruct (_meets_criteria c l) eqn:Hm].
    + destruct (IH filtered st) as (r & st' & Hrun & Hsub & Hrest).
      exists r, st'. split; [done | split; [by apply sublist_cons | done]].
    + destruct (IH (filtered ++ [l])%list (register E l st))
        as (r & st' & Hrun & Hsub & Hall & Hts & Hfr & Hl & Hq & Hf & Ho & Hs & Hc).
      exists (l :: r), st'. split; [| split; [| split; [| split; [| split]]]].
      * rewrite Hrun. by rewrite <- app_assoc.
      * by apply sublist_skip.
      * by constructor.
      * intros k Hk. destruct (decide (k ∈ ids r)) as [Hr | Hr].
        { destruct (Hts k Hr) as (t & Ht & Hlo & Hhi). exists t.
          split; [done |]. cbn in Hlo. lia. }
        rewrite ids_cons in Hk. apply elem_of_union in Hk as [Hk | Hk]; [| done].
        apply elem_of_singleton in Hk as ->.
        exists (st_clock st). rewrite (Hfr _ Hr). unfold register. cbn.
        split; [apply lookup_insert_eq |]. cbn in Hc. lia.
      * intros k Hk. rewrite ids_cons in Hk.
        assert (k ∉ ids r) as Hr by (intros H; apply Hk, elem_of_union; by right).
        rewrite (Hfr _ Hr). unfold register. cbn. apply lookup_insert_ne.
        intros <-. apply Hk, elem_of_union. left. by apply elem_of_singleton.
      * cbn in *. repeat split; try done; lia.
    + destruct (IH filtered st) as (r & st' & Hrun & Hsub & Hrest).
      exists r, st'. split; [done | split; [by apply sublist_cons | done]].
Qed.

(** A call never forgets an id. *)
Lemma filter_loop_keeps (E : env) (c : config) (b : pyval)
  (ls filtered : list listing) (st : state) (k : string) :
  k ∈ dom (seen_listings st) ->
  k ∈ dom (seen_listings (filter_loop E c b ls filtered st).2).
Proof.
  destruct (filter_loop_run E c b ls filtered st)
    as (r & st' & Hrun & _ & _ & Hts & Hfr & _).
  rewrite Hrun. cbn. rewrite !elem_of_dom. intros Hk.
  destruct (decide (k ∈ ids r)) as [Hr | Hr].
  - destruct (Hts k Hr) as (t & -> & _). by eexists.
  - by rewrite (Hfr k Hr).
Qed.

(** With the bypass unset, a call leaves every listing of its input that
    meets the criteria registered. *)
Lemma filter_loop_registers_passing (E : env) (c : config) (b : pyval)
  (ls : list listing) :
  truthy b = false ->
  forall (filtered : list listing) (st : state) (l : listing),
    l ∈ ls -> _meets_criteria c l = true ->
    id l ∈ dom (seen_listings (filter_loop E c b ls filtered st).2).
Proof.
  intros Hb. induction ls as [|x rest IH]; intros filtered st l Hin Hm.
  - by apply elem_of_nil in Hin.
  - rewrite filter_loop_cons, Hb. cbn [negb]. rewrite andb_true_r.
    apply elem_of_cons in Hin as [-> | Hin].
    + rewrite Hm. destruct (seen_before (seen_listings st) x) eqn:Hseen.
      * apply filter_loop_keeps. by apply seen_before_dom.
      * apply filter_loop_keeps. unfold register. cbn.
        rewrite dom_insert_L. apply elem_of_union. left. by apply elem_of_singleton.
    + destruct (seen_before (seen_listings st) x); [by apply IH |].
      destruct (_meets_criteria c x); by apply IH.
Qed.

(** With the bypass unset, a call on listings that are all either seen or
    failing returns nothing and changes nothing. *)
Lemma filter_loop_idle (E : env) (c : config) (b : pyval) (ls : list listing) :
  truthy b = false ->
  forall (filtered : list listing) (st : state),
    (forall l, l ∈ ls -> _meets_criteria c l = true ->
               id l ∈ dom (seen_listings st)) ->
    filter_loop E c b ls filtered st = (Ok filtered, st).
Proof.
  intros Hb. induction ls as [|x rest IH]; intros filtered st Hseen; [done |].
  rewrite filter_loop_cons, Hb. cbn [negb]. rewrite andb_true_r.
  assert (filter_loop E c b rest filtered st = (Ok filtered, st)) as Hrest.
  { apply IH. intros l Hin. apply Hseen. by apply elem_of_cons; right. }
  destruct (seen_before (seen_listings st) x) eqn:Hx; [done |].
  destruct (_meets_criteria c x) eqn:Hm; [| done].
  assert (seen_before (seen_listings st) x = true) as Hx'.
  { apply seen_before_dom, Hseen; [apply list_elem_of_here | done]. }
  congruence.
Qed.

(** The listings a call returns when ids do not repeat: those not yet
    seen that meet the criteria, in the order of the input. *)
Lemma filter_loop_fresh (E : env) (c : config) (b : pyval) (ls : list listing) :
  truthy b = false ->
  NoDup (id <$> ls) ->
  forall (filtered : list listing) (st : state),
    (filter_loop E c b ls filtered st).1 =
    Ok (filtered ++
        List.filter (fun l => negb (seen_before (seen_listings st) l) &&
                              _meets_criteria c l) ls)%list.
Proof.
  intros Hb. induction ls as [|x rest IH]; intros Hnd filtered st.
  - cbn. by rewrite app_nil_r.
  - rewrite fmap_cons in Hnd. apply NoDup_cons in Hnd as [Hx Hnd].
    rewrite filter_loop_cons, Hb. cbn [negb List.filter]. rewrite andb_true_r.
    destruct (seen_before (seen_listings st) x) eqn:Hseen; cbn [negb andb].
    + by apply IH.
    + destruct (_meets_criteria c x) eqn:Hm; [| by apply IH].
      rewrite (IH Hnd). rewrite <- app_assoc. cbn [app]. do 3 f_equal.
      apply List.filter_ext_in. intros l Hin. f_equal. f_equal.
      unfold seen_before, register. cbn.
      rewrite lookup_insert_ne; [done |].
      intros Heq. apply Hx. rewrite Heq. apply list_elem_of_fmap.
      exists l. split; [done | by apply list_elem_of_In].
Qed.

(** With the bypass set, a call returns every listing that meets the
    criteria, seen or not. *)
Lemma filter_loop_bypass (E : env) (c : config) (b : pyval) (ls : list listing) :
  truthy b = true ->
  forall (filtered : list listing) (st : state),
    (filter_loop E c b ls filtered st).1 =
    Ok (filtered ++ List.filter (_meets_criteria c) ls)%list.
Proof.
  intros Hb. induction ls as [|x rest IH]; intros filtered st.
  - cbn. by rewrite app_nil_r.
  - rewrite filter_loop_cons, Hb. cbn [negb List.filter]. rewrite andb_false_r.
    destruct (_meets_criteria c x); [| by apply IH].
    rewrite IH. by rewrite <- app_assoc.
Qed.

(** C4.  With the bypass unset and no id repeated in the input, a first
    call of [filter_listings] returns the listings of the input that were
    not yet seen and meet the criteria, in input order, and a second call
    on the same input, in the state the first one left, returns the empty
    list and changes nothing. *)
Theorem dedup_idempotence (E : env) (s : scanner) (ls : list listing)
  (st : state) :
  bypass (self_config s) = false ->
  NoDup (id <$> ls) ->
  exists (r : list listing) (st' : state),
    filter_listings E s ls st = (Ok r, st') /\
    r `sublist_of` ls /\
    r = List.filter (fun l => negb (seen_before (seen_listings st) l) &&
                              _meets_criteria (self_config s) l) ls /\
    filter_listings E s ls st' = (Ok [], st').
Proof.
  intros Hb Hnd. unfold filter_listings, bypass in *.
  set (b := get (cfg_bypass_seen_check (self_config s)) (PBool false)) in *.
  destruct (filter_loop_run E (self_config s) b ls [] st)
    as (r & st' & Hrun & Hsub & _).
  exists r, st'. cbn [app] in Hrun.
  split; [done | split; [done | split]].
  - pose proof (filter_loop_fresh E (self_config s) b ls Hb Hnd [] st) as Hf.
    rewrite Hrun in Hf. cbn in Hf. congruence.
  - apply filter_loop_idle; [done |]. intros l Hin Hm.
    pose proof (filter_loop_registers_passing E (self_config s) b ls Hb [] st l Hin Hm) as Hr.
    by rewrite Hrun in Hr.
Qed.

(** C10.  Every call of [filter_listings] returns; each listing it
    returns is one of the input that meets the criteria and has its id
    in the store under a timestamp read during the call; an id that the
    call adds to the store is the id of a listing it returned, so a
    listing that fails the criteria is not registered; entries under
    other ids are left as they were.  With the bypass set the call
    returns, and so registers, every listing that meets the criteria,
    seen before or not. *)
Theorem filter_registers_what_it_returns (E : env) (s : scanner)
  (ls : list listing) (st : state) :
  exists (r : list listing) (st' : state),
    filter_listings E s ls st = (Ok r, st') /\
    (forall l, l ∈ r ->
       l ∈ ls /\ _meets_criteria (self_config s) l = true /\
       exists t, seen_listings st' !! id l = Some (isoformat E t) /\
                 (st_clock st <= t < st_clock st')%nat) /\
    (forall k, k ∈ dom (seen_listings st') -> k ∉ dom (seen_listings st) ->
       exists l, l ∈ r /\ id l = k /\ _meets_criteria (self_config s) l = true) /\
    (forall k, k ∉ ids r -> seen_listings st' !! k = seen_listings st !! k) /\
    (bypass (self_config s) = true ->
       r = List.filter (_meets_criteria (self_config s)) ls).
Proof.
  unfold filter_listings, bypass.
  set (b := get (cfg_bypass_seen_check (self_config s)) (PBool false)).
  destruct (filter_loop_run E (self_config s) b ls [] st)
    as (r & st' & Hrun & Hsub & Hall & Hts & Hfr & _).
  exists r, st'. cbn [app] in Hrun. rewrite Forall_forall in Hall.
  split; [done | split; [| split; [| split; [done |]]]].
  - intros l Hin. split; [| split].
    + by apply (elem_of_sublist r ls l).
    + by apply Hall.
    + apply Hts, elem_of_ids. by exists l.
  - intros k Hk Hnk. destruct (decide (k ∈ ids r)) as [Hr | Hr].
    + apply elem_of_ids in Hr as (l & Hin & <-). exists l.
      split; [done | split; [done | by apply Hall]].
    + apply elem_of_dom in Hk. rewrite (Hfr k Hr) in Hk.
      by apply elem_of_dom in Hk.
  - intros Hb.
    pose proof (filter_loop_bypass E (self_config s) b ls Hb [] st) as Hf.
    rewrite Hrun in Hf. cbn in Hf. congruence.
Qed.

(** ** Site resolution *)

Lemma enabled_loop_filter (sites : list (string * gmap string pyval))
  (enabled_sites : list string) :
  enabled_loop sites enabled_sites =
  (enabled_sites ++ (List.filter (fun p => not_disabled p.2) sites).*1)%list.
Proof.
  revert enabled_sites.
  induction sites as [|[site site_config] rest IH]; intros enabled_sites.
  - cbn. by rewrite app_nil_r.
  - cbn [enabled_loop List.filter snd]. unfold not_disabled at 1.
    destruct (truthy (get (site_config !! "enabled") (PBool true))).
    + rewrite IH, fmap_cons. by rewrite <- app_assoc.
    + apply IH.
Qed.

(** C8, as the code has it.  A site counts as enabled unless its entry
    sets [enabled] to a false value; an entry without the key counts.
    The run processes the sites that count, in config order, and
    [rightmove] alone when none does. *)
Theorem enabled_sites_resolution (c : config) :
  let counted :=
    (List.filter (fun p => not_disabled p.2) (get (cfg_sites c) [])).*1 in
  _get_enabled_sites c =
  match counted with
  | [] => ["rightmove"]
  | _ => counted
  end.
Proof.
  unfold _get_enabled_sites. cbn zeta. by rewrite enabled_loop_filter.
Qed.

(** C8 as stated fails: no entry of this config says [enabled], yet the
    run resolves to [zoopla], not to [rightmove]. *)
Lemma enabled_sites_not_explicit :
  List.filter (fun p => explicitly_enabled p.2)
              (get (cfg_sites zoopla_only_config) []) = [] /\
  _get_enabled_sites zoopla_only_config = ["zoopla"].
Proof. split; reflexivity. Qed.

(** ** The fetch stage *)

Lemma base_fetch_requests (E : env) (h : gmap string string) (url : string)
  (st : state) :
  st_requests (base_fetch_listings E h url st).2 =
  (st_requests st ++ [Request url h])%list.
Proof.
  unfold base_fetch_listings, mbind, io_bind, GET.
  by destruct (http_get E (st_requests st) (Request url h)).
Qed.

(** The requests of the fetch stage with a session, case by case. *)
Lemma session_fetch_requests (E : env) (site home : string)
  (h : gmap string string) (url : string) (st : state) :
  st_requests (session_fetch_listings E site home h url st).2 =
  (st_requests st ++
   match http_get E (st_requests st) (Request home h) with
   | Raise _ => [Request home h]
   | Ok _ =>
       match http_get E (st_requests st ++ [Request home h]) (Request url h) with
       | Ok resp =>
           if status_code resp =? 403
           then [Request home h; Request url h;
                 Request url (<["User-Agent" := windows_chrome]> h)]
           else [Request home h; Request url h]
       | Raise _ => [Request home h; Request url h]
       end
   end)%list.
Proof.
  unfold session_fetch_listings, try_except, mbind, io_bind, GET. cbn.
  destruct (http_get E (st_requests st) (Request home h)) as [r0 | e0]; cbn.
  - destruct (http_get E (st_requests st ++ [Request home h]) (Request url h))
      as [resp | e1]; cbn.
    + destruct (status_code resp =? 403); cbn.
      * destruct (http_get E _ (Request url (<["User-Agent" := windows_chrome]> h)));
          cbn; by rewrite <- !app_assoc.
      * by rewrite <- !app_assoc.
    + by rewrite <- !app_assoc.
  - done.
Qed.

Lemma registry_lookup (E : env) (c : config) (sort_type site : string)
  (a : adapter) :
  _initialize_adapters E c sort_type !! site = Some a ->
  (site = "rightmove" /\ adapter_fetch_listings a = rightmove_fetch_listings E /\
   adapter_parse_listings a = rightmove_parse_listings E) \/
  (site = "zoopla" /\ adapter_fetch_listings a = zoopla_fetch_listings E /\
   adapter_parse_listings a = zoopla_parse_listings E) \/
  (site = "spareroom" /\ adapter_fetch_listings a = base_fetch_listings E base_headers /\
   adapter_parse_listings a = spareroom_parse_listings E) \/
  (site = "onthemarket" /\ adapter_fetch_listings a = base_fetch_listings E base_headers /\
   adapter_parse_listings a = onthemarket_parse_listings E) \/
  (site = "openrent" /\ adapter_fetch_listings a = base_fetch_listings E base_headers /\
   adapter_parse_listings a = openrent_parse_listings E).
Proof.
  unfold _initialize_adapters. cbn [list_to_map foldr uncurry fst snd].
  intros H.
  repeat (apply lookup_insert_Some in H as [[<- <-] | [_ H]];
          [cbn; tauto |]).
  by rewrite lookup_empty in H.
Qed.

(** C7, as the code has it.  Whatever the site, the fetch stage sends at
    most one request under the alternate identity.  The Rightmove and
    Zoopla adapters, once the homepage and the search page have answered,
    send exactly one such retry of the search request when the answer is
    403, and none otherwise.  The SpareRoom, OnTheMarket and OpenRent
    adapters send the search request once and never retry. *)
Theorem retry_policy (E : env) (c : config) (sort_type site url : string)
  (a : adapter) (st : state) :
  _initialize_adapters E c sort_type !! site = Some a ->
  exists new : list request,
    st_requests (adapter_fetch_listings a url st).2 = (st_requests st ++ new)%list /\
    (retries new <= 1)%nat /\
    (site = "rightmove" \/ site = "zoopla" ->
     exists (home : string) (h : gmap string string),
       h !! "User-Agent" = Some mac_chrome /\
       forall r0 resp,
         http_get E (st_requests st) (Request home h) = Ok r0 ->
         http_get E (st_requests st ++ [Request home h]) (Request url h) = Ok resp ->
         if status_code resp =? 403
         then new = [Request home h; Request url h;
                     Request url (<["User-Agent" := windows_chrome]> h)] /\
              retries new = 1%nat
         else new = [Request home h; Request url h] /\ retries new = 0%nat) /\
    (site = "spareroom" \/ site = "onthemarket" \/ site = "openrent" ->
     new = [Request url base_headers] /\ retries new = 0%nat).
Proof.
  intros Ha.
  destruct (registry_lookup E c sort_type site a Ha)
    as [(-> & -> & _) | [(-> & -> & _) | [(-> & -> & _) | [(-> & -> & _) | (-> & -> & _)]]]].
  - unfold rightmove_fetch_listings. eexists. split; [apply session_fetch_requests |].
    split; [| split].
    + destruct (http_get E (st_requests st) _); [| vm_compute; lia].
      destruct (http_get E _ _); [| vm_compute; lia].
      destruct (status_code _ =? 403); vm_compute; lia.
    + intros _. exists "https://www.rightmove.co.uk/", base_headers.
      split; [reflexivity |]. intros r0 resp -> ->.
      destruct (status_code resp =? 403); split; reflexivity.
    + intros [H | [H | H]]; discriminate H.
  - unfold zoopla_fetch_listings. eexists. split; [apply session_fetch_requests |].
    split; [| split].
    + destruct (http_get E (st_requests st) _); [| vm_compute; lia].
      destruct (http_get E _ _); [| vm_compute; lia].
      destruct (status_code _ =? 403); vm_compute; lia.
    + intros _. exists "https://www.zoopla.co.uk/", zoopla_headers.
      split; [reflexivity |]. intros r0 resp -> ->.
      destruct (status_code resp =? 403); split; reflexivity.
    + intros [H | [H | H]]; discriminate H.
  - eexists. split; [apply base_fetch_requests |].
    split; [vm_compute; lia | split].
    + intros [H | H]; discriminate H.
    + intros _. split; reflexivity.
  - eexists. split; [apply base_fetch_requests |].
    split; [vm_compute; lia | split].
    + intros [H | H]; discriminate H.
    + intros _. split; reflexivity.
  - eexists. split; [apply base_fetch_requests |].
    split; [vm_compute; lia | split].
    + intros [H | H]; discriminate H.
    + intros _. split; reflexivity.
Qed.

(** ** What a run preserves *)

#[local] Instance log_grows_preorder : PreOrder log_grows.
Proof.
  split.
  - intros st. unfold log_grows. done.
  - intros a b c Hab Hbc. unfold log_grows in *. by etrans.
Qed.

#[local] Instance quietly_preorder : PreOrder quietly.
Proof.
  split.
  - intros st. unfold quietly. done.
  - intros a b c (H1 & H2 & H3 & H4) (K1 & K2 & K3 & K4). unfold quietly.
    split; [by etrans | split; [by etrans | split; congruence]].
Qed.

Section Preservation.
Context (R : relation state) `{!PreOrder R}.

(** The effects that the pipeline is built from preserve [R]. *)
Hypothesis R_log : forall lv msg, preserves R (log lv msg).
Hypothesis R_GET : forall E url h, preserves R (GET E url h).
Hypothesis R_now : preserves R now.
Hypothesis R_set_seen : forall m, preserves R (set_seen m).
Hypothesis R_write_seen_file : preserves R write_seen_file.

Lemma preserves_ret {A} (a : A) : preserves R (mret a : io A).
Proof. intros st. done. Qed.

Lemma preserves_raise {A} (e : exn) : preserves R (raise e : io A).
Proof. intros st. done. Qed.

Lemma preserves_lift {A} (r : result A) : preserves R (lift r).
Proof. intros st. done. Qed.

Lemma preserves_get_seen : preserves R get_seen.
Proof. intros st. done. Qed.

Lemma preserves_bind {A B} (m : io A) (k : A -> io B) :
  preserves R m -> (forall a, preserves R (k a)) -> preserves R (m ≫= k).
Proof.
  intros Hm Hk st. unfold mbind, io_bind.
  specialize (Hm st). destruct (m st) as [[a | e] st1]; cbn in *; [| done].
  by etrans; [| apply Hk].
Qed.

Lemma preserves_try {A} (body : io A) (handler : exn -> io A) :
  preserves R body -> (forall e, preserves R (handler e)) ->
  preserves R (try_except body handler).
Proof.
  intros Hm Hk st. unfold try_except.
  specialize (Hm st). destruct (body st) as [[a | e] st1]; cbn in *; [done |].
  by etrans; [| apply Hk].
Qed.

(** Splits a goal [preserves R m] along the structure of [m]. *)
Ltac step :=
  repeat first
    [ apply preserves_bind; [| intros ?]
    | apply preserves_try; [| intros ?]
    | apply preserves_ret | apply preserves_raise | apply preserves_lift
    | apply preserves_get_seen
    | apply R_log | apply R_GET | apply R_now | apply R_set_seen
    | apply R_write_seen_file
    | assumption
    | match goal with
      | |- preserves R (match ?x with _ => _ end) => destruct x
      | |- preserves R (if ?x then _ else _) => destruct x
      end ].

Lemma preserves_collect {A} (body : A -> io (option listing))
  (on_error : exn -> io unit) (items : list A) :
  (forall item, preserves R (body item)) ->
  (forall e, preserves R (on_error e)) ->
  forall listings, preserves R (collect body on_error items listings).
Proof.
  intros Hb He. induction items as [|item rest IH]; intros listings;
    cbn [collect]; step; [apply Hb | apply He | apply IH].
Qed.

Lemma preserves_base_fetch (E : env) (h : gmap string string) (url : string) :
  preserves R (base_fetch_listings E h url).
Proof. unfold base_fetch_listings. step. Qed.

Lemma preserves_session_fetch (E : env) (site home : string)
  (h : gmap string string) (url : string) :
  preserves R (session_fetch_listings E site home h url).
Proof. unfold session_fetch_listings. step. Qed.

Lemma preserves_rightmove_parse (E : env) (raw_data : string) :
  preserves R (rightmove_parse_listings E raw_data).
Proof.
  unfold rightmove_parse_listings. step.
  apply preserves_collect; intros; step.
Qed.

Lemma preserves_zoopla_scripts (scripts : list (result (list zoopla_prop))) :
  forall listings, preserves R (zoopla_scripts_loop scripts listings).
Proof.
  induction scripts as [|[property_data | e] rest IH]; intros listings;
    cbn [zoopla_scripts_loop]; step; try apply IH.
  apply preserves_collect; intros; unfold zoopla_prop_listing; step.
Qed.

Lemma preserves_zoopla_parse (E : env) (raw_data : string) :
  preserves R (zoopla_parse_listings E raw_data).
Proof.
  unfold zoopla_parse_listings, zoopla_parse_from_json_data. step.
  - apply preserves_collect; intros; unfold zoopla_card_listing; step.
  - apply preserves_zoopla_scripts.
Qed.

Lemma preserves_onthemarket_parse (E : env) (raw_data : string) :
  preserves R (onthemarket_parse_listings E raw_data).
Proof.
  unfold onthemarket_parse_listings.
  apply preserves_collect; intros; unfold otm_card_listing; step.
Qed.

Lemma preserves_spareroom_parse (E : env) (raw_data : string) :
  preserves R (spareroom_parse_listings E raw_data).
Proof.
  unfold spareroom_parse_listings.
  apply preserves_collect; intros; unfold spareroom_card_listing; step.
Qed.

Lemma preserves_openrent_parse (E : env) (raw_data : string) :
  preserves R (openrent_parse_listings E raw_data).
Proof.
  unfold openrent_parse_listings.
  apply preserves_collect; intros; unfold openrent_card_listing; step.
Qed.

(** The adapters that [PropertyScanner] builds preserve [R]. *)
Lemma registry_preserves (E : env) (c : config) (sort_type : string) :
  adapters_preserve R (Scanner c sort_type (_initialize_adapters E c sort_type)).
Proof.
  intros site a Ha. cbn in Ha.
  destruct (registry_lookup E c sort_type site a Ha)
    as [(_ & -> & ->) | [(_ & -> & ->) | [(_ & -> & ->) | [(_ & -> & ->) | (_ & -> & ->)]]]];
    split; intros; unfold rightmove_fetch_listings, zoopla_fetch_listings;
    auto using preserves_base_fetch, preserves_session_fetch,
      preserves_rightmove_parse, preserves_zoopla_parse,
      preserves_onthemarket_parse, preserves_spareroom_parse,
      preserves_openrent_parse.
Qed.

Lemma preserves_fetch_site (s : scanner) (site_name : string) :
  adapters_preserve R s -> preserves R (fetch_site s site_name).
Proof.
  intros Hs. unfold fetch_site.
  destruct (self_adapters s !! lower site_name) as [a |] eqn:Ha; [| step].
  destruct (Hs _ _ Ha) as [Hf Hp]. step; [apply Hf | apply Hp].
Qed.

Lemma preserves_fetch_loop (s : scanner) (sites : list string) :
  adapters_preserve R s ->
  forall all_listings, preserves R (fetch_loop s sites all_listings).
Proof.
  intros Hs. induction sites as [|site_name rest IH]; intros all_listings;
    cbn [fetch_loop]; step; [by apply preserves_fetch_site | apply IH].
Qed.

Lemma preserves_fetch_listings (s : scanner) :
  adapters_preserve R s -> preserves R (fetch_listings s).
Proof. intros Hs. by apply preserves_fetch_loop. Qed.

Lemma preserves_filter_loop (E : env) (c : config) (b : pyval)
  (ls : list listing) :
  forall filtered, preserves R (filter_loop E c b ls filtered).
Proof.
  induction ls as [|l rest IH]; intros filtered; cbn [filter_loop]; step;
    apply IH.
Qed.

Lemma preserves_save (E : env) : preserves R (_save_seen_listings E).
Proof. unfold _save_seen_listings. step. Qed.

Lemma preserves_run_scraper (E : env) (s : scanner) :
  adapters_preserve R s -> preserves R (run_scraper E s).
Proof.
  intros Hs. unfold run_scraper. step.
  - by apply preserves_fetch_listings.
  - apply preserves_filter_loop.
Qed.

Lemma preserves_load_seen : preserves R _load_seen_listings.
Proof.
  intros st. unfold _load_seen_listings.
  destruct (st_seen_file st) as [[seen | e] |]; try done.
  apply (preserves_bind (log ERROR _) (fun _ => mret ∅)); step.
Qed.

Lemma preserves_PropertyScanner (E : env) (config_path : string) :
  preserves R (PropertyScanner E config_path).
Proof.
  unfold PropertyScanner, _load_config. step. apply preserves_load_seen.
Qed.
End Preservation.

Lemma log_grows_log (lv : level) (msg : string) : preserves log_grows (log lv msg).
Proof. intros st. unfold log_grows. cbn. by apply prefix_app_r. Qed.

Lemma log_grows_GET (E : env) (url : string) (h : gmap string string) :
  preserves log_grows (GET E url h).
Proof. intros st. unfold log_grows. done. Qed.

Lemma log_grows_now : preserves log_grows now.
Proof. intros st. unfold log_grows. done. Qed.

Lemma quietly_log (lv : level) (msg : string) : preserves quietly (log lv msg).
Proof. intros st. unfold quietly. cbn. split; [by apply prefix_app_r | done]. Qed.

Lemma quietly_GET (E : env) (url : string) (h : gmap string string) :
  preserves quietly (GET E url h).
Proof.
  intros st. unfold quietly. cbn. split; [done | split; [by apply prefix_app_r | done]].
Qed.

Lemma quietly_now : preserves quietly now.
Proof. intros st. unfold quietly. done. Qed.

Lemma quietly_set_seen (m : gmap string string) : preserves quietly (set_seen m).
Proof. intros st. unfold quietly. done. Qed.

Lemma quietly_write_seen_file : preserves quietly write_seen_file.
Proof. intros st. unfold quietly. done. Qed.

(** The adapters that [PropertyScanner] builds only add to the log. *)
Lemma registry_keeps_log (E : env) (c : config) (sort_type : string) :
  adapters_preserve log_grows
    (Scanner c sort_type (_initialize_adapters E c sort_type)).
Proof.
  apply registry_preserves;
    first [apply _ | apply log_grows_log | apply log_grows_GET | apply log_grows_now].
Qed.

(** ... and, besides adding to the log, only send requests. *)
Lemma registry_quiet (E : env) (c : config) (sort_type : string) :
  adapters_preserve quietly
    (Scanner c sort_type (_initialize_adapters E c sort_type)).
Proof.
  apply registry_preserves;
    first [apply _ | apply quietly_log | apply quietly_GET | apply quietly_now].
Qed.

(** ** Aggregation under partial failure *)

Lemma fetch_loop_cons (s : scanner) (site_name : string) (rest : list string)
  (all_listings : list listing) (st : state) :
  fetch_loop s (site_name :: rest) all_listings st =
  match fetch_site s site_name st with
  | (Ok site_listings, st1) =>
      fetch_loop s rest (all_listings ++ site_listings) st1
  | (Raise e, st1) =>
      fetch_loop s rest all_listings (log ERROR (failure_message site_name e) st1).2
  end.
Proof.
  cbn [fetch_loop]. unfold mbind at 1, io_bind at 1, try_except.
  unfold mbind at 1, io_bind at 1.
  by destruct (fetch_site s site_name st) as [[site_listings | e] st1].
Qed.

Lemma fetch_site_missing (s : scanner) (site_name : string) (st : state) :
  self_adapters s !! lower site_name = None ->
  fetch_site s site_name st =
  (Ok [], (log WARNING ("No adapter available for " ++ site_name) st).2).
Proof. intros Ha. unfold fetch_site. by rewrite Ha. Qed.

Lemma fetch_loop_run (s : scanner) (sites : list string) :
  adapters_preserve log_grows s ->
  forall (all_listings : list listing) (st : state),
  exists st' : state,
    fetch_loop s sites all_listings st =
      (Ok (all_listings ++ successes (site_outcomes s sites st))%list, st') /\
    st_log st `prefix_of` st_log st' /\
    (forall site_name e,
       (site_name, Raise e) ∈ site_outcomes s sites st ->
       (ERROR, failure_message site_name e) ∈ st_log st') /\
    (forall site_name,
       site_name ∈ sites -> self_adapters s !! lower site_name = None ->
       (site_name, Ok []) ∈ site_outcomes s sites st /\
       (WARNING, "No adapter available for " ++ site_name) ∈ st_log st').
Proof.
  intros Hs. induction sites as [|site_name rest IH]; intros all_listings st.
  - exists st. cbn. rewrite app_nil_r.
    split; [done | split; [done | split]].
    + intros ? ? H. by apply elem_of_nil in H.
    + intros ? H. by apply elem_of_nil in H.
  - rewrite fetch_loop_cons. cbn [site_outcomes].
    pose proof (preserves_fetch_site log_grows log_grows_log s site_name Hs st) as Hsite.
    unfold log_grows in Hsite.
    destruct (fetch_site s site_name st) as [[site_listings | e] st1] eqn:Hrun;
      cbn [snd] in Hsite.
    + destruct (IH (all_listings ++ site_listings)%list st1)
        as (st' & Hloop & Hlog & Herr & Hwarn).
      exists st'. cbn [successes]. split; [| split; [| split]].
      * rewrite Hloop. by rewrite <- app_assoc.
      * by etrans.
      * intros site' e' Hin. apply elem_of_cons in Hin as [Hin | Hin];
          [congruence | by apply Herr].
      * intros site' Hin Hnone.
        destruct (decide (site' = site_name)) as [-> | Hne].
        { rewrite (fetch_site_missing s site_name st Hnone) in Hrun.
          injection Hrun as <- <-. split; [apply list_elem_of_here |].
          apply (elem_of_prefix _ _ _ ltac:(apply elem_of_app; right; apply list_elem_of_here) Hlog). }
        apply elem_of_cons in Hin as [Hin | Hin]; [done |].
        destruct (Hwarn site' Hin Hnone). split; [by apply list_elem_of_further | done].
    + destruct (IH all_listings (log ERROR (failure_message site_name e) st1).2)
        as (st' & Hloop & Hlog & Herr & Hwarn).
      exists st'. cbn [successes]. split; [done | split; [| split]].
      * etrans; [apply Hsite |]. etrans; [| apply Hlog]. apply log_grows_log.
      * intros site' e' Hin. apply elem_of_cons in Hin as [Hin | Hin];
          [| by apply Herr].
        injection Hin as -> ->.
        apply (elem_of_prefix _ _ _ ltac:(apply elem_of_app; right; apply list_elem_of_here) Hlog).
      * intros site' Hin Hnone.
        destruct (decide (site' = site_name)) as [-> | Hne].
        { rewrite (fetch_site_missing s site_name st Hnone) in Hrun. discriminate Hrun. }
        apply elem_of_cons in Hin as [Hin | Hin]; [done |].
        destruct (Hwarn site' Hin Hnone). split; [by apply list_elem_of_further | done].
Qed.

(** C5.  Given adapters that only add to the log, [fetch_listings]
    always returns, and it returns the listings of the sites whose three
    stages succeeded, in site order, and nothing else: a site whose
    adapter raises at any stage contributes no listing and leaves an
    ERROR line with its name and the exception; a site without a
    registered adapter contributes no listing and leaves a WARNING line
    with its name. *)
Theorem partial_failure_aggregation (s : scanner) (st : state) :
  adapters_preserve log_grows s ->
  let sites := _get_enabled_sites (self_config s) in
  let outcomes := site_outcomes s sites st in
  exists st' : state,
    fetch_listings s st = (Ok (successes outcomes), st') /\
    (forall site_name e,
       (site_name, Raise e) ∈ outcomes ->
       (ERROR, failure_message site_name e) ∈ st_log st') /\
    (forall site_name,
       site_name ∈ sites -> self_adapters s !! lower site_name = None ->
       (site_name, Ok []) ∈ outcomes /\
       (WARNING, "No adapter available for " ++ site_name) ∈ st_log st').
Proof.
  intros Hs sites outcomes. unfold fetch_listings.
  destruct (fetch_loop_run s sites Hs [] st) as (st' & Hloop & _ & Herr & Hwarn).
  exists st'. by split.
Qed.

Lemma two_sites_keep_log : adapters_preserve log_grows two_sites_scanner.
Proof.
  intros site a Ha. cbn in Ha.
  apply lookup_insert_Some in Ha as [[_ <-] | [_ Ha]];
    [| apply lookup_insert_Some in Ha as [[_ <-] | [_ Ha]];
       [| by rewrite lookup_empty in Ha]];
    split; intros x st; unfold log_grows; done.
Qed.

Lemma partial_failure_aggregation_witness :
  exists st' : state,
    fetch_listings two_sites_scanner sample_state = (Ok siteB_listings, st') /\
    (ERROR, "Failed to fetch listings from siteA: Max retries exceeded") ∈ st_log st'.
Proof.
  destruct (partial_failure_aggregation two_sites_scanner sample_state
              two_sites_keep_log) as (st' & Hrun & Herr & _).
  exists st'. split; [exact Hrun |].
  apply (Herr "siteA" (Exn "ConnectionError" "Max retries exceeded")).
  apply list_elem_of_here.
Defined.

Lemma dedup_idempotence_witness :
  exists (r : list listing) (st' : state),
    filter_listings (sample_env 200 (Ok price_config))
      (scanner_of (sample_env 200 (Ok price_config)) price_config)
      siteB_listings sample_state = (Ok r, st') /\
    r `sublist_of` siteB_listings /\
    r = siteB_listings /\
    filter_listings (sample_env 200 (Ok price_config))
      (scanner_of (sample_env 200 (Ok price_config)) price_config)
      siteB_listings st' = (Ok [], st').
Proof.
  apply (dedup_idempotence (sample_env 200 (Ok price_config))
           (scanner_of (sample_env 200 (Ok price_config)) price_config)
           siteB_listings sample_state).
  - reflexivity.
  - apply (bool_decide_unpack (NoDup (id <$> siteB_listings))). vm_compute. exact I.
Defined.

Lemma retry_policy_witness :
  exists new : list request,
    st_requests
      (adapter_fetch_listings
         (RightmoveAdapter (sample_env 403 (Ok empty_config)) empty_config "default")
         "https://www.rightmove.co.uk/property-to-rent/find.html" sample_state).2 = new /\
    retries new = 1%nat.
Proof.
  destruct (retry_policy (sample_env 403 (Ok empty_config)) empty_config "default"
              "rightmove" "https://www.rightmove.co.uk/property-to-rent/find.html"
              (RightmoveAdapter (sample_env 403 (Ok empty_config)) empty_config "default")
              sample_state eq_refl)
    as (new & Hnew & _ & Hsession & _).
  exists new. split; [exact Hnew |].
  destruct (Hsession (or_introl eq_refl)) as (home & h & _ & Hcase).
  exact (proj2 (Hcase (Response 403 "<html></html>") (Response 403 "<html></html>")
                  eq_refl eq_refl)).
Defined.

(** C7 as stated fails: against a site that answers 403, the fetch stage
    of the OnTheMarket adapter sends its one request and does not retry. *)
Lemma onthemarket_does_not_retry :
  http_get (sample_env 403 (Ok empty_config)) []
    (Request "https://www.onthemarket.com/to-rent/property/bristol/" base_headers) =
    Ok (Response 403 "<html></html>") /\
  st_requests
    (adapter_fetch_listings
       (OnTheMarketAdapter (sample_env 403 (Ok empty_config)) empty_config "default")
       "https://www.onthemarket.com/to-rent/property/bristol/" sample_state).2 =
    [Request "https://www.onthemarket.com/to-rent/property/bristol/" base_headers] /\
  retries
    (st_requests
       (adapter_fetch_listings
          (OnTheMarketAdapter (sample_env 403 (Ok empty_config)) empty_config "default")
          "https://www.onthemarket.com/to-rent/property/bristol/" sample_state).2) = 0%nat.
Proof. split; [reflexivity | split; reflexivity]. Qed.

(** ** Loading the config *)

Lemma quietly_requests (st st' st'' : state) (r : request) :
  first_request r st st' -> quietly st' st'' -> first_request r st st''.
Proof. intros H (_ & Hq & _). unfold first_request in *. by etrans. Qed.

Lemma first_request_bind {A B} (r : request) (m : io A) (k : A -> io B) :
  (forall st, first_request r st (m st).2) ->
  (forall a, preserves quietly (k a)) ->
  forall st, first_request r st ((m ≫= k) st).2.
Proof.
  intros Hm Hk st. unfold mbind, io_bind. specialize (Hm st).
  destruct (m st) as [[a | e] st1]; cbn in *; [| done].
  eapply quietly_requests; [done | apply Hk].
Qed.

Lemma first_request_try {A} (r : request) (body : io A) (handler : exn -> io A) :
  (forall st, first_request r st (body st).2) ->
  (forall e, preserves quietly (handler e)) ->
  forall st, first_request r st (try_except body handler st).2.
Proof.
  intros Hm Hk st. unfold try_except. specialize (Hm st).
  destruct (body st) as [[a | e] st1]; cbn in *; [done |].
  eapply quietly_requests; [done | apply Hk].
Qed.

Lemma first_request_after_log {A} (r : request) (lv : level) (msg : string)
  (k : io A) :
  (forall st, first_request r st (k st).2) ->
  forall st, first_request r st ((log lv msg;; k) st).2.
Proof. intros Hk st. apply (Hk (log lv msg st).2). Qed.

Lemma session_fetch_first (E : env) (site home : string)
  (h : gmap string string) (url : string) (st : state) :
  first_request (Request home h) st (session_fetch_listings E site home h url st).2.
Proof.
  unfold first_request. rewrite session_fetch_requests.
  apply prefix_app.
  destruct (http_get E (st_requests st) _); [| done].
  destruct (http_get E _ _); [| by apply prefix_cons, prefix_nil].
  destruct (status_code _ =? 403); by apply prefix_cons, prefix_nil.
Qed.

(** With the empty config, a run opens with a GET of Rightmove's
    homepage. *)
Lemma empty_config_run_first (E : env) (st : state) :
  first_request (Request "https://www.rightmove.co.uk/" base_headers) st
    (run_scraper E (scanner_of E empty_config) st).2.
Proof.
  pose proof (registry_quiet E empty_config "default") as Hq.
  unfold run_scraper.
  apply first_request_try; [| intros; apply quietly_log].
  apply first_request_after_log. apply first_request_bind.
  - intros st1. unfold fetch_listings.
    change (_get_enabled_sites (self_config (scanner_of E empty_config)))
      with ["rightmove"].
    cbn [fetch_loop]. apply first_request_bind;
      [| intros; apply preserves_ret; apply _].
    apply first_request_try;
      [| intros; apply preserves_bind;
         [apply _ | apply quietly_log | intros; apply preserves_ret; apply _]].
    apply first_request_bind; [| intros; apply preserves_ret; apply _].
    unfold fetch_site.
    change (self_adapters (scanner_of E empty_config) !! lower "rightmove")
      with (Some (RightmoveAdapter E empty_config "default")).
    intros st2. unfold mbind at 1, io_bind at 1. cbn [lift adapter_build_url RightmoveAdapter].
    apply first_request_bind.
    + intros st3. apply session_fetch_first.
    + intros raw. apply preserves_bind; [apply _ | | intros; apply preserves_ret; apply _].
      apply preserves_rightmove_parse; [apply _ | apply quietly_log].
  - intros listings.
    repeat first
      [ apply preserves_bind; [apply _ | | intros ?]
      | apply quietly_log
      | apply preserves_ret; apply _
      | match goal with
        | |- preserves quietly (match ?x with _ => _ end) => destruct x
        end ].
    + apply preserves_filter_loop;
        [apply _ | apply quietly_now | apply quietly_set_seen].
    + apply preserves_save;
        [apply _ | apply quietly_log | apply quietly_write_seen_file].
Qed.

(** [run_scraper] returns [None], whatever happens inside it. *)
Lemma run_scraper_returns (E : env) (s : scanner) (st : state) :
  (run_scraper E s st).1 = Ok tt.
Proof.
  unfold run_scraper, try_except.
  match goal with |- context [match ?body st with _ => _ end] =>
    destruct (body st) as [[[] | e] st1] end; done.
Qed.

Lemma PropertyScanner_unloadable (E : env) (config_path : string) (e : exn)
  (st : state) :
  open_json E config_path = Raise e ->
  exists st1 : state,
    PropertyScanner E config_path st = (Ok (scanner_of E empty_config), st1) /\
    (ERROR, "Failed to load config: " ++ exn_msg e) ∈ st_log st1 /\
    st_requests st1 = st_requests st.
Proof.
  intros He. unfold PropertyScanner, _load_config, try_except, lift.
  unfold mbind at 1, io_bind at 1. rewrite He.
  unfold mbind at 1, io_bind at 1. cbn [log mret io_ret].
  unfold mbind at 1, io_bind at 1.
  set (st0 := State (seen_listings st) (st_log st ++ [(ERROR, "Failed to load config: " ++ exn_msg e)])
                    (st_requests st) (st_clock st) (st_seen_file st)
                    (st_outbox st) (st_stdout st)).
  assert ((ERROR, "Failed to load config: " ++ exn_msg e) ∈ st_log st0) as Hin.
  { cbn. apply elem_of_app. right. apply list_elem_of_here. }
  unfold _load_seen_listings.
  destruct (st_seen_file st0) as [[seen | e'] |] eqn:Hfile; cbn;
    eexists; (split; [reflexivity |]); cbn; split; try done.
  apply elem_of_app. by left.
Qed.

(** C2, as the code has it.  When the config file cannot be loaded, the
    run wrapper [main] prints the error and exits with status 1 before a
    scanner exists, so nothing is requested or logged.  [PropertyScanner]
    itself logs the error and goes on with the empty config: the enabled
    sites resolve to [rightmove] alone, and a run returns normally after
    opening with a request to Rightmove. *)
Theorem config_load_failure (E : env) (config_path : string) (e : exn)
  (st : state) :
  open_json E config_path = Raise e ->
  main E config_path st =
    (SystemExit 1, (print ("Error loading config file: " ++ exn_msg e) st).2) /\
  st_requests (main E config_path st).2 = st_requests st /\
  st_log (main E config_path st).2 = st_log st /\
  exists st1 st2 : state,
    PropertyScanner E config_path st = (Ok (scanner_of E empty_config), st1) /\
    (ERROR, "Failed to load config: " ++ exn_msg e) ∈ st_log st1 /\
    _get_enabled_sites (self_config (scanner_of E empty_config)) = ["rightmove"] /\
    run_scraper E (scanner_of E empty_config) st1 = (Ok tt, st2) /\
    first_request (Request "https://www.rightmove.co.uk/" base_headers) st st2.
Proof.
  intros He.
  assert (main E config_path st =
          (SystemExit 1, (print ("Error loading config file: " ++ exn_msg e) st).2))
    as Hmain.
  { unfold main. by rewrite He. }
  split; [done |]. rewrite Hmain. split; [done | split; [done |]].
  destruct (PropertyScanner_unloadable E config_path e st He)
    as (st1 & Hnew & Hlog & Hreq).
  exists st1, (run_scraper E (scanner_of E empty_config) st1).2.
  split; [done | split; [done | split; [reflexivity | split]]].
  - pose proof (run_scraper_returns E (scanner_of E empty_config) st1) as Hr.
    destruct (run_scraper E (scanner_of E empty_config) st1) as [r st2].
    cbn in *. by rewrite Hr.
  - pose proof (empty_config_run_first E st1) as Hf.
    unfold first_request in *. by rewrite <- Hreq.
Qed.

Lemma config_load_failure_witness :
  main (sample_env 200 (Raise no_config_file)) "config.json" sample_state =
    (SystemExit 1,
     State ∅ [] [] 0 None []
       ["Error loading config file: [Errno 2] No such file or directory: 'config.json'"]) /\
  exists st1 st2 : state,
    PropertyScanner (sample_env 200 (Raise no_config_file)) "config.json" sample_state =
      (Ok (scanner_of (sample_env 200 (Raise no_config_file)) empty_config), st1) /\
    run_scraper (sample_env 200 (Raise no_config_file))
      (scanner_of (sample_env 200 (Raise no_config_file)) empty_config) st1 = (Ok tt, st2) /\
    first_request (Request "https://www.rightmove.co.uk/" base_headers) sample_state st2.
Proof.
  destruct (config_load_failure (sample_env 200 (Raise no_config_file)) "config.json"
              no_config_file sample_state eq_refl)
    as (Hmain & _ & _ & st1 & st2 & Hnew & _ & _ & Hrun & Hfirst).
  split; [exact Hmain |]. exists st1, st2. split; [exact Hnew | split; [exact Hrun | exact Hfirst]].
Defined.

(** C2 as stated fails: in a process where [config.json] cannot be opened,
    constructing the scanner and running it does not abort.  The failure
    is logged, the Rightmove adapter is invoked, two requests go out, and
    one listing is fetched, filtered and registered. *)
Lemma unloadable_config_still_scrapes :
  open_json (sample_env 200 (Raise no_config_file)) "config.json" = Raise no_config_file /\
  unloadable_run.1 = Ok tt /\
  st_requests unloadable_run.2 =
    [Request "https://www.rightmove.co.uk/" base_headers;
     Request (rightmove_build_url no_adapter_config "default") base_headers] /\
  st_log unloadable_run.2 =
    [(ERROR, "Failed to load config: [Errno 2] No such file or directory: 'config.json'");
     (INFO, "Fetching listings...");
     (INFO, "Found 1 listings");
     (INFO, "Filtering listings...");
     (INFO, "Filtered to 1 listings");
     (INFO, "Notifying user...");
     (INFO, "User notified");
     (INFO, "Seen listings saved")] /\
  seen_listings unloadable_run.2 = {["12345" := "2025-01-01T09:00:00"]}.
Proof. vm_compute. repeat split. Qed.

(** ** Notification *)

Lemma PropertyScanner_returns (E : env) (config_path : string) (st : state) :
  exists (c : config) (st1 : state),
    PropertyScanner E config_path st = (Ok (scanner_of E c), st1) /\
    quietly st st1.
Proof.
  pose proof (preserves_PropertyScanner quietly quietly_log quietly_set_seen
                E config_path st) as Hq.
  unfold PropertyScanner, _load_config, try_except, lift in *.
  unfold mbind at 1, io_bind at 1 in Hq. unfold mbind at 1, io_bind at 1.
  destruct (open_json E config_path) as [c | e].
  - unfold mbind at 1, io_bind at 1 in Hq. unfold mbind at 1, io_bind at 1.
    unfold _load_seen_listings in *.
    destruct (st_seen_file st) as [[seen | e'] |]; cbn in *;
      exists c; eexists; (split; [reflexivity | exact Hq]).
  - unfold mbind at 1, io_bind at 1 in Hq. unfold mbind at 1, io_bind at 1.
    cbn [log mret io_ret] in *.
    unfold mbind at 1, io_bind at 1 in Hq. unfold mbind at 1, io_bind at 1.
    unfold _load_seen_listings in *.
    match goal with |- context [st_seen_file ?s0] =>
      destruct (st_seen_file s0) as [[seen | e'] |] end; cbn in *;
      exists empty_config; eexists; (split; [reflexivity | exact Hq]).
Qed.

(** No run, whatever the config and the surroundings, mails or prints
    anything: [run_scraper] has no call of [notify_user]. *)
Lemma run_never_notifies (E : env) (config_path : string) (st : state) :
  st_outbox ((s ← PropertyScanner E config_path; run_scraper E s) st).2 =
    st_outbox st /\
  st_stdout ((s ← PropertyScanner E config_path; run_scraper E s) st).2 =
    st_stdout st.
Proof.
  destruct (PropertyScanner_returns E config_path st)
    as (c & st1 & Hnew & _ & _ & Ho1 & Hs1).
  unfold mbind, io_bind. rewrite Hnew.
  pose proof (preserves_run_scraper quietly quietly_log quietly_now
                quietly_set_seen quietly_write_seen_file E (scanner_of E c)
                (registry_quiet E c _) st1) as (_ & _ & Ho2 & Hs2).
  split; congruence.
Qed.

(** C1 at a failing input.  In a fresh process whose config names a mail
    account, with Rightmove answering and listing one property, the run
    returns, fetches, filters the one listing in, logs that the user was
    notified and saves the store; yet nothing was mailed and nothing
    printed.  Calling [notify_user] on that listing in the state the run
    left would have handed one message to the mail server. *)
Theorem run_scraper_skips_notification :
  mailing_run.1 = Ok tt /\
  st_log mailing_run.2 =
    [(INFO, "Fetching listings...");
     (INFO, "Found 1 listings");
     (INFO, "Filtering listings...");
     (INFO, "Filtered to 1 listings");
     (INFO, "Notifying user...");
     (INFO, "User notified");
     (INFO, "Seen listings saved")] /\
  seen_listings mailing_run.2 = {["12345" := "2025-01-01T09:00:00"]} /\
  st_seen_file mailing_run.2 = Some (Ok {["12345" := "2025-01-01T09:00:00"]}) /\
  st_outbox mailing_run.2 = [] /\
  st_stdout mailing_run.2 = [] /\
  mail_subject <$>
    st_outbox (notify_user (sample_env 200 (Ok mail_config))
                 (scanner_of (sample_env 200 (Ok mail_config)) mail_config)
                 [sample_rightmove_listing] mailing_run.2).2 =
    ["New Properties Found: 1 at 2025-01-01 09:00:00"].
Proof. vm_compute. repeat split. Qed.

(** ** Listing ids *)

Lemma collect_run {A} (P : listing -> Prop) (body : A -> io (option listing))
  (on_error : exn -> io unit) (items : list A) :
  (forall item st st' l, body item st = (Ok (Some l), st') -> P l) ->
  (forall e st, (on_error e st).1 = Ok tt) ->
  forall (listings : list listing) (st : state),
    Forall P listings ->
    exists (r : list listing) (st' : state),
      collect body on_error items listings st = (Ok r, st') /\ Forall P r.
Proof.
  intros Hbody Herr. induction items as [|item rest IH]; intros listings st Hall.
  - exists listings, st. by split.
  - cbn [collect]. unfold mbind at 1, io_bind at 1, try_except.
    unfold mbind at 1, io_bind at 1.
    destruct (body item st) as [[[l |] | e] st1] eqn:Hb.
    + apply IH. apply Forall_app. split; [done |].
      apply Forall_singleton. by apply (Hbody item st st1 l).
    + by apply IH.
    + unfold mbind at 1, io_bind at 1. specialize (Herr e st1).
      destruct (on_error e st1) as [[[] | e'] st2]; cbn in Herr; [| done].
      by apply IH.
Qed.

Lemma zoopla_card_namespaced (card : zoopla_card) (st st' : state) (l : listing) :
  zoopla_card_listing card st = (Ok (Some l), st') -> namespaced "zoopla" l.
Proof.
  unfold zoopla_card_listing.
  destruct (String.eqb (zoopla_card_id card) ""); [done |].
  unfold mbind, io_bind, lift. destruct (zc_fields card); [| done].
  intros [= <- _]. by eexists.
Qed.

Lemma zoopla_prop_namespaced (prop : zoopla_prop) (st st' : state) (l : listing) :
  zoopla_prop_listing prop st = (Ok (Some l), st') -> namespaced "zoopla" l.
Proof.
  unfold zoopla_prop_listing.
  destruct (negb (truthy _)); [done |].
  unfold mbind, io_bind, lift. destruct (zp_fields prop); [| done].
  intros [= <- _]. by eexists.
Qed.

Lemma otm_card_namespaced (card : otm_card) (st st' : state) (l : listing) :
  otm_card_listing card st = (Ok (Some l), st') -> namespaced "otm" l.
Proof.
  unfold otm_card_listing.
  destruct (String.eqb (otm_card_id card) ""); [done |].
  unfold mbind, io_bind, lift. destruct (oc_fields card); [| done].
  intros [= <- _]. by eexists.
Qed.

Lemma openrent_card_namespaced (card : openrent_card) (st st' : state) (l : listing) :
  openrent_card_listing card st = (Ok (Some l), st') -> namespaced "openrent" l.
Proof.
  unfold openrent_card_listing.
  destruct (String.eqb (openrent_card_id card) ""); [done |].
  unfold mbind, io_bind, lift. destruct (rc_fields card); [| done].
  intros [= <- _]. by eexists.
Qed.

Lemma spareroom_card_namespaced (E : env) (card : spareroom_card)
  (st st' : state) (l : listing) :
  spareroom_card_listing E card st = (Ok (Some l), st') -> namespaced "spareroom" l.
Proof.
  unfold spareroom_card_listing.
  match goal with |- context [if ?b then _ else _] => destruct b end;
    unfold mbind, io_bind, lift, now; cbn; destruct (sc_fields card); try done;
    intros [= <- _]; by eexists.
Qed.

Lemma log_returns (lv : level) (msg : string) (st : state) :
  (log lv msg st).1 = Ok tt.
Proof. reflexivity. Qed.

Lemma zoopla_scripts_loop_run (scripts : list (result (list zoopla_prop))) :
  forall (listings : list listing) (st : state),
    Forall (namespaced "zoopla") listings ->
    exists (r : list listing) (st' : state),
      zoopla_scripts_loop scripts listings st = (Ok r, st') /\
      Forall (namespaced "zoopla") r.
Proof.
  induction scripts as [|[property_data | e] rest IH]; intros listings st Hall.
  - exists listings, st. by split.
  - cbn [zoopla_scripts_loop]. unfold mbind at 1, io_bind at 1.
    destruct (collect_run (namespaced "zoopla") zoopla_prop_listing
                (fun e => log ERROR ("Error parsing Zoopla property from JSON: " ++ exn_msg e))
                property_data zoopla_prop_namespaced
                (fun e st => log_returns _ _ st) listings st Hall)
      as (r & st1 & -> & Hr).
    by apply IH.
  - cbn [zoopla_scripts_loop]. by apply IH.
Qed.

(** The four adapters that tag their ids: every parse returns, and every
    listing it returns carries the adapter's tag in front of its id. *)
Lemma sibling_adapters_namespace_ids (E : env) (raw_data : string) (st : state) :
  (exists r st', zoopla_parse_listings E raw_data st = (Ok r, st') /\
                 Forall (namespaced "zoopla") r) /\
  (exists r st', onthemarket_parse_listings E raw_data st = (Ok r, st') /\
                 Forall (namespaced "otm") r) /\
  (exists r st', spareroom_parse_listings E raw_data st = (Ok r, st') /\
                 Forall (namespaced "spareroom") r) /\
  (exists r st', openrent_parse_listings E raw_data st = (Ok r, st') /\
                 Forall (namespaced "openrent") r).
Proof.
  split; [| split; [| split]].
  - unfold zoopla_parse_listings. unfold mbind at 1, io_bind at 1.
    destruct (collect_run (namespaced "zoopla") zoopla_card_listing
                (fun e => log ERROR ("Error parsing Zoopla property: " ++ exn_msg e))
                (zoopla_cards E raw_data) zoopla_card_namespaced
                (fun e st => log_returns _ _ st) [] st (Forall_nil_2 _))
      as (r & st1 & -> & Hr).
    destruct r as [|l r]; [| by exists (l :: r), st1].
    unfold zoopla_parse_from_json_data.
    destruct (zoopla_scripts E raw_data) as [scripts | e].
    + by apply zoopla_scripts_loop_run.
    + eexists [], _. by split.
  - apply collect_run; [apply otm_card_namespaced | intros; apply log_returns | done].
  - apply collect_run; [apply spareroom_card_namespaced | intros; apply log_returns | done].
  - apply collect_run; [apply openrent_card_namespaced | intros; apply log_returns | done].
Qed.

(** Ids under two different tags of those four never coincide. *)
Lemma namespaced_apart (t1 t2 : string) (l1 l2 : listing) :
  t1 ∈ ["zoopla"; "otm"; "spareroom"; "openrent"] ->
  t2 ∈ ["zoopla"; "otm"; "spareroom"; "openrent"] ->
  t1 <> t2 ->
  namespaced t1 l1 -> namespaced t2 l2 -> id l1 <> id l2.
Proof.
  intros H1 H2 Hne [r1 E1] [r2 E2] Heq. rewrite E1, E2 in Heq.
  repeat (apply elem_of_cons in H1 as [-> | H1]);
    try (by apply elem_of_nil in H1);
    repeat (apply elem_of_cons in H2 as [-> | H2]);
    try (by apply elem_of_nil in H2);
    try done; cbn in Heq; simplify_eq.
Qed.

(** C3 at a failing input.  Rightmove's parse turns the property with id
    12345 into a listing whose id is the bare ["12345"]: the source is
    [rightmove], and the id does not start with it.  And a Rightmove
    property whose id is the string [zoopla-7] gets the very id that
    Zoopla's parse gives to its card 7, under a different source. *)
Theorem rightmove_id_is_not_prefixed :
  (rightmove_parse_listings (sample_env 200 (Ok empty_config)) "<html></html>"
     sample_state).1 = Ok [sample_rightmove_listing] /\
  id sample_rightmove_listing = "12345" /\
  source sample_rightmove_listing = Some (PStr "rightmove") /\
  String.prefix "rightmove" (id sample_rightmove_listing) = false /\
  exists l1 l2 : listing,
    rightmove_prop_listing rightmove_prop_zoopla_7 = Ok l1 /\
    (zoopla_card_listing zoopla_card_7 sample_state).1 = Ok (Some l2) /\
    id l1 = id l2 /\
    source l1 = Some (PStr "rightmove") /\
    source l2 = Some (PStr "zoopla").
Proof.
  split; [reflexivity | split; [reflexivity | split; [reflexivity | split; [reflexivity |]]]].
  eexists _, _. repeat split; reflexivity.
Qed.

(** * Further properties of the code *)

(** ** The filter engine, beyond the price bound *)

(** X1.  The bedroom bounds work as the price bounds do: a count that
    [int()] parses is compared with the bounds that are configured, both
    inclusive; a count that [int()] cannot parse passes the bedrooms
    step, so that the other three steps alone decide. *)
Theorem bedrooms_bound_fail_open (c : config) (f : filters) (l : listing) :
  cfg_filters c = Some f ->
  (forall n, py_int (get (bedrooms l) (PInt 0)) = Ok n ->
     beds_check f l =
     match min_beds f, max_beds f with
     | Some lo, Some hi => (lo <=? n) && (n <=? hi)
     | Some lo, None => lo <=? n
     | None, Some hi => n <=? hi
     | None, None => true
     end) /\
  (forall e, py_int (get (bedrooms l) (PInt 0)) = Raise e ->
     beds_check f l = true /\
     _meets_criteria c l =
       negb (excluded_by_keyword f l) && keyword_check f l && price_check f l).
Proof.
  intros Hf.
  pose proof (meets_criteria_checks c l) as Hm. rewrite Hf in Hm. simpl in Hm.
  split.
  - intros n Hn. unfold beds_check. by apply bound_check_parsed.
  - intros e He.
    assert (beds_check f l = true) as Hc.
    { unfold beds_check. by apply bound_check_unparsed with e. }
    split; [done |]. rewrite Hm, Hc. by rewrite andb_true_r.
Qed.

Lemma bedrooms_bound_fail_open_witness :
  beds_check beds_filters (sample_listing "zoopla-6" "Flat" (PInt 900) (PInt 2)) = true /\
  beds_check beds_filters (sample_listing "zoopla-7" "Flat" (PInt 900) (PInt 3)) = false /\
  beds_check beds_filters (sample_listing "zoopla-8" "Flat" (PInt 900) (PStr "studio")) = true.
Proof.
  split; [| split].
  - apply (proj1 (bedrooms_bound_fail_open beds_config beds_filters
                    (sample_listing "zoopla-6" "Flat" (PInt 900) (PInt 2)) eq_refl) 2).
    reflexivity.
  - apply (proj1 (bedrooms_bound_fail_open beds_config beds_filters
                    (sample_listing "zoopla-7" "Flat" (PInt 900) (PInt 3)) eq_refl) 3).
    reflexivity.
  - apply (proj2 (bedrooms_bound_fail_open beds_config beds_filters
                    (sample_listing "zoopla-8" "Flat" (PInt 900) (PStr "studio")) eq_refl)
             (Exn "ValueError" "invalid literal for int() with base 10: studio")).
    reflexivity.
Defined.

Lemma keyword_check_spec (f : filters) (l : listing) :
  keyword_check f l = true <->
  get (keywords f) [] = [] \/
  exists keyword, keyword ∈ get (keywords f) [] /\
                  contains (lower keyword) (listing_text l) = true.
Proof.
  unfold keyword_check. destruct (get (keywords f) []) as [|k kws] eqn:Hk.
  - split; [by left | done].
  - rewrite existsb_exists. split.
    + intros (x & Hin & Hx). right. exists x. by rewrite list_elem_of_In.
    + intros [? | (x & Hin & Hx)]; [done |]. exists x. by rewrite <- list_elem_of_In.
Qed.

(** X2.  When the include-keyword list is not empty, a listing in whose
    text none of the keywords occurs is rejected, whatever its price and
    bedrooms; a listing passes the step exactly when the list is empty
    or one of its keywords, lowercased, occurs in the lowercased text. *)
Theorem include_keywords_required (c : config) (f : filters) (l : listing) :
  cfg_filters c = Some f ->
  (keyword_check f l = true <->
   get (keywords f) [] = [] \/
   exists keyword, keyword ∈ get (keywords f) [] /\
                   contains (lower keyword) (listing_text l) = true) /\
  (get (keywords f) [] <> [] ->
   (forall keyword, keyword ∈ get (keywords f) [] ->
      contains (lower keyword) (listing_text l) = false) ->
   _meets_criteria c l = false).
Proof.
  intros Hf. split; [apply keyword_check_spec |].
  intros Hne Hnone.
  pose proof (meets_criteria_checks c l) as Hm. rewrite Hf in Hm. simpl in Hm.
  assert (keyword_check f l = false) as Hk.
  { apply not_true_is_false. intros Hk. apply keyword_check_spec in Hk as [Hk | (k & Hin & Hk)].
    - done.
    - rewrite (Hnone k Hin) in Hk. discriminate Hk. }
  rewrite Hm, Hk. by rewrite andb_false_r.
Qed.

Lemma include_keywords_required_witness :
  keyword_check garden_filters
    (sample_listing "zoopla-10" "Flat with BALCONY" (PInt 900) (PInt 1)) = true /\
  _meets_criteria garden_config
    (sample_listing "zoopla-11" "Flat" (PInt 900) (PInt 1)) = false.
Proof.
  split.
  - apply (proj1 (include_keywords_required garden_config garden_filters
                    (sample_listing "zoopla-10" "Flat with BALCONY" (PInt 900) (PInt 1))
                    eq_refl)).
    right. exists "Balcony". split; [| reflexivity].
    apply list_elem_of_further, list_elem_of_here.
  - apply (proj2 (include_keywords_required garden_config garden_filters
                    (sample_listing "zoopla-11" "Flat" (PInt 900) (PInt 1)) eq_refl)).
    + discriminate.
    + intros keyword Hin.
      apply elem_of_cons in Hin as [-> | Hin]; [reflexivity |].
      apply elem_of_cons in Hin as [-> | Hin]; [reflexivity |].
      by apply elem_of_nil in Hin.
Defined.

(** X3.  With no filter configured (the key ["filters"] absent, or
    present with empty keyword lists and no bound), every listing meets
    the criteria. *)
Theorem no_filters_accept_all (c : config) (l : listing) :
  let f := get (cfg_filters c) no_filters in
  get (keywords f) [] = [] ->
  get (exclude_keywords f) [] = [] ->
  min_price f = None -> max_price f = None ->
  min_beds f = None -> max_beds f = None ->
  _meets_criteria c l = true.
Proof.
  intros f Hk He H1 H2 H3 H4. rewrite meets_criteria_checks. fold f.
  unfold excluded_by_keyword, keyword_check, price_check, beds_check, bound_check.
  by rewrite Hk, He, H1, H2, H3, H4.
Qed.

Lemma no_filters_accept_all_witness :
  _meets_criteria empty_config bare_listing = true.
Proof.
  apply (no_filters_accept_all empty_config bare_listing); reflexivity.
Defined.

(** ** The dedup store across calls and runs *)

Lemma filter_listings_run (E : env) (s : scanner) (ls : list listing) (st : state) :
  exists (r : list listing) (st' : state),
    filter_listings E s ls st = (Ok r, st') /\
    (forall k, k ∈ ids r ->
       exists t, seen_listings st' !! k = Some (isoformat E t) /\
                 (st_clock st <= t < st_clock st')%nat) /\
    (forall k, k ∉ ids r -> seen_listings st' !! k = seen_listings st !! k) /\
    st_log st' = st_log st /\ st_requests st' = st_requests st /\
    st_seen_file st' = st_seen_file st /\ st_outbox st' = st_outbox st /\
    st_stdout st' = st_stdout st.
Proof.
  unfold filter_listings.
  destruct (filter_loop_run E (self_config s)
              (get (cfg_bypass_seen_check (self_config s)) (PBool false)) ls [] st)
    as (r & st' & Hrun & _ & _ & Hts & Hfr & Hl & Hq & Hf & Ho & Hs & _).
  exists r, st'. cbn [app] in Hrun. by repeat split.
Qed.

(** With the bypass unset, a listing is registered only if its id was
    not in the store. *)
Lemma filter_loop_new_ids (E : env) (c : config) (b : pyval) (ls : list listing) :
  truthy b = false ->
  forall (filtered : list listing) (st : state) (k : string) (v : string),
    seen_listings st !! k = Some v ->
    seen_listings (filter_loop E c b ls filtered st).2 !! k = Some v.
Proof.
  intros Hb. induction ls as [|x rest IH]; intros filtered st k v Hk; [done |].
  rewrite filter_loop_cons, Hb. cbn [negb]. rewrite andb_true_r.
  destruct (seen_before (seen_listings st) x) eqn:Hx; [by apply IH |].
  destruct (_meets_criteria c x); [| by apply IH].
  apply IH. unfold register. cbn. rewrite lookup_insert_ne; [done |].
  intros <-. unfold seen_before in Hx. by rewrite Hk in Hx.
Qed.

(** X4.  [filter_listings] never removes an id from the store, and with
    the bypass unset it never changes the timestamp of an id that is
    already there: the store keeps the first time an id was seen. *)
Theorem first_seen_is_kept (E : env) (s : scanner) (ls : list listing)
  (st : state) (k : string) (v : string) :
  seen_listings st !! k = Some v ->
  k ∈ dom (seen_listings (filter_listings E s ls st).2) /\
  (bypass (self_config s) = false ->
   seen_listings (filter_listings E s ls st).2 !! k = Some v).
Proof.
  intros Hk. unfold filter_listings, bypass. split.
  - apply filter_loop_keeps. apply elem_of_dom. by eexists.
  - intros Hb. by apply filter_loop_new_ids.
Qed.

Lemma first_seen_is_kept_witness :
  seen_listings
    (filter_listings (sample_env 200 (Ok empty_config))
       (scanner_of (sample_env 200 (Ok empty_config)) empty_config)
       [sample_rightmove_listing] seen_state).2 !! "12345" =
  Some "2024-12-24T18:00:00".
Proof.
  apply (first_seen_is_kept (sample_env 200 (Ok empty_config))
           (scanner_of (sample_env 200 (Ok empty_config)) empty_config)
           [sample_rightmove_listing] seen_state "12345" "2024-12-24T18:00:00" eq_refl).
  reflexivity.
Defined.

(** How a run of a scanner built by [PropertyScanner] unfolds: fetching
    returns, then filtering returns, and the run ends in [run_end]. *)
Lemma run_scraper_stages (E : env) (c : config) (st : state) :
  exists (listings : list listing) (st1 : state)
         (filtered_listings : list listing) (st2 : state),
    fetch_listings (scanner_of E c) (log INFO "Fetching listings..." st).2 =
      (Ok listings, st1) /\
    filter_listings E (scanner_of E c) listings
      (log INFO "Filtering listings..."
         (log INFO ("Found " ++ pretty (length listings) ++ " listings") st1).2).2 =
      (Ok filtered_listings, st2) /\
    run_scraper E (scanner_of E c) st = (Ok tt, run_end E filtered_listings st2).
Proof.
  destruct (fetch_loop_run (scanner_of E c)
              (_get_enabled_sites (self_config (scanner_of E c)))
              (registry_keeps_log E c _) []
              (log INFO "Fetching listings..." st).2)
    as (st1 & Hfetch & _).
  change (fetch_loop (scanner_of E c)
            (_get_enabled_sites (self_config (scanner_of E c))) [])
    with (fetch_listings (scanner_of E c)) in Hfetch.
  rewrite app_nil_l in Hfetch.
  set (listings := successes _) in Hfetch.
  exists listings, st1.
  destruct (filter_listings_run E (scanner_of E c) listings
              (log INFO "Filtering listings..."
                 (log INFO ("Found " ++ pretty (length listings) ++ " listings") st1).2).2)
    as (filtered & st2 & Hfilter & _).
  exists filtered, st2. split; [exact Hfetch | split; [exact Hfilter |]].
  unfold run_scraper, try_except.
  unfold mbind at 1, io_bind at 1. cbn [log].
  unfold mbind at 1, io_bind at 1.
  change (State (seen_listings st) (st_log st ++ [(INFO, "Fetching listings...")])
                (st_requests st) (st_clock st) (st_seen_file st) (st_outbox st)
                (st_stdout st))
    with (log INFO "Fetching listings..." st).2.
  rewrite Hfetch.
  unfold mbind at 1, io_bind at 1. cbn [log].
  unfold mbind at 1, io_bind at 1. cbn [log].
  unfold mbind at 1, io_bind at 1.
  cbn [log snd] in Hfilter. rewrite Hfilter.
  unfold mbind at 1, io_bind at 1. cbn [log].
  unfold run_end, notification_lines.
  destruct filtered as [|l filtered']; unfold mbind, io_bind; cbn [log mret io_ret snd];
    unfold _save_seen_listings, try_except;
    destruct (dump_error E); reflexivity.
Qed.

Lemma filter_loop_unseen (E : env) (c : config) (b : pyval) (ls : list listing) :
  truthy b = false ->
  forall (filtered : list listing) (st : state),
  exists r : list listing,
    (filter_loop E c b ls filtered st).1 = Ok (filtered ++ r)%list /\
    Forall (fun l => seen_listings st !! id l = None) r.
Proof.
  intros Hb. induction ls as [|x rest IH]; intros filtered st.
  - exists []. cbn. by rewrite app_nil_r.
  - rewrite filter_loop_cons, Hb. cbn [negb]. rewrite andb_true_r.
    destruct (seen_before (seen_listings st) x) eqn:Hx; [by apply IH |].
    destruct (_meets_criteria c x); [| by apply IH].
    destruct (IH (filtered ++ [x])%list (register E x st)) as (r & Hr & Hall).
    exists (x :: r). split; [by rewrite Hr, <- app_assoc |].
    constructor.
    + unfold seen_before in Hx. by destruct (seen_listings st !! id x).
    + eapply Forall_impl; [exact Hall |]. intros l Hl. unfold register in Hl. cbn in Hl.
      apply lookup_insert_None in Hl. tauto.
Qed.

(** X5.  With the bypass unset, [filter_listings] returns no listing
    whose id is already a key of the store, whether or not the listing
    meets the criteria. *)
Theorem seen_ids_are_not_returned (E : env) (s : scanner) (ls : list listing)
  (st : state) :
  bypass (self_config s) = false ->
  exists r : list listing,
    (filter_listings E s ls st).1 = Ok r /\
    forall l, l ∈ r -> id l ∉ dom (seen_listings st).
Proof.
  intros Hb. unfold filter_listings, bypass in *.
  destruct (filter_loop_unseen E (self_config s) _ ls Hb [] st) as (r & Hr & Hall).
  exists r. split; [exact Hr |]. rewrite Forall_forall in Hall.
  intros l Hin. apply not_elem_of_dom. by apply Hall.
Qed.

Lemma seen_ids_are_not_returned_witness :
  exists r : list listing,
    (filter_listings (sample_env 200 (Ok empty_config))
       (scanner_of (sample_env 200 (Ok empty_config)) empty_config)
       [sample_rightmove_listing] seen_state).1 = Ok r /\
    forall l, l ∈ r -> id l ∉ dom (seen_listings seen_state).
Proof.
  apply (seen_ids_are_not_returned (sample_env 200 (Ok empty_config))
           (scanner_of (sample_env 200 (Ok empty_config)) empty_config)
           [sample_rightmove_listing] seen_state).
  reflexivity.
Defined.

Lemma save_writes (E : env) (st : state) :
  dump_error E = None ->
  _save_seen_listings E st = (Ok tt, (write_seen_file st).2).
Proof. intros H. unfold _save_seen_listings, try_except. by rewrite H. Qed.


Lemma load_seen_file (E : env) (config_path : string) (st : state) :
  seen_listings (PropertyScanner E config_path st).2 =
  match st_seen_file st with
  | Some (Ok seen) => seen
  | _ => ∅
  end.
Proof.
  unfold PropertyScanner, _load_config, try_except, lift, _load_seen_listings,
    mbind, io_bind, set_seen, log, mret, io_ret.
  destruct (open_json E config_path) as [c | e]; cbn;
    destruct (st_seen_file st) as [[seen | e'] |]; reflexivity.
Qed.

(** X6.  Save and load round trip: when writing the store file does not
    fail, a run of a scanner built by [PropertyScanner] leaves in the
    file exactly the store it ends with, and a scanner constructed
    afterwards starts from exactly that store. *)
Theorem store_round_trip (E : env) (c : config) (config_path : string)
  (st : state) :
  dump_error E = None ->
  st_seen_file (run_scraper E (scanner_of E c) st).2 =
    Some (Ok (seen_listings (run_scraper E (scanner_of E c) st).2)) /\
  seen_listings (PropertyScanner E config_path (run_scraper E (scanner_of E c) st).2).2 =
    seen_listings (run_scraper E (scanner_of E c) st).2.
Proof.
  intros Hd.
  destruct (run_scraper_stages E c st) as (ls & st1 & r & st2 & _ & _ & ->).
  assert (st_seen_file (run_end E r st2) = Some (Ok (seen_listings (run_end E r st2))))
    as Hfile.
  { unfold run_end. rewrite save_writes by done. by destruct r. }
  split; [exact Hfile |]. rewrite load_seen_file. cbn [snd]. by rewrite Hfile.
Qed.

Lemma store_round_trip_witness :
  st_seen_file
    (run_scraper (sample_env 200 (Ok empty_config))
       (scanner_of (sample_env 200 (Ok empty_config)) empty_config) sample_state).2 =
    Some (Ok (seen_listings
      (run_scraper (sample_env 200 (Ok empty_config))
         (scanner_of (sample_env 200 (Ok empty_config)) empty_config) sample_state).2)) /\
  seen_listings
    (PropertyScanner (sample_env 200 (Ok empty_config)) "config.json"
       (run_scraper (sample_env 200 (Ok empty_config))
          (scanner_of (sample_env 200 (Ok empty_config)) empty_config) sample_state).2).2 =
    seen_listings
      (run_scraper (sample_env 200 (Ok empty_config))
         (scanner_of (sample_env 200 (Ok empty_config)) empty_config) sample_state).2.
Proof.
  apply (store_round_trip (sample_env 200 (Ok empty_config)) empty_config
           "config.json" sample_state).
  reflexivity.
Defined.

#[local] Instance file_kept_preorder : PreOrder file_kept.
Proof.
  split.
  - intros st. unfold file_kept. done.
  - intros a b c Hab Hbc. unfold file_kept in *. congruence.
Qed.




(** X8.  A store file that exists but cannot be read does not stop the
    constructor: the scanner is built, it starts with an empty store,
    and the failure is logged as an ERROR. *)
Theorem unreadable_store_starts_empty (E : env) (config_path : string)
  (e : exn) (st : state) :
  st_seen_file st = Some (Raise e) ->
  (exists s, (PropertyScanner E config_path st).1 = Ok s) /\
  seen_listings (PropertyScanner E config_path st).2 = ∅ /\
  (ERROR, "Failed to load seen listings: " ++ exn_msg e) ∈
    st_log (PropertyScanner E config_path st).2.
Proof.
  intros Hfile. split; [| split].
  - destruct (PropertyScanner_returns E config_path st) as (c & st1 & -> & _).
    by eexists.
  - rewrite load_seen_file. by rewrite Hfile.
  - unfold PropertyScanner, _load_config, try_except, lift, _load_seen_listings,
      mbind, io_bind, set_seen, log, mret, io_ret.
    destruct (open_json E config_path) as [c | e']; cbn; rewrite Hfile; cbn;
      apply elem_of_app; right; apply list_elem_of_here.
Qed.

Lemma unreadable_store_starts_empty_witness :
  seen_listings
    (PropertyScanner (sample_env 200 (Ok empty_config)) "config.json" corrupt_state).2 = ∅ /\
  st_log (PropertyScanner (sample_env 200 (Ok empty_config)) "config.json" corrupt_state).2 =
    [(ERROR, "Failed to load seen listings: Expecting value: line 1 column 1 (char 0)")].
Proof.
  split; [| reflexivity].
  apply (unreadable_store_starts_empty (sample_env 200 (Ok empty_config)) "config.json"
           (Exn "JSONDecodeError" "Expecting value: line 1 column 1 (char 0)")
           corrupt_state eq_refl).
Defined.

(** ** The notifier *)

Lemma print_each_run (listings : list listing) :
  forall st : state,
    print_each listings st =
    (Ok tt,
     State (seen_listings st) (st_log st) (st_requests st) (st_clock st)
           (st_seen_file st) (st_outbox st)
           (st_stdout st ++ flat_map console_lines listings)).
Proof.
  induction listings as [|l rest IH]; intros st.
  - cbn. rewrite app_nil_r. by destruct st.
  - cbn [print_each flat_map]. unfold mbind, io_bind. cbn [print].
    rewrite IH. cbn. do 2 f_equal.
    by rewrite <- !(assoc_L (++)).
Qed.

Lemma print_listings_run (listings : list listing) (st : state) :
  _print_listings listings st =
  (Ok tt,
   State (seen_listings st) (st_log st) (st_requests st) (st_clock st)
         (st_seen_file st) (st_outbox st)
         (st_stdout st ++ console_fallback listings)).
Proof.
  unfold _print_listings, console_fallback, mbind, io_bind.
  rewrite print_each_run.
  destruct (5 <? length listings)%nat; unfold print, mret, io_ret;
    cbn [seen_listings st_log st_requests st_clock st_seen_file st_outbox st_stdout].
  - by rewrite <- app_assoc.
  - by rewrite app_nil_r.
Qed.

Lemma console_fallback_length (listings : list listing) :
  length (console_fallback listings) =
  (3 * Nat.min 5 (length listings) +
   if (5 <? length listings)%nat then 1 else 0)%nat.
Proof.
  unfold console_fallback. rewrite length_app.
  assert (forall ls : list listing,
            length (flat_map console_lines ls) = (3 * length ls)%nat) as Hlen.
  { induction ls as [|l ls IH]; [done |]. cbn [flat_map]. rewrite length_app, IH.
    cbn [console_lines length]. lia. }
  rewrite Hlen, length_take.
  destruct (5 <? length listings)%nat; cbn [length]; lia.
Qed.

(** X9.  [notify_user] never raises.  Without mail settings it only
    logs a warning: nothing is mailed and nothing printed.  With mail
    settings, either the message is accepted and it is the one thing
    added to the outbox, with nothing printed; or delivery fails,
    nothing is mailed, the failure is logged as an ERROR, and the
    console gets three lines for each of the first five listings and,
    when there are more than five, one line counting the rest. *)
Theorem notify_user_outcomes (E : env) (s : scanner) (listings : list listing)
  (st : state) :
  (notify_user E s listings st).1 = Ok tt /\
  match cfg_email (self_config s) with
  | None =>
      st_outbox (notify_user E s listings st).2 = st_outbox st /\
      st_stdout (notify_user E s listings st).2 = st_stdout st /\
      st_log (notify_user E s listings st).2 =
        (st_log st ++ [(WARNING, "No email configuration found")])%list
  | Some email =>
      match smtp_send E (composed_mail E email listings (st_clock st)) with
      | Ok _ =>
          st_outbox (notify_user E s listings st).2 =
            (st_outbox st ++ [composed_mail E email listings (st_clock st)])%list /\
          st_stdout (notify_user E s listings st).2 = st_stdout st /\
          st_log (notify_user E s listings st).2 = st_log st
      | Raise e =>
          st_outbox (notify_user E s listings st).2 = st_outbox st /\
          st_stdout (notify_user E s listings st).2 =
            (st_stdout st ++ console_fallback listings)%list /\
          length (console_fallback listings) =
            (3 * Nat.min 5 (length listings) +
             if (5 <? length listings)%nat then 1 else 0)%nat /\
          st_log (notify_user E s listings st).2 =
            (st_log st ++
             [(ERROR, ("Failed to send notification: Failed to send email: " ++
                       exn_msg e)%string)])%list
      end
  end.
Proof.
  unfold notify_user, _send_email, try_except.
  destruct (cfg_email (self_config s)) as [email |]; [| by cbn].
  unfold mbind, io_bind, now, deliver, composed_mail, raise, log.
  cbn [st_clock st_outbox seen_listings st_log st_requests st_seen_file st_stdout].
  destruct (smtp_send E _) as [[] | e]; cbn [fst snd exn_msg].
  - by cbn.
  - rewrite print_listings_run. cbn.
    repeat split; try done. apply console_fallback_length.
Qed.

(** ** Site resolution and the fetch stage, further *)

Lemma run_first_request_rightmove (E : env) (c : config) (st : state) :
  _get_enabled_sites c = ["rightmove"] ->
  first_request (Request "https://www.rightmove.co.uk/" base_headers) st
    (run_scraper E (scanner_of E c) st).2.
Proof.
  intros Hsites.
  pose proof (registry_quiet E c (get (cfg_sort_type c) "default")) as Hq.
  unfold run_scraper.
  apply first_request_try; [| intros; apply quietly_log].
  apply first_request_after_log. apply first_request_bind.
  - intros st1. unfold fetch_listings.
    change (self_config (scanner_of E c)) with c. rewrite Hsites.
    cbn [fetch_loop]. apply first_request_bind;
      [| intros; apply preserves_ret; apply _].
    apply first_request_try;
      [| intros; apply preserves_bind;
         [apply _ | apply quietly_log | intros; apply preserves_ret; apply _]].
    apply first_request_bind; [| intros; apply preserves_ret; apply _].
    unfold fetch_site.
    change (self_adapters (scanner_of E c) !! lower "rightmove")
      with (Some (RightmoveAdapter E c (get (cfg_sort_type c) "default"))).
    intros st2. unfold mbind at 1, io_bind at 1. cbn [lift adapter_build_url RightmoveAdapter].
    apply first_request_bind.
    + intros st3. apply session_fetch_first.
    + intros raw. apply preserves_bind; [apply _ | | intros; apply preserves_ret; apply _].
      apply preserves_rightmove_parse; [apply _ | apply quietly_log].
  - intros listings.
    repeat first
      [ apply preserves_bind; [apply _ | | intros ?]
      | apply quietly_log
      | apply preserves_ret; apply _
      | match goal with
        | |- preserves quietly (match ?x with _ => _ end) => destruct x
        end ].
    + apply preserves_filter_loop;
        [apply _ | apply quietly_now | apply quietly_set_seen].
    + apply preserves_save;
        [apply _ | apply quietly_log | apply quietly_write_seen_file].
Qed.

(** X10.  When the config lists sites but every entry switches its site
    off, the run falls back to [rightmove] all the same, also when one
    of the entries switched off is Rightmove's own: the run opens with a
    request to Rightmove's homepage. *)
Theorem all_sites_off_still_scrapes_rightmove (E : env) (c : config)
  (st : state) :
  Forall (fun p => not_disabled p.2 = false) (get (cfg_sites c) []) ->
  _get_enabled_sites c = ["rightmove"] /\
  first_request (Request "https://www.rightmove.co.uk/" base_headers) st
    (run_scraper E (scanner_of E c) st).2.
Proof.
  intros Hoff.
  assert (_get_enabled_sites c = ["rightmove"]) as Hsites.
  { unfold _get_enabled_sites. cbv zeta. rewrite enabled_loop_filter, app_nil_l.
    replace (List.filter (fun p => not_disabled p.2) (get (cfg_sites c) [])) with
      (@nil (string * gmap string pyval)); [done |].
    induction Hoff as [|p ps Hp _ IH]; [done |]. cbn [List.filter]. by rewrite Hp. }
  split; [done |]. by apply run_first_request_rightmove.
Qed.

Lemma all_sites_off_still_scrapes_rightmove_witness :
  _get_enabled_sites all_off_config = ["rightmove"] /\
  first_request (Request "https://www.rightmove.co.uk/" base_headers) sample_state
    (run_scraper (sample_env 200 (Ok all_off_config))
       (scanner_of (sample_env 200 (Ok all_off_config)) all_off_config) sample_state).2.
Proof.
  apply (all_sites_off_still_scrapes_rightmove (sample_env 200 (Ok all_off_config))
           all_off_config sample_state).
  repeat constructor.
Defined.

(** X11.  The fetch stage of the Rightmove and Zoopla adapters never
    raises: when a request fails, the stage logs the error and returns
    the empty page; when the search page answers with a status other
    than 403 it returns that page; after a 403 it returns the page of
    the retry, whatever the status of the retry.  The base fetch of the
    other three adapters passes a failed request on as an exception. *)
Theorem session_fetch_never_raises (E : env) (site home : string)
  (h : gmap string string) (url : string) (st : state) :
  (exists page, (session_fetch_listings E site home h url st).1 = Ok page) /\
  (forall e,
     http_get E (st_requests st) (Request home h) = Raise e ->
     (session_fetch_listings E site home h url st).1 = Ok "" /\
     (ERROR, "Error fetching " ++ site ++ " listings: " ++ exn_msg e) ∈
       st_log (session_fetch_listings E site home h url st).2) /\
  (forall r0 resp,
     http_get E (st_requests st) (Request home h) = Ok r0 ->
     http_get E (st_requests st ++ [Request home h]) (Request url h) = Ok resp ->
     status_code resp <> 403 ->
     (session_fetch_listings E site home h url st).1 = Ok (text resp)) /\
  (forall r0 resp retry,
     http_get E (st_requests st) (Request home h) = Ok r0 ->
     http_get E (st_requests st ++ [Request home h]) (Request url h) = Ok resp ->
     status_code resp = 403 ->
     http_get E (st_requests st ++ [Request home h; Request url h])
       (Request url (<["User-Agent" := windows_chrome]> h)) = Ok retry ->
     (session_fetch_listings E site home h url st).1 = Ok (text retry)) /\
  (forall e,
     http_get E (st_requests st) (Request url h) = Raise e ->
     (base_fetch_listings E h url st).1 = Raise e).
Proof.
  unfold session_fetch_listings, base_fetch_listings, try_except, mbind, io_bind, GET.
  cbn [st_requests record_request fst snd].
  split; [| split; [| split; [| split]]].
  - destruct (http_get E (st_requests st) (Request home h)); [| by eexists].
    destruct (http_get E _ (Request url h)) as [resp |]; [| by eexists].
    destruct (status_code resp =? 403); cbn; [| by eexists].
    destruct (http_get E _ _); by eexists.
  - intros e ->. cbn. split; [done |]. apply elem_of_app. right. apply list_elem_of_here.
  - intros r0 resp -> -> Hne. apply Z.eqb_neq in Hne. by rewrite Hne.
  - intros r0 resp retry -> -> H403 Hretry. apply Z.eqb_eq in H403. rewrite H403. cbn.
    rewrite <- app_assoc. cbn [app]. by rewrite Hretry.
  - by intros e ->.
Qed.

Lemma session_fetch_never_raises_witness :
  (rightmove_fetch_listings offline_env "https://www.rightmove.co.uk/x" sample_state).1 =
    Ok "" /\
  (base_fetch_listings offline_env base_headers "https://www.openrent.co.uk/x"
     sample_state).1 = Raise (Exn "ConnectionError" "Network is unreachable").
Proof.
  destruct (session_fetch_never_raises offline_env "Rightmove"
              "https://www.rightmove.co.uk/" base_headers
              "https://www.rightmove.co.uk/x" sample_state) as (_ & Hfail & _).
  destruct (session_fetch_never_raises offline_env "Rightmove"
              "https://www.rightmove.co.uk/" base_headers
              "https://www.openrent.co.uk/x" sample_state) as (_ & _ & _ & _ & Hbase).
  split.
  - exact (proj1 (Hfail (Exn "ConnectionError" "Network is unreachable") eq_refl)).
  - exact (Hbase (Exn "ConnectionError" "Network is unreachable") eq_refl).
Defined.

(** X12.  When the [location] of OpenRent's parameters is not a string,
    building the URL raises; the orchestrator then sends no request for
    the site, takes no listing from it and logs the failure under the
    site's name. *)
Theorem openrent_location_must_be_text (E : env) (c : config)
  (a : adapter_config) (ps : gmap string pyval) (v : pyval)
  (site_name : string) (rest : list string) (all_listings : list listing)
  (st : state) :
  cfg_adapter c !! "openrent" = Some a ->
  params a = Some ps ->
  ps !! "location" = Some v ->
  (forall s, v <> PStr s) ->
  lower site_name = "openrent" ->
  exists e st1,
    fetch_site (scanner_of E c) site_name st = (Raise e, st) /\
    st1 = (log ERROR (failure_message site_name e) st).2 /\
    st_requests st1 = st_requests st /\
    fetch_loop (scanner_of E c) (site_name :: rest) all_listings st =
    fetch_loop (scanner_of E c) rest all_listings st1.
Proof.
  intros Ha Hps Hloc Hv Hname.
  assert (exists e, fetch_site (scanner_of E c) site_name st = (Raise e, st)) as [e He].
  { unfold fetch_site. rewrite Hname.
    change (self_adapters (scanner_of E c) !! "openrent")
      with (Some (OpenRentAdapter E c (get (cfg_sort_type c) "default"))).
    unfold mbind, io_bind, lift. cbn [adapter_build_url OpenRentAdapter].
    unfold openrent_build_url, site_config, param. rewrite Ha. cbn [get].
    rewrite Hps. cbn [get]. rewrite Hloc. cbn [get].
    destruct v as [| b | z | s]; try by eexists. by destruct (Hv s). }
  exists e, (log ERROR (failure_message site_name e) st).2.
  split; [done | split; [done | split; [done |]]].
  rewrite fetch_loop_cons. by rewrite He.
Qed.

Lemma openrent_location_must_be_text_witness :
  exists e,
    fetch_listings (scanner_of offline_env numeric_location_config) sample_state =
    (Ok [], (log ERROR (failure_message "openrent" e) sample_state).2).
Proof.
  destruct (openrent_location_must_be_text offline_env numeric_location_config
              (AdapterConfig None None (Some {["location" := PInt 7]}))
              {["location" := PInt 7]} (PInt 7) "openrent" [] [] sample_state
              eq_refl eq_refl eq_refl ltac:(discriminate) eq_refl)
    as (e & st1 & _ & -> & _ & Hloop).
  exists e. exact Hloop.
Defined.

(** ** Search URLs *)

Lemma unmapped_sort_is_default (m : gmap string string) (sort_type : string) :
  m !! sort_type = None ->
  mapped_sort_parameter m sort_type false = mapped_sort_parameter m "default" false.
Proof.
  intros H. unfold mapped_sort_parameter. cbn [andb]. rewrite H. cbn [get].
  by destruct (m !! "default").
Qed.

(** X13.  A sort preference that an adapter's table does not list gives
    the same search URL as the preference [default]: Rightmove,
    OnTheMarket, SpareRoom and OpenRent each fall back to their own
    default ordering, and Zoopla's URL does not depend on the preference
    at all. *)
Theorem unsupported_sort_degrades_to_default (a : adapter_config)
  (sort_type : string) :
  (rightmove_sort_mapping !! sort_type = None ->
   rightmove_build_url a sort_type = rightmove_build_url a "default") /\
  (onthemarket_sort_mapping !! sort_type = None ->
   onthemarket_build_url a sort_type = onthemarket_build_url a "default") /\
  (spareroom_sort_mapping !! sort_type = None ->
   spareroom_build_url a sort_type = spareroom_build_url a "default") /\
  (openrent_sort_mapping !! sort_type = None ->
   openrent_build_url a sort_type = openrent_build_url a "default") /\
  (forall E c,
     adapter_build_url (ZooplaAdapter E c sort_type) =
     adapter_build_url (ZooplaAdapter E c "default")).
Proof.
  split; [| split; [| split; [| split]]].
  - intros H. unfold rightmove_build_url. by rewrite (unmapped_sort_is_default _ _ H).
  - intros H. unfold onthemarket_build_url. by rewrite (unmapped_sort_is_default _ _ H).
  - intros H. unfold spareroom_build_url. by rewrite (unmapped_sort_is_default _ _ H).
  - intros H. unfold openrent_build_url. by rewrite (unmapped_sort_is_default _ _ H).
  - done.
Qed.

Lemma unsupported_sort_degrades_to_default_witness :
  openrent_build_url no_adapter_config "newest_first" =
    openrent_build_url no_adapter_config "default" /\
  rightmove_build_url no_adapter_config "last_updated" =
    rightmove_build_url no_adapter_config "default".
Proof.
  split.
  - apply (unsupported_sort_degrades_to_default no_adapter_config "newest_first").
    reflexivity.
  - apply (unsupported_sort_degrades_to_default no_adapter_config "last_updated").
    reflexivity.
Defined.

Lemma contains_self_prefix (n rest : string) : contains n (n ++ rest) = true.
Proof.
  destruct n as [|c n].
  - by destruct rest.
  - change (String c n ++ rest) with (String c (n ++ rest)). cbn [contains].
    replace (String.prefix (String c n) (String c (n ++ rest))) with true; [done |].
    symmetry. change (String c (n ++ rest)) with (String c n ++ rest).
    apply string_prefix_app. generalize (String c n). intros s.
    induction s as [|x s IH]; [done |]. cbn. by destruct (ascii_dec x x).
Qed.

Lemma spareroom_sort_nonempty (sort_type : string) :
  mapped_sort_parameter spareroom_sort_mapping sort_type false <> "".
Proof.
  unfold mapped_sort_parameter. cbn [andb].
  destruct (spareroom_sort_mapping !! sort_type) as [v |] eqn:Hv; [| done].
  cbn [get]. unfold spareroom_sort_mapping in Hv.
  apply elem_of_list_to_map_2 in Hv.
  repeat (apply elem_of_cons in Hv as [Heq | Hv];
          [injection Heq as _ ->; discriminate |]).
  by apply elem_of_nil in Hv.
Qed.

(** X14.  SpareRoom's search URL always carries a sort parameter, and it
    always has a query part: the parameter is attached with [&] when the
    configured search URL already contains a [?], and with [?] when it
    does not. *)
Theorem spareroom_url_has_query (a : adapter_config) (sort_type : string) :
  let url := get (search_url a) "https://www.spareroom.co.uk/flatshare/?search_id=1361538853&mode=list" in
  let sort_param := mapped_sort_parameter spareroom_sort_mapping sort_type false in
  sort_param <> "" /\
  spareroom_build_url a sort_type =
    url ++ (if contains "?" url then "&" else "?") ++ sort_param /\
  contains "?" (spareroom_build_url a sort_type) = true.
Proof.
  intros url sort_param.
  pose proof (spareroom_sort_nonempty sort_type) as Hne. fold sort_param in Hne.
  assert (spareroom_build_url a sort_type =
          url ++ (if contains "?" url then "&" else "?") ++ sort_param) as Hurl.
  { unfold spareroom_build_url. fold url sort_param.
    destruct (String.eqb_spec sort_param ""); [done | reflexivity]. }
  split; [done | split; [done |]]. rewrite Hurl.
  destruct (contains "?" url) eqn:Hq.
  - by apply contains_app_l.
  - apply contains_app_r. apply (contains_self_prefix "?" sort_param).
Qed.

(** ** The run wrapper *)


(** ** Parsing *)

Lemma collect_cons {A} (body : A -> io (option listing))
  (on_error : exn -> io unit) (item : A) (rest : list A)
  (listings : list listing) (st : state) :
  collect body on_error (item :: rest) listings st =
  match body item st with
  | (Ok (Some l), st1) => collect body on_error rest (listings ++ [l]) st1
  | (Ok None, st1) => collect body on_error rest listings st1
  | (Raise e, st1) =>
      match on_error e st1 with
      | (Ok _, st2) => collect body on_error rest listings st2
      | (Raise e', st2) => (Raise e', st2)
      end
  end.
Proof.
  cbn [collect]. unfold mbind, io_bind, try_except.
  destruct (body item st) as [[[l |] | e] st1]; cbn; try reflexivity.
  by destruct (on_error e st1) as [[[] | e'] st2].
Qed.

Lemma collect_pure {A} (f : A -> result listing) (msg : exn -> string)
  (items : list A) :
  forall (listings : list listing) (st : state),
    collect (fun item => l ← lift (f item); mret (Some l))
            (fun e => log ERROR (msg e)) items listings st =
    (Ok (listings ++ kept (f <$> items))%list,
     State (seen_listings st)
           (st_log st ++ ((fun e => (ERROR, msg e)) <$> failures (f <$> items)))%list
           (st_requests st) (st_clock st) (st_seen_file st) (st_outbox st)
           (st_stdout st)).
Proof.
  induction items as [|item rest IH]; intros listings st.
  - cbn. rewrite !app_nil_r. by destruct st.
  - rewrite collect_cons. unfold mbind at 1, io_bind at 1, lift.
    rewrite fmap_cons. unfold kept, failures. cbn [omap list_omap].
    destruct (f item) as [l | e]; cbn [mret io_ret log].
    + rewrite IH. unfold kept, failures. by rewrite <- app_assoc.
    + rewrite IH. cbn. unfold kept, failures.
      by rewrite <- app_assoc.
Qed.

(** X16.  Rightmove's parse isolates failures per property and never
    raises: it returns the listings of the properties that could be
    turned into one, in page order, and logs one ERROR line for each
    property that could not; when the embedded data cannot be read at
    all it returns no listing and logs one ERROR line.  Nothing else
    changes. *)
Theorem rightmove_parse_isolates_failures (E : env) (raw_data : string)
  (st : state) :
  let made := rightmove_prop_listing <$>
              match rightmove_data E raw_data with
              | Ok property_data => property_data
              | Raise _ => []
              end in
  rightmove_parse_listings E raw_data st =
  (Ok (kept made),
   State (seen_listings st)
         (st_log st ++
          match rightmove_data E raw_data with
          | Ok _ =>
              (fun e => (ERROR, ("Error parsing property from JSON: " ++ exn_msg e)%string))
                <$> failures made
          | Raise e => [(ERROR, ("Error extracting JSON data: " ++ exn_msg e)%string)]
          end)%list
         (st_requests st) (st_clock st) (st_seen_file st) (st_outbox st)
         (st_stdout st)).
Proof.
  unfold rightmove_parse_listings.
  destruct (rightmove_data E raw_data) as [property_data | e]; cbn zeta.
  - apply (collect_pure rightmove_prop_listing
             (fun e => "Error parsing property from JSON: " ++ exn_msg e)).
  - reflexivity.
Qed.




(** X18.  A SpareRoom card that carries no listing id, on itself or on
    the enclosing [li], is not skipped: its listing gets the id
    [spareroom-sr-] followed by the clock reading of the moment, and the
    clock moves on.  Two parses of the same card therefore give the same
    id only if their clock readings print alike, so the dedup store does
    not recognise the listing from one run to the next. *)
Theorem spareroom_missing_id_uses_clock (E : env) (card : spareroom_card)
  (f : card_fields) (st : state) :
  get (sc_data_listing_id card) "" = "" ->
  match sc_parent_li card with
  | Some parent_li => get parent_li ""
  | None => ""
  end = "" ->
  sc_fields card = Ok f ->
  exists l st',
    spareroom_card_listing E card st = (Ok (Some l), st') /\
    id l = "spareroom-sr-" ++ timestamp E (st_clock st) /\
    st_clock st' = S (st_clock st) /\
    forall st2 l2 st2',
      spareroom_card_listing E card st2 = (Ok (Some l2), st2') ->
      (id l = id l2 <-> timestamp E (st_clock st) = timestamp E (st_clock st2)).
Proof.
  intros Hid Hparent Hf.
  assert (forall st0,
            spareroom_card_listing E card st0 =
            (Ok (Some {| id := "spareroom-" ++ ("sr-" ++ timestamp E (st_clock st0));
                         title := Some (cf_title f);
                         price := Some (cf_price f);
                         price_text := Some (cf_price_text f);
                         address := Some (cf_address f);
                         bedrooms := Some (PInt 1);
                         description := None;
                         link := Some (cf_link f);
                         images := Some (cf_images f);
                         source := Some (PStr "spareroom") |}),
             State (seen_listings st0) (st_log st0) (st_requests st0)
                   (S (st_clock st0)) (st_seen_file st0) (st_outbox st0)
                   (st_stdout st0))) as Hrun.
  { intros st0. unfold spareroom_card_listing. rewrite Hid. cbn [String.eqb].
    rewrite Hparent. cbn [String.eqb].
    unfold mbind, io_bind, now, lift. by rewrite Hf. }
  eexists _, _. split; [apply Hrun | split; [reflexivity | split; [reflexivity |]]].
  intros st2 l2 st2' H2. rewrite Hrun in H2. injection H2 as <- _. cbn [id].
  split; [| by intros ->].
  intros Heq. cbn in Heq. by simplify_eq.
Qed.

Lemma spareroom_missing_id_uses_clock_witness :
  exists l st',
    spareroom_card_listing (sample_env 200 (Ok empty_config)) anonymous_card
      sample_state = (Ok (Some l), st') /\
    id l = "spareroom-sr-1735722000.0".
Proof.
  destruct (spareroom_missing_id_uses_clock (sample_env 200 (Ok empty_config))
              anonymous_card sample_fields sample_state eq_refl eq_refl eq_refl)
    as (l & st' & Hrun & Hid & _).
  exists l, st'. split; [exact Hrun | exact Hid].
Defined.

(** ** Navigating the embedded JSON *)

Lemma follow_at_path (path : list string) :
  forall (data v : json),
    follow data path = Ok (Some v) <-> at_path data path = Some v.
Proof.
  induction path as [|key rest IH]; intros data v; [cbn; split; congruence |].
  cbn [follow at_path].
  destruct data as [| b | z | s | items | members]; cbn [json_in json_getitem];
    try (split; discriminate).
  - destruct (contains key s); split; discriminate.
  - destruct (existsb (is_text key) items); split; discriminate.
  - destruct (member key members) as [w |]; [apply IH | split; discriminate].
Qed.

Lemma extract_loop_first_list (json_data : json) (paths : list (list string)) :
  extract_loop json_data paths = first_list json_data paths.
Proof.
  induction paths as [|path rest IH]; [done |]. cbn [extract_loop first_list].
  destruct (follow json_data path) as [[v |] | e] eqn:Hf.
  - apply follow_at_path in Hf. rewrite Hf.
    by destruct v as [| | | | [|item items] |].
  - destruct (at_path json_data path) as [w |] eqn:Ha; [| done].
    apply follow_at_path in Ha. congruence.
  - destruct (at_path json_data path) as [w |] eqn:Ha; [| done].
    apply follow_at_path in Ha. congruence.
Qed.

Lemma first_list_found (data : json) (paths : list (list string)) :
  first_list data paths = [] \/
  exists path, path ∈ paths /\ at_path data path = Some (JArr (first_list data paths)).
Proof.
  induction paths as [|path rest IH]; [by left |]. cbn [first_list].
  destruct (at_path data path) as [[| | | | [|item items] |] |] eqn:Ha;
    try (destruct IH as [IH | (p & Hin & Hp)];
         [by left | right; exists p; split; [by apply list_elem_of_further | done]]).
  right. exists path. split; [apply list_elem_of_here | done].
Qed.

(** X19.  Zoopla's search for the property list in a decoded script
    never raises, whatever the shape of the JSON: it returns the first
    non-empty list found by following one of its seven key paths through
    nested objects, in the order of the paths, and the empty list when
    no path leads to one.  A key that occurs in a string or in a list
    instead of an object only makes that path fail. *)
Theorem zoopla_extract_is_first_list (json_data : json) :
  _extract_property_data_from_json json_data = first_list json_data zoopla_paths /\
  (_extract_property_data_from_json json_data = [] \/
   exists path,
     path ∈ zoopla_paths /\
     at_path json_data path = Some (JArr (_extract_property_data_from_json json_data))).
Proof.
  unfold _extract_property_data_from_json. rewrite extract_loop_first_list.
  split; [done | apply first_list_found].
Qed.

(** X20.  Rightmove's navigation to the property list reads
    [props.pageProps] and then prefers [propertyData]: when that key
    holds an object, the result is its [properties], or the empty list
    if it has none, and [searchResults] is not looked at; only when
    [propertyData] is absent is [searchResults] read in the same way;
    with neither key there is no property list. *)
Theorem rightmove_prefers_propertyData (json_data : json)
  (page_props : list (string * json)) :
  at_path json_data ["props"; "pageProps"] = Some (JObj page_props) ->
  rightmove_property_data json_data =
  match member "propertyData" page_props with
  | Some d => Some <$> json_get "properties" (JArr []) d
  | None =>
      match member "searchResults" page_props with
      | Some d => Some <$> json_get "properties" (JArr []) d
      | None => Ok None
      end
  end.
Proof.
  intros Hpath. cbn [at_path] in Hpath.
  destruct json_data as [| | | | |members]; try discriminate Hpath.
  destruct (member "props" members) as [props |] eqn:Hprops; [| discriminate Hpath].
  destruct props as [| | | | |pmembers]; try discriminate Hpath.
  destruct (member "pageProps" pmembers) as [pp |] eqn:Hpp; [| discriminate Hpath].
  injection Hpath as ->.
  unfold rightmove_property_data. cbn [json_in json_getitem].
  rewrite Hprops. cbn [json_in json_getitem]. rewrite Hpp. cbn [json_in json_getitem].
  destruct (member "propertyData" page_props) as [d |].
  - unfold fmap. by destruct (json_get "properties" (JArr []) d).
  - destruct (member "searchResults" page_props) as [d |]; [| done].
    by destruct (json_get "properties" (JArr []) d).
Qed.

Lemma rightmove_prefers_propertyData_witness :
  rightmove_property_data sample_rightmove_json = Ok (Some (JArr [])).
Proof.
  apply (rightmove_prefers_propertyData sample_rightmove_json
           [("searchResults", JObj [("properties", JArr [JObj [("id", JNum 1)]])]);
            ("propertyData", JObj [("id", JNum 5)])]).
  reflexivity.
Defined.

(** ** The price of a card *)

Lemma all_chars_app (C : ascii -> bool) (s1 s2 : string) :
  all_chars C (s1 ++ s2) = all_chars C s1 && all_chars C s2.
Proof.
  induction s1 as [|c s1 IH]; [done |]. simpl. by rewrite IH, andb_assoc.
Qed.

Lemma take_while_all (C : ascii -> bool) (s : string) :
  all_chars C (take_while C s) = true.
Proof.
  induction s as [|c s IH]; [done |]. cbn.
  destruct (C c) eqn:Hc; [| done]. cbn. by rewrite Hc.
Qed.

Lemma take_while_keeps (P C : ascii -> bool) (s : string) :
  all_chars P s = true -> all_chars P (take_while C s) = true.
Proof.
  induction s as [|c s IH]; [done |]. cbn.
  intros [Hc Hs]%andb_true_iff. destruct (C c); [| done].
  cbn. by rewrite Hc, IH.
Qed.

Lemma skip_keeps (P : ascii -> bool) (n : nat) (s : string) :
  all_chars P s = true -> all_chars P (skip n s) = true.
Proof.
  revert s. induction n as [|n IH]; intros [|c s]; try done.
  cbn. intros [_ Hs]%andb_true_iff. by apply IH.
Qed.

Lemma take_while_app (C : ascii -> bool) (s1 s2 : string) :
  all_chars C s1 = true ->
  take_while C (s1 ++ s2) = s1 ++ take_while C s2.
Proof.
  induction s1 as [|c s1 IH]; [done |]. simpl.
  intros [Hc Hs]%andb_true_iff. by rewrite Hc, IH.
Qed.

Lemma search_group_unfold (marker : string) (C : ascii -> bool) (s : string) :
  search_group marker C s =
  let here :=
    if String.prefix marker s
    then take_while C (skip (String.length marker) s)
    else EmptyString in
  if negb (String.eqb here "") then Some here
  else match s with
       | String _ s' => search_group marker C s'
       | EmptyString => None
       end.
Proof. by destruct s. Qed.

Lemma search_here_cut (marker : string) (C : ascii -> bool) (s : string) :
  let here :=
    if String.prefix marker s
    then take_while C (skip (String.length marker) s)
    else EmptyString in
  all_chars C here = true /\
  forall P, all_chars P s = true -> all_chars P here = true.
Proof.
  cbv zeta. destruct (String.prefix marker s); [| done].
  split; [apply take_while_all |].
  intros P HP. by apply take_while_keeps, skip_keeps.
Qed.

(** What [search_group] finds is a non-empty run of the class, cut out
    of the text. *)
Lemma search_group_some (marker : string) (C : ascii -> bool)
  (s price_str : string) :
  search_group marker C s = Some price_str ->
  price_str <> "" /\ all_chars C price_str = true /\
  forall P, all_chars P s = true -> all_chars P price_str = true.
Proof.
  induction s as [|c s IH]; rewrite search_group_unfold;
    [destruct (search_here_cut marker C "") as [Hclass Hcut]
    |destruct (search_here_cut marker C (String c s)) as [Hclass Hcut]];
    cbv zeta in *;
    match goal with |- context [String.eqb ?h ""] => set (here := h) in * end;
    destruct (String.eqb here "") eqn:Hhere; simpl negb; cbv iota.
  - discriminate.
  - intros [= <-]. by apply String.eqb_neq in Hhere.
  - intros Hs. destruct (IH Hs) as (Hne & Hc & Hp).
    split; [done | split; [done |]].
    intros P HP. simpl in HP. apply andb_true_iff in HP as [_ HP]. by apply Hp.
  - intros [= <-]. by apply String.eqb_neq in Hhere.
Qed.

Lemma search_group_none (marker : string) (C : ascii -> bool) (s : string) :
  all_chars (fun c => negb (C c)) s = true ->
  search_group marker C s = None.
Proof.
  assert (forall t, all_chars (fun c => negb (C c)) t = true ->
                    take_while C t = "") as Htake.
  { intros [|c t]; [done |]. cbn. intros [Hc _]%andb_true_iff.
    by destruct (C c). }
  induction s as [|c s IH]; intros Hs; cbn [search_group].
  - destruct (String.prefix marker ""); [| done].
    by destruct (String.length marker).
  - rewrite (Htake (skip (String.length marker) (String c s)))
      by by apply skip_keeps.
    assert ((if String.prefix marker (String c s) then "" else "") = "") as ->
      by by destruct (String.prefix marker (String c s)).
    cbn. apply IH. cbn in Hs. by apply andb_true_iff in Hs as [_ Hs].
Qed.

Lemma remove_commas_digits (s : string) :
  all_chars digit_or_comma s = true ->
  all_chars is_digit (remove_commas s) = true.
Proof.
  induction s as [|c s IH]; [done |]. cbn.
  intros [Hc Hs]%andb_true_iff. unfold digit_or_comma in Hc.
  destruct (Ascii.eqb c ",") eqn:Hcomma; [by apply IH |].
  rewrite orb_false_r in Hc. cbn. by rewrite Hc, IH.
Qed.

Lemma remove_commas_no_digit (s : string) :
  all_chars digit_or_comma s = true ->
  all_chars not_digit s = true ->
  remove_commas s = "".
Proof.
  induction s as [|c s IH]; [done |]. cbn.
  intros [Hc Hs]%andb_true_iff [Hn Hs']%andb_true_iff.
  unfold digit_or_comma in Hc. unfold not_digit in Hn.
  destruct (is_digit c); [done |]. cbn in Hc. rewrite Hc. by apply IH.
Qed.

Lemma digit_not_space (c : ascii) : is_digit c = true -> is_space c = false.
Proof.
  unfold is_digit, is_space. cbv zeta. generalize (N_of_ascii c). intros n Hn.
  apply andb_true_iff in Hn as [H1 H2].
  apply N.leb_le in H1, H2.
  apply orb_false_iff. split; apply andb_false_iff.
  - right. apply N.leb_gt. lia.
  - right. apply N.leb_gt. lia.
Qed.

Lemma rev_app_app (s1 s2 s3 : string) :
  String.rev_app (String.rev_app s1 s2) s3 = String.rev_app s2 (s1 ++ s3).
Proof.
  revert s2 s3. induction s1 as [|c s1 IH]; intros s2 s3; [done |].
  simpl. by rewrite IH.
Qed.

Lemma append_empty_r (s : string) : s ++ "" = s.
Proof.
  induction s as [|c s IH]; [done |].
  change (String c (s ++ "") = String c s). by rewrite IH.
Qed.

Lemma rev_rev (s : string) : String.rev (String.rev s) = s.
Proof. unfold String.rev. rewrite rev_app_app. simpl. apply append_empty_r. Qed.

Lemma lstrip_digits (s : string) : all_chars is_digit s = true -> lstrip s = s.
Proof.
  destruct s as [|c s]; [done |]. simpl.
  intros [Hc _]%andb_true_iff. by rewrite (digit_not_space c Hc).
Qed.

Lemma all_chars_rev_app (C : ascii -> bool) (s1 s2 : string) :
  all_chars C (String.rev_app s1 s2) = all_chars C s1 && all_chars C s2.
Proof.
  revert s2. induction s1 as [|c s1 IH]; intros s2; [done |].
  simpl. rewrite IH. simpl. by destruct (C c), (all_chars C s1).
Qed.

Lemma all_chars_rev (C : ascii -> bool) (s : string) :
  all_chars C (String.rev s) = all_chars C s.
Proof. unfold String.rev. rewrite all_chars_rev_app. simpl. apply andb_true_r. Qed.

Lemma all_chars_lstrip (C : ascii -> bool) (s : string) :
  all_chars C s = true -> all_chars C (lstrip s) = true.
Proof.
  induction s as [|c s IH]; [done |]. intros Hs. simpl.
  destruct (is_space c); [| done].
  simpl in Hs. apply andb_true_iff in Hs as [_ Hs]. by apply IH.
Qed.

(** [strip] only takes characters away. *)
Lemma all_chars_strip (C : ascii -> bool) (s : string) :
  all_chars C s = true -> all_chars C (strip s) = true.
Proof.
  intros Hs. unfold strip. rewrite all_chars_rev. apply all_chars_lstrip.
  rewrite all_chars_rev. by apply all_chars_lstrip.
Qed.

Lemma strip_digits (s : string) : all_chars is_digit s = true -> strip s = s.
Proof.
  intros Hs. unfold strip. rewrite (lstrip_digits s Hs).
  rewrite lstrip_digits by by rewrite all_chars_rev.
  apply rev_rev.
Qed.

Lemma parse_int_digits (s : string) :
  all_chars is_digit s = true -> parse_int s = digits_go s 0 false.
Proof.
  intros Hs. unfold parse_int. rewrite (strip_digits s Hs).
  destruct s as [|c s]; [done |].
  simpl in Hs. apply andb_true_iff in Hs as [Hc _].
  destruct c as [[] [] [] [] [] [] [] []]; try discriminate Hc; reflexivity.
Qed.

Lemma digit_val_nonneg (c : ascii) : is_digit c = true -> 0 <= digit_val c.
Proof.
  unfold is_digit, digit_val. cbv zeta. intros [H1 _]%andb_true_iff.
  apply N.leb_le in H1. lia.
Qed.

Lemma digits_go_digits (s : string) :
  all_chars is_digit s = true ->
  forall acc prev_digit, 0 <= acc ->
  (s = "" /\ digits_go s acc prev_digit = if prev_digit then Some acc else None) \/
  exists n, 0 <= n /\ digits_go s acc prev_digit = Some n.
Proof.
  induction s as [|c s IH]; intros Hs acc prev_digit Hacc; [by left |].
  right. simpl in Hs. apply andb_true_iff in Hs as [Hc Hs]. simpl. rewrite Hc.
  pose proof (digit_val_nonneg c Hc).
  destruct (IH Hs (10 * acc + digit_val c) true ltac:(lia)) as [[-> Hgo] | Hgo].
  - exists (10 * acc + digit_val c). split; [lia | done].
  - done.
Qed.

(** [int()] of a run of digits: the empty run is refused, any other is a
    number that is not negative. *)
Lemma py_int_digits (s : string) :
  all_chars is_digit s = true ->
  (s = "" /\ exists e, py_int (PStr s) = Raise e /\ exn_cls e = "ValueError") \/
  exists n, 0 <= n /\ py_int (PStr s) = Ok n.
Proof.
  intros Hs. unfold py_int. rewrite (parse_int_digits s Hs).
  destruct (digits_go_digits s Hs 0 false ltac:(lia)) as [[-> Hgo] | (n & Hn & Hgo)];
    rewrite Hgo.
  - left. split; [done |]. by eexists.
  - right. by exists n.
Qed.

Lemma pretty_N_char_digit (d : N) : is_digit (pretty_N_char d) = true.
Proof. unfold pretty_N_char. by repeat case_match. Qed.

Lemma pretty_N_char_val (d : N) :
  (d < 10)%N -> digit_val (pretty_N_char d) = Z.of_N d.
Proof.
  intros Hd.
  assert (d = 0 \/ d = 1 \/ d = 2 \/ d = 3 \/ d = 4 \/ d = 5 \/ d = 6 \/
          d = 7 \/ d = 8 \/ d = 9)%N as Hcases by lia.
  destruct_or!; subst d; reflexivity.
Qed.

Lemma pretty_N_go_digits (x : N) (s : string) :
  all_chars is_digit s = true -> all_chars is_digit (pretty_N_go x s) = true.
Proof.
  revert s. induction (N.lt_wf_0 x) as [x _ IH]; intros s Hs.
  destruct (decide (x = 0)%N) as [-> | Hx]; [by rewrite pretty_N_go_0 |].
  rewrite pretty_N_go_step by lia.
  apply IH; [apply N.div_lt; lia |].
  simpl. by rewrite pretty_N_char_digit.
Qed.

(** Reading back the digits that [pretty] wrote. *)
Lemma digits_go_pretty_N_go (x : N) (s : string) (prev_digit : bool) :
  digits_go (pretty_N_go x s) 0 prev_digit =
  digits_go s (Z.of_N x) (prev_digit || (0 <? x)%N).
Proof.
  revert s prev_digit. induction (N.lt_wf_0 x) as [x _ IH]; intros s prev_digit.
  destruct (decide (x = 0)%N) as [-> | Hx].
  { rewrite pretty_N_go_0. by rewrite orb_false_r. }
  rewrite pretty_N_go_step by lia.
  rewrite IH by (apply N.div_lt; lia).
  simpl digits_go. rewrite pretty_N_char_digit.
  rewrite pretty_N_char_val by (apply N.mod_lt; lia).
  assert ((0 <? x)%N = true) as -> by (apply N.ltb_lt; lia).
  rewrite orb_true_r. f_equal.
  pose proof (N.div_mod x 10 ltac:(lia)). lia.
Qed.

Lemma pretty_Z_digits (n : Z) :
  all_chars is_digit (pretty n) = true <-> 0 <= n.
Proof.
  destruct n as [|p|p]; unfold pretty, pretty_Z.
  - done.
  - split; [lia | intros _].
    unfold pretty, pretty_positive, pretty, pretty_N.
    destruct (decide (N.pos p = 0)%N); [done |]. by apply pretty_N_go_digits.
  - split; [| lia]. done.
Qed.

Lemma py_int_pretty (n : Z) : 0 <= n -> py_int (PStr (pretty n)) = Ok n.
Proof.
  intros Hn. unfold py_int.
  rewrite parse_int_digits by by apply pretty_Z_digits.
  destruct n as [|p|p]; [done | | lia].
  unfold pretty, pretty_Z, pretty, pretty_positive, pretty, pretty_N.
  destruct (decide (N.pos p = 0)%N); [done |].
  rewrite digits_go_pretty_N_go. done.
Qed.

Lemma skip_app (marker s : string) : skip (String.length marker) (marker ++ s) = s.
Proof. induction marker as [|c marker IH]; [by destruct s | exact IH]. Qed.

Lemma prefix_app_self (marker s : string) : String.prefix marker (marker ++ s) = true.
Proof.
  induction marker as [|c marker IH]; [by destruct s |].
  change (String c marker ++ s) with (String c (marker ++ s)). simpl.
  by destruct (ascii_dec c c).
Qed.

(** The leftmost marker is followed by the run: that run is the group. *)
Lemma search_group_here (marker : string) (C : ascii -> bool)
  (price_str rest : string) :
  price_str <> "" ->
  all_chars C price_str = true ->
  take_while C rest = "" ->
  search_group marker C (marker ++ price_str ++ rest) = Some price_str.
Proof.
  intros Hne Hclass Hrest. rewrite search_group_unfold. cbv zeta.
  rewrite prefix_app_self, skip_app, take_while_app, Hrest, append_empty_r by done.
  apply String.eqb_neq in Hne. by rewrite Hne.
Qed.

Lemma pound_or_bare_some (price_text price_str : string) :
  pound_or_bare price_text = Some price_str ->
  price_str <> "" /\ all_chars digit_or_comma price_str = true /\
  forall P, all_chars P price_text = true -> all_chars P price_str = true.
Proof.
  unfold pound_or_bare.
  destruct (search_group "£" digit_or_comma price_text) eqn:Hpound.
  - intros [= <-]. by apply search_group_some with "£".
  - by apply search_group_some.
Qed.

(** The number the card adapters take out of a match. *)
Lemma group_number (price_str : string) :
  all_chars digit_or_comma price_str = true ->
  (remove_commas price_str = "" /\
   exists e, py_int (PStr (remove_commas price_str)) = Raise e /\
             exn_cls e = "ValueError") \/
  exists n, 0 <= n /\ py_int (PStr (remove_commas price_str)) = Ok n.
Proof. intros Hclass. by apply py_int_digits, remove_commas_digits. Qed.

(** X21.  The price a card adapter reads off a card is never negative:
    Zoopla's, OnTheMarket's and OpenRent's always, SpareRoom's whenever
    its extraction returns. *)
Theorem card_price_is_never_negative (price_elem : option string) :
  0 <= (zoopla_card_price price_elem).2 /\
  0 <= (monthly_card_price price_elem).2 /\
  forall price_text price,
    spareroom_card_price price_elem = Ok (price_text, price) -> 0 <= price.
Proof.
  destruct price_elem as [text|];
    [| split; [done | split; [done | by intros ? ? [= _ <-]]]].
  unfold zoopla_card_price, monthly_card_price, spareroom_card_price. cbv zeta.
  split; [| split].
  - cbn [snd]. destruct (pound_or_bare (strip text)) as [price_str|] eqn:Hm; [| done].
    apply pound_or_bare_some in Hm as (_ & Hclass & _).
    destruct (group_number price_str Hclass) as [(_ & e & -> & _) | (n & Hn & ->)];
      [done |].
    destruct (contains "pw" (lower (strip text))); lia.
  - destruct (search_group "£" digit_or_comma (strip text)) as [price_str|] eqn:Hm;
      [| done].
    apply search_group_some in Hm as (_ & Hclass & _).
    by destruct (group_number price_str Hclass) as [(_ & e & -> & _) | (n & Hn & ->)].
  - intros price_text price.
    destruct (pound_or_bare (strip text)) as [price_str|] eqn:Hm;
      [| by intros [= _ <-]].
    apply pound_or_bare_some in Hm as (_ & Hclass & _).
    destruct (group_number price_str Hclass) as [(_ & e & -> & _) | (n & Hn & ->)];
      [done |].
    destruct (contains "pw" (lower (strip text))); intros [= _ <-]; lia.
Qed.

(** X22.  A price text that, stripped, opens with the pound sign and a
    number written with or without thousands commas is read as that
    number, the number being of a length that [int] takes (up to 4300
    digits).  Zoopla and SpareRoom take it times four when the text says
    [pw] anywhere, in any case, and SpareRoom then rewrites the text;
    OnTheMarket and OpenRent take it as it is and rewrite the text unless
    it says [per month]. *)
Theorem card_price_reads_the_number (text price_str rest : string) (n : Z) :
  strip text = "£" ++ price_str ++ rest ->
  all_chars digit_or_comma price_str = true ->
  remove_commas price_str = pretty n ->
  n < 10 ^ 4300 ->
  take_while digit_or_comma rest = "" ->
  let price_text := strip text in
  let weekly := contains "pw" (lower price_text) in
  zoopla_card_price (Some text) = (price_text, if weekly then n * 4 else n) /\
  spareroom_card_price (Some text) =
    Ok (if weekly
        then ("£" ++ pretty (n * 4) ++ " pcm (calculated from " ++ price_text ++ ")",
              n * 4)
        else (price_text, n)) /\
  monthly_card_price (Some text) =
    (if contains "per month" (lower price_text)
     then price_text
     else "£" ++ pretty n ++ " per month",
     n).
Proof.
  intros Htext Hclass Hnum _ Hrest price_text weekly.
  assert (0 <= n) as Hn.
  { apply pretty_Z_digits. rewrite <- Hnum. by apply remove_commas_digits. }
  assert (price_str <> "") as Hne.
  { intros ->. simpl in Hnum. pose proof (py_int_pretty n Hn) as Hread.
    rewrite <- Hnum in Hread. discriminate Hread. }
  assert (search_group "£" digit_or_comma price_text = Some price_str) as Hpound.
  { unfold price_text. rewrite Htext. by apply search_group_here. }
  unfold zoopla_card_price, monthly_card_price, spareroom_card_price, pound_or_bare.
  cbv zeta. fold price_text. rewrite Hpound, Hnum, (py_int_pretty n Hn).
  fold weekly. split; [done | split].
  - by destruct weekly.
  - by destruct (contains "per month" (lower price_text)).
Qed.

Lemma card_price_reads_the_number_witness :
  zoopla_card_price (Some " £1,250 pw ") = ("£1,250 pw", 5000) /\
  spareroom_card_price (Some " £1,250 pw ") =
    Ok ("£5000 pcm (calculated from £1,250 pw)", 5000) /\
  monthly_card_price (Some " £1,250 pw ") = ("£1250 per month", 1250).
Proof.
  apply (card_price_reads_the_number " £1,250 pw " "1,250" " pw" 1250); reflexivity.
Defined.

Lemma search_group_bare (C : ascii -> bool) (s : string) :
  all_chars (fun c => negb (C c)) s = false ->
  exists price_str, search_group "" C s = Some price_str.
Proof.
  induction s as [|c s IH]; [done |]. intros Hs.
  rewrite search_group_unfold. cbv zeta.
  change (String.prefix "" (String c s)) with true. cbv iota.
  change (skip (String.length "") (String c s)) with (String c s).
  simpl take_while. simpl in Hs.
  destruct (C c); [by eexists |].
  simpl. by apply IH.
Qed.

Lemma neither_digit_nor_comma (s : string) :
  all_chars not_digit s = true ->
  all_chars not_comma s = true ->
  all_chars (fun c => negb (digit_or_comma c)) s = true.
Proof.
  induction s as [|c s IH]; [done |]. simpl.
  intros [Hd Hs]%andb_true_iff [Hc Hs']%andb_true_iff.
  unfold digit_or_comma. unfold not_digit in Hd. unfold not_comma in Hc.
  rewrite negb_orb, Hd, Hc. by apply IH.
Qed.

Lemma some_comma (s : string) :
  all_chars not_comma s = false ->
  all_chars (fun c => negb (digit_or_comma c)) s = false.
Proof.
  induction s as [|c s IH]; [done |]. simpl.
  intros [Hc | Hs]%andb_false_iff.
  - unfold not_comma in Hc. apply negb_false_iff in Hc.
    unfold digit_or_comma. by rewrite Hc, orb_true_r.
  - rewrite (IH Hs). apply andb_false_r.
Qed.

(** X23.  A card whose price text holds no digit is priced 0 by
    Zoopla, OnTheMarket and OpenRent, which the filter then reads as a
    real price: any minimum price above zero excludes the listing.
    SpareRoom prices such a card 0 as well, unless its text holds a
    comma: then [int('')] raises ValueError and the card is lost. *)
Theorem price_without_a_digit (text : string) :
  all_chars not_digit text = true ->
  zoopla_card_price (Some text) = (strip text, 0) /\
  monthly_card_price (Some text) = (strip text, 0) /\
  (all_chars not_comma (strip text) = true ->
   spareroom_card_price (Some text) = Ok (strip text, 0)) /\
  (all_chars not_comma (strip text) = false ->
   exists e, spareroom_card_price (Some text) = Raise e /\
             exn_cls e = "ValueError") /\
  (forall (c : config) (f : filters) (l : listing) (lo : Z),
     cfg_filters c = Some f -> min_price f = Some lo -> 0 < lo ->
     price l = Some (PInt (zoopla_card_price (Some text)).2) ->
     _meets_criteria c l = false).
Proof.
  intros Htext. apply all_chars_strip in Htext.
  assert (forall price_str,
            all_chars digit_or_comma price_str = true ->
            all_chars not_digit price_str = true ->
            exists e, py_int (PStr (remove_commas price_str)) = Raise e /\
                      exn_cls e = "ValueError") as Hempty.
  { intros price_str Hclass Hnone.
    rewrite (remove_commas_no_digit price_str Hclass Hnone). by eexists. }
  assert (zoopla_card_price (Some text) = (strip text, 0)) as Hzoopla.
  { unfold zoopla_card_price. cbv zeta. f_equal.
    destruct (pound_or_bare (strip text)) as [price_str|] eqn:Hm; [| done].
    apply pound_or_bare_some in Hm as (_ & Hclass & Hcut).
    by destruct (Hempty price_str Hclass (Hcut _ Htext)) as (e & -> & _). }
  split; [exact Hzoopla | split; [| split; [| split]]].
  - unfold monthly_card_price. cbv zeta.
    destruct (search_group "£" digit_or_comma (strip text)) as [price_str|] eqn:Hm;
      [| done].
    apply search_group_some in Hm as (_ & Hclass & Hcut).
    by destruct (Hempty price_str Hclass (Hcut _ Htext)) as (e & -> & _).
  - intros Hcomma. unfold spareroom_card_price, pound_or_bare. cbv zeta.
    by rewrite !search_group_none by by apply neither_digit_nor_comma.
  - intros Hcomma. unfold spareroom_card_price. cbv zeta.
    destruct (pound_or_bare (strip text)) as [price_str|] eqn:Hm.
    + apply pound_or_bare_some in Hm as (_ & Hclass & Hcut).
      destruct (Hempty price_str Hclass (Hcut _ Htext)) as (e & -> & He).
      by exists e.
    + unfold pound_or_bare in Hm.
      destruct (search_group_bare digit_or_comma (strip text) (some_comma _ Hcomma))
        as [price_str Hbare].
      rewrite Hbare in Hm. by destruct (search_group "£" digit_or_comma (strip text)).
  - intros c f l lo Hf Hmin Hlo Hprice.
    rewrite Hzoopla in Hprice. cbn [snd] in Hprice.
    pose proof (meets_criteria_checks c l) as Hm. rewrite Hf in Hm. simpl in Hm.
    assert (price_check f l = false) as Hcheck.
    { unfold price_check. rewrite Hprice, Hmin. simpl.
      assert ((0 <? lo) = true) as -> by by apply Z.ltb_lt.
      done. }
    rewrite Hm, Hcheck. by rewrite andb_false_r.
Qed.

Lemma price_without_a_digit_witness :
  zoopla_card_price (Some " POA, call ") = ("POA, call", 0) /\
  exists e, spareroom_card_price (Some " POA, call ") = Raise e /\
            exn_cls e = "ValueError".
Proof.
  destruct (price_without_a_digit " POA, call " eq_refl) as (Hz & _ & _ & Hs & _).
  split; [exact Hz | by apply Hs].
Defined.

(** ** The web front-end *)

#[local] Instance untouched_preorder : PreOrder untouched.
Proof.
  split.
  - intros st. unfold untouched. done.
  - intros a b c (H1 & H2 & H3) (K1 & K2 & K3). unfold untouched.
    split; [congruence | split; congruence].
Qed.

#[local] Instance store_kept_preorder : PreOrder store_kept.
Proof.
  split.
  - intros st. unfold store_kept. done.
  - intros a b c Hab Hbc. unfold store_kept in *. congruence.
Qed.

Lemma untouched_log (lv : level) (msg : string) : preserves untouched (log lv msg).
Proof. intros st. unfold untouched. done. Qed.

Lemma untouched_GET (E : env) (url : string) (h : gmap string string) :
  preserves untouched (GET E url h).
Proof.
  intros st. unfold untouched, GET.
  destruct (http_get E (st_requests st) (Request url h)); done.
Qed.

Lemma untouched_now : preserves untouched now.
Proof. intros st. unfold untouched. done. Qed.

Lemma untouched_set_seen (m : gmap string string) : preserves untouched (set_seen m).
Proof. intros st. unfold untouched. done. Qed.

(** How a view of the homepage starts: the scanner is built and the
    sites are fetched, and neither raises. *)
Lemma page_fetch (W : web_env) (w : web_state) :
  exists (c : config) (st1 st2 : state),
    PropertyScanner (web_E W) "config.json" (web_scan w) =
      (Ok (scanner_of (web_E W) c), st1) /\
    fetch_listings (scanner_of (web_E W) c) st1 = (Ok (page_listings W w), st2) /\
    c = match open_json (web_E W) "config.json" with
        | Ok c => c
        | Raise _ => empty_config
        end /\
    seen_listings st2 = match st_seen_file (web_scan w) with
                        | Some (Ok seen) => seen
                        | _ => ∅
                        end /\
    untouched (web_scan w) st2.
Proof.
  assert (exists c st1,
            PropertyScanner (web_E W) "config.json" (web_scan w) =
              (Ok (scanner_of (web_E W) c), st1) /\
            c = match open_json (web_E W) "config.json" with
                | Ok c => c
                | Raise _ => empty_config
                end) as (c & st1 & Hbuilt & Hc).
  { unfold PropertyScanner, _load_config, try_except, lift, _load_seen_listings,
      mbind, io_bind, set_seen, log, mret, io_ret.
    destruct (open_json (web_E W) "config.json") as [c | e];
      [exists c | exists empty_config]; cbn;
      destruct (st_seen_file (web_scan w)) as [[seen | e'] |];
      eexists; (split; [reflexivity | reflexivity]). }
  destruct (fetch_loop_run (scanner_of (web_E W) c)
              (_get_enabled_sites (self_config (scanner_of (web_E W) c)))
              (registry_keeps_log (web_E W) c _) [] st1)
    as (st2 & Hfetch & _).
  change (fetch_loop (scanner_of (web_E W) c)
            (_get_enabled_sites (self_config (scanner_of (web_E W) c))) [])
    with (fetch_listings (scanner_of (web_E W) c)) in Hfetch.
  rewrite app_nil_l in Hfetch.
  exists c, st1, st2.
  assert (st2 = (fetch_listings (scanner_of (web_E W) c) st1).2) as Hst2
    by by rewrite Hfetch.
  assert (st1 = (PropertyScanner (web_E W) "config.json" (web_scan w)).2) as Hst1
    by by rewrite Hbuilt.
  split; [exact Hbuilt |]. split; [| split; [exact Hc | split]].
  - unfold page_listings. by rewrite Hbuilt, Hfetch.
  - transitivity (seen_listings st1).
    + rewrite Hst2.
      apply (preserves_fetch_listings store_kept).
      * intros lv msg st0. unfold store_kept. done.
      * apply registry_preserves; try apply _; intros; intros st0;
          unfold store_kept; done.
    + rewrite Hst1. apply load_seen_file.
  - transitivity st1.
    + rewrite Hst1.
      apply (preserves_PropertyScanner untouched untouched_log untouched_set_seen).
    + rewrite Hst2. apply (preserves_fetch_listings untouched untouched_log).
      apply registry_preserves;
        first [apply _ | apply untouched_log | apply untouched_GET | apply untouched_now].
Qed.

Ltac web_step :=
  unfold mbind at 1, web_bind at 1;
  cbn [fst snd web_scan web_flashes web_favorites_file].

(** A view of the homepage whose loop over the fetched listings raises
    ends in the handler: a flash, and a page without listings. *)
Lemma index_raise (W : web_env) (args : gmap string string) (w : web_state)
  (c : config) (st1 st2 : state) (e : exn) :
  PropertyScanner (web_E W) "config.json" (web_scan w) =
    (Ok (scanner_of (web_E W) c), st1) ->
  fetch_listings (scanner_of (web_E W) c) st1 = (Ok (page_listings W w), st2) ->
  app.index_loop (app.args_get_int args "min_price")
    (app.args_get_int args "max_price") (app.args_get_int args "min_beds")
    (app.args_get_int args "max_beds") (page_listings W w) [] = Raise e ->
  app.index W args w =
  page [] (WebState st2 (web_flashes w ++ ["Error fetching listings: " ++ exn_msg e])
                    (web_favorites_file w)).
Proof.
  intros Hbuilt Hfetch Hloop. unfold app.index.
  web_step. unfold scan at 1. rewrite Hbuilt. cbn [fst snd]. cbv zeta.
  web_step. unfold web_try at 1.
  web_step. unfold scan at 1. cbn [fst snd web_scan web_flashes web_favorites_file].
  rewrite Hfetch. cbn [fst snd].
  web_step. unfold scan at 1, lift at 1.
  cbn [fst snd web_scan web_flashes web_favorites_file].
  rewrite Hloop.
  reflexivity.
Qed.

(** A view whose loop returns goes on to [filter_listings]. *)
Lemma index_return (W : web_env) (args : gmap string string) (w : web_state)
  (c : config) (st1 st2 st3 : state) (kept r : list listing) :
  PropertyScanner (web_E W) "config.json" (web_scan w) =
    (Ok (scanner_of (web_E W) c), st1) ->
  fetch_listings (scanner_of (web_E W) c) st1 = (Ok (page_listings W w), st2) ->
  app.index_loop (app.args_get_int args "min_price")
    (app.args_get_int args "max_price") (app.args_get_int args "min_beds")
    (app.args_get_int args "max_beds") (page_listings W w) [] = Ok kept ->
  filter_listings (web_E W) (scanner_of (web_E W) c) kept st2 = (Ok r, st3) ->
  app.index W args w =
  page r (WebState st3 (web_flashes w) (web_favorites_file w)).
Proof.
  intros Hbuilt Hfetch Hloop Hfilter. unfold app.index.
  web_step. unfold scan at 1. rewrite Hbuilt. cbn [fst snd]. cbv zeta.
  web_step. unfold web_try at 1.
  web_step. unfold scan at 1. cbn [fst snd web_scan web_flashes web_favorites_file].
  rewrite Hfetch. cbn [fst snd].
  web_step. unfold scan at 1, lift at 1.
  cbn [fst snd web_scan web_flashes web_favorites_file].
  rewrite Hloop.
  unfold scan at 1. cbn [fst snd web_scan web_flashes web_favorites_file lift]. cbn [fst snd web_scan web_flashes web_favorites_file].
  rewrite Hfilter. cbn [fst snd].
  reflexivity.
Qed.

Lemma page_state (filtered_listings : list listing) (w : web_state) :
  (page filtered_listings w).2 = w.
Proof.
  unfold page, app.load_favorites. web_step.
  by destruct (web_favorites_file w) as [[favorites | e] |].
Qed.

Lemma load_favorites_file (w w0 : web_state) :
  web_favorites_file w = web_favorites_file w0 ->
  (app.load_favorites w).1 = (app.load_favorites w0).1.
Proof.
  unfold app.load_favorites. intros ->.
  by destruct (web_favorites_file w0) as [[favorites | e] |].
Qed.

Lemma page_loaded (filtered_listings : list listing) (w : web_state)
  (favorites : gmap string favorite) :
  (app.load_favorites w).1 = Ok favorites ->
  page filtered_listings w =
  (Ok (Render "index.html" (app.mark favorites <$> filtered_listings)
              (size favorites)), w).
Proof.
  unfold page, app.load_favorites. web_step.
  destruct (web_favorites_file w) as [[favs | e] |]; cbn; [| done |];
    by intros [= <-].
Qed.

Lemma passed_over_raises (min_price max_price min_beds max_beds : option Z)
  (l : listing) (e : exn) :
  min_price <> None \/ max_price <> None ->
  py_int (get (price l) (PInt 0)) = Raise e ->
  app.passed_over min_price max_price min_beds max_beds l = Raise e.
Proof.
  intros Hbound Hprice. unfold app.passed_over, app.beyond.
  destruct min_price as [lo|]; [by rewrite Hprice |].
  destruct max_price as [hi|]; [by rewrite Hprice |].
  by destruct Hbound.
Qed.

Lemma index_loop_raises (min_price max_price min_beds max_beds : option Z)
  (all_listings : list listing) (l : listing) (e : exn) :
  l ∈ all_listings ->
  app.passed_over min_price max_price min_beds max_beds l = Raise e ->
  forall filtered_listings, exists e',
    app.index_loop min_price max_price min_beds max_beds all_listings
      filtered_listings = Raise e'.
Proof.
  intros Hin Hl.
  induction all_listings as [|x rest IH]; intros filtered_listings;
    [by apply elem_of_nil in Hin |].
  cbn [app.index_loop].
  destruct (app.passed_over min_price max_price min_beds max_beds x)
    as [skip | e'] eqn:Hx; [| by exists e'].
  apply elem_of_cons in Hin as [-> | Hin]; [congruence |].
  apply (IH Hin).
Qed.

(** X24.  A price bound in the URL fails closed, and for the whole
    page: when [min_price] or [max_price] is given and one of the fetched
    listings has a price that [int] refuses, the homepage shows no listing
    at all and flashes an error, where the scanner's own price filter
    lets such a listing through. *)
Theorem url_price_bound_fails_closed (W : web_env) (args : gmap string string)
  (w : web_state) (l : listing) (e : exn) (favorites : gmap string favorite) :
  app.args_get_int args "min_price" <> None \/
  app.args_get_int args "max_price" <> None ->
  l ∈ page_listings W w ->
  py_int (get (price l) (PInt 0)) = Raise e ->
  (app.load_favorites w).1 = Ok favorites ->
  exists (e' : exn) (w' : web_state),
    app.index W args w = (Ok (Render "index.html" [] (size favorites)), w') /\
    web_flashes w' =
      (web_flashes w ++ [("Error fetching listings: " ++ exn_msg e')%string])%list.
Proof.
  intros Hbound Hin Hprice Hfav.
  destruct (page_fetch W w) as (c & st1 & st2 & Hbuilt & Hfetch & _).
  destruct (index_loop_raises _ _ (app.args_get_int args "min_beds")
              (app.args_get_int args "max_beds") _ l e Hin
              (passed_over_raises _ _ _ _ l e Hbound Hprice) []) as [e' Hloop].
  exists e'. eexists.
  rewrite (index_raise W args w c st1 st2 e' Hbuilt Hfetch Hloop).
  rewrite (page_loaded [] _ favorites)
    by (rewrite <- Hfav; by apply load_favorites_file).
  split; reflexivity.
Qed.

Lemma url_price_bound_fails_closed_witness :
  exists (e' : exn) (w' : web_state),
    app.index (sample_web_env null_price_env) {["min_price" := "500"]}
      (web_start sample_state) =
      (Ok (Render "index.html" [] (size (∅ : gmap string favorite))), w') /\
    web_flashes w' = ["Error fetching listings: " ++ exn_msg e'].
Proof.
  apply (url_price_bound_fails_closed (sample_web_env null_price_env)
           {["min_price" := "500"]} (web_start sample_state)
           {| id := "777"; title := Some (PStr "Price on application");
              price := Some PNone; price_text := Some (PStr "£None");
              address := Some (PStr "Queen Square, Bristol");
              bedrooms := Some (PInt 2); description := None;
              link := Some (PStr "https://www.rightmove.co.uk/properties/777");
              images := None; source := Some (PStr "rightmove") |}
           (Exn "TypeError" "int() argument must be a string, a bytes-like object or a real number, not 'NoneType'")
           ∅).
  - left. discriminate.
  - apply list_elem_of_further, list_elem_of_here.
  - reflexivity.
  - reflexivity.
Defined.

Lemma index_effects (W : web_env) (args : gmap string string) (w : web_state) :
  untouched (web_scan w) (web_scan (app.index W args w).2) /\
  web_favorites_file (app.index W args w).2 = web_favorites_file w.
Proof.
  destruct (page_fetch W w) as (c & st1 & st2 & Hbuilt & Hfetch & _ & _ & Hst2).
  destruct (app.index_loop (app.args_get_int args "min_price")
              (app.args_get_int args "max_price") (app.args_get_int args "min_beds")
              (app.args_get_int args "max_beds") (page_listings W w) [])
    as [kept | e] eqn:Hloop.
  - destruct (filter_listings_run (web_E W) (scanner_of (web_E W) c) kept st2)
      as (r & st3 & Hfilter & _ & _ & _ & _ & Hf & Ho & Hs).
    rewrite (index_return W args w c st1 st2 st3 kept r Hbuilt Hfetch Hloop Hfilter).
    rewrite page_state. cbn [web_scan web_favorites_file]. split; [| done].
    destruct Hst2 as (H1 & H2 & H3). unfold untouched.
    split; [congruence | split; congruence].
  - rewrite (index_raise W args w c st1 st2 e Hbuilt Hfetch Hloop).
    rewrite page_state. cbn [web_scan web_favorites_file]. by split.
Qed.


(** X26.  With the bypass unset, the homepage shows no listing whose id
    the store file records, whatever the URL: what a run of the scraper
    has registered is gone from the page.  The page itself is always
    rendered when the favourites file loads. *)
Theorem homepage_hides_recorded_listings (W : web_env)
  (args : gmap string string) (w : web_state) (seen : gmap string string)
  (favorites : gmap string favorite) :
  st_seen_file (web_scan w) = Some (Ok seen) ->
  (forall c, open_json (web_E W) "config.json" = Ok c -> bypass c = false) ->
  (app.load_favorites w).1 = Ok favorites ->
  exists (shown : list (listing * bool)) (w' : web_state),
    app.index W args w = (Ok (Render "index.html" shown (size favorites)), w') /\
    forall l fav, (l, fav) ∈ shown -> id l ∉ dom seen.
Proof.
  intros Hseen Hbypass Hfav.
  destruct (page_fetch W w) as (c & st1 & st2 & Hbuilt & Hfetch & Hc & Hstore & _).
  rewrite Hseen in Hstore.
  assert (bypass c = false) as Hb.
  { rewrite Hc. destruct (open_json (web_E W) "config.json") as [c0 | e] eqn:Hopen;
      [by apply Hbypass | reflexivity]. }
  destruct (app.index_loop (app.args_get_int args "min_price")
              (app.args_get_int args "max_price") (app.args_get_int args "min_beds")
              (app.args_get_int args "max_beds") (page_listings W w) [])
    as [kept | e] eqn:Hloop.
  - destruct (filter_listings_run (web_E W) (scanner_of (web_E W) c) kept st2)
      as (r & st3 & Hfilter & _).
    destruct (filter_loop_unseen (web_E W) c
                (get (cfg_bypass_seen_check c) (PBool false)) kept Hb [] st2)
      as (r' & Hr' & Hall).
    assert (r' = r) as ->.
    { unfold filter_listings in Hfilter. cbn [self_config scanner_of] in Hfilter.
      rewrite Hfilter in Hr'. cbn in Hr'. congruence. }
    eexists _, _.
    rewrite (index_return W args w c st1 st2 st3 kept r Hbuilt Hfetch Hloop Hfilter).
    rewrite (page_loaded r _ favorites)
      by (rewrite <- Hfav; by apply load_favorites_file).
    split; [reflexivity |].
    intros l fav Hin. apply list_elem_of_fmap in Hin as (l0 & Heq & Hl0).
    unfold app.mark in Heq. injection Heq as -> _.
    rewrite Forall_forall in Hall. apply not_elem_of_dom.
    rewrite <- Hstore. by apply Hall.
  - eexists _, _.
    rewrite (index_raise W args w c st1 st2 e Hbuilt Hfetch Hloop).
    rewrite (page_loaded [] _ favorites)
      by (rewrite <- Hfav; by apply load_favorites_file).
    split; [reflexivity |]. intros l fav Hin. by apply elem_of_nil in Hin.
Qed.

Lemma homepage_hides_recorded_listings_witness :
  exists (shown : list (listing * bool)) (w' : web_state),
    app.index (sample_web_env (sample_env 200 (Ok empty_config))) ∅
      (web_start seen_state) =
      (Ok (Render "index.html" shown (size (∅ : gmap string favorite))), w') /\
    forall l fav, (l, fav) ∈ shown ->
      id l ∉ dom ({["12345" := "2024-12-24T18:00:00"]} : gmap string string).
Proof.
  apply (homepage_hides_recorded_listings
           (sample_web_env (sample_env 200 (Ok empty_config))) ∅
           (web_start seen_state) {["12345" := "2024-12-24T18:00:00"]} ∅).
  - reflexivity.
  - intros c Hc. injection Hc as <-. reflexivity.
  - reflexivity.
Defined.

(** X27.  The route [/run_scraper] always answers with the flash
    "Scraper run successfully! Check your email for new listings." and a
    redirect to the homepage, whatever happened in the run; and no run
    started from it has mailed anything. *)
Theorem scrape_route_always_reports_success (W : web_env) (w : web_state) :
  exists w' : web_state,
    app.run_scraper W w = (Ok (Redirect "index"), w') /\
    web_flashes w' =
      (web_flashes w ++
       ["Scraper run successfully! Check your email for new listings."])%list /\
    st_outbox (web_scan w') = st_outbox (web_scan w).
Proof.
  destruct (PropertyScanner_returns (web_E W) "config.json" (web_scan w))
    as (c & st1 & Hbuilt & _).
  pose proof (run_scraper_returns (web_E W) (scanner_of (web_E W) c) st1) as Hrun.
  pose proof (run_never_notifies (web_E W) "config.json" (web_scan w)) as [Hout _].
  unfold mbind, io_bind in Hout. rewrite Hbuilt in Hout.
  eexists. unfold app.run_scraper.
  web_step. unfold scan at 1. rewrite Hbuilt. cbn [fst snd].
  web_step. unfold web_try at 1.
  web_step. unfold scan at 1. cbn [fst snd web_scan web_flashes web_favorites_file].
  rewrite Hrun. unfold flash.
  cbn [fst snd web_scan web_flashes web_favorites_file mret web_ret].
  split; [reflexivity | split; [reflexivity | exact Hout]].
Qed.

Lemma add_favorite_run (W : web_env) (form : gmap string string)
  (images : list string) (w : web_state) (favorites : gmap string favorite)
  (listing_id : string) :
  favorites_open_error W = None ->
  (app.load_favorites w).1 = Ok favorites ->
  form !! "listing_id" = Some listing_id ->
  listing_id <> "" ->
  app.add_favorite W form images w =
  (Ok (Redirect "index"),
   WebState (now (web_scan w)).2
            (web_flashes w ++ ["Listing added to favorites"])
            (Some (Ok (<[listing_id :=
                           Favorite listing_id (form !! "title") (form !! "price")
                                    (form !! "address") (form !! "link")
                                    (form !! "bedrooms") images
                                    (isoformat (web_E W) (st_clock (web_scan w)))]>
                         favorites)))).
Proof.
  intros Hopen Hfav Hid Hne. unfold app.add_favorite. cbv zeta.
  rewrite Hid. cbn [get]. apply String.eqb_neq in Hne. rewrite Hne.
  web_step.
  assert (app.load_favorites w = (Ok favorites, w)) as ->.
  { unfold app.load_favorites in *.
    destruct (web_favorites_file w) as [[favs | e] |]; cbn in Hfav; congruence. }
  web_step. unfold scan at 1, now at 1 2.
  cbn [fst snd web_scan web_flashes web_favorites_file].
  web_step. unfold app.save_favorites at 1. rewrite Hopen.
  reflexivity.
Qed.

Lemma remove_favorite_run (W : web_env) (form headers : gmap string string)
  (w : web_state) (favorites : gmap string favorite) (listing_id : string) :
  favorites_open_error W = None ->
  (app.load_favorites w).1 = Ok favorites ->
  form !! "listing_id" = Some listing_id ->
  listing_id <> "" ->
  app.remove_favorite W form headers w =
  (Ok (Redirect (if contains "favorites" (get (headers !! "Referer") "")
                 then "favorites" else "index")),
   WebState (web_scan w)
            (web_flashes w ++ ["Listing removed from favorites"])
            (Some (Ok (delete listing_id favorites)))).
Proof.
  intros Hopen Hfav Hid Hne. unfold app.remove_favorite. cbv zeta.
  rewrite Hid. cbn [get]. apply String.eqb_neq in Hne. rewrite Hne.
  web_step.
  assert (app.load_favorites w = (Ok favorites, w)) as ->.
  { unfold app.load_favorites in *.
    destruct (web_favorites_file w) as [[favs | e] |]; cbn in Hfav; congruence. }
  web_step. unfold app.save_favorites at 1. rewrite Hopen.
  web_step. unfold flash at 1.
  cbn [fst snd web_scan web_flashes web_favorites_file].
  by destruct (contains "favorites" (get (headers !! "Referer") "")).
Qed.

(** X28.  Adding a favourite and removing it again: when the favourites
    file loads and can be written, [add_favorite] stores the form's
    fields under the listing's id, replacing what was stored there, and
    [remove_favorite] with the same id leaves the file as the map without
    that id, which is the map from before when the id was new.  Both
    flash, and the redirect of the removal goes to the favourites page
    exactly when the referer holds "favorites". *)
Theorem favorite_add_then_remove (W : web_env) (form headers : gmap string string)
  (images : list string) (w : web_state) (favorites : gmap string favorite)
  (listing_id : string) :
  favorites_open_error W = None ->
  (app.load_favorites w).1 = Ok favorites ->
  form !! "listing_id" = Some listing_id ->
  listing_id <> "" ->
  let added := app.add_favorite W form images w in
  let removed := app.remove_favorite W form headers added.2 in
  (exists entry,
     web_favorites_file added.2 = Some (Ok (<[listing_id := entry]> favorites)) /\
     fav_id entry = listing_id /\ fav_title entry = form !! "title" /\
     fav_price_text entry = form !! "price" /\ fav_images entry = images) /\
  web_favorites_file removed.2 = Some (Ok (delete listing_id favorites)) /\
  (favorites !! listing_id = None ->
   web_favorites_file removed.2 = Some (Ok favorites)) /\
  web_flashes removed.2 =
    (web_flashes w ++
     ["Listing added to favorites"; "Listing removed from favorites"])%list /\
  removed.1 = Ok (Redirect (if contains "favorites" (get (headers !! "Referer") "")
                            then "favorites" else "index")).
Proof.
  intros Hopen Hfav Hid Hne. cbv zeta.
  rewrite (add_favorite_run W form images w favorites listing_id Hopen Hfav Hid Hne).
  cbn [snd].
  erewrite remove_favorite_run; [| exact Hopen | reflexivity | exact Hid | exact Hne].
  cbn [fst snd web_favorites_file web_flashes].
  split; [by eexists |].
  rewrite delete_insert_eq.
  split; [done | split].
  - intros Hnew. by rewrite delete_id.
  - split; [by rewrite <- app_assoc | done].
Qed.

Lemma favorite_add_then_remove_witness :
  web_favorites_file
    (app.remove_favorite (sample_web_env (sample_env 200 (Ok empty_config)))
       sample_form {["Referer" := "http://localhost:5000/favorites"]}
       (app.add_favorite (sample_web_env (sample_env 200 (Ok empty_config)))
          sample_form [] (web_start sample_state)).2).2 =
    Some (Ok ∅) /\
  (app.remove_favorite (sample_web_env (sample_env 200 (Ok empty_config)))
     sample_form {["Referer" := "http://localhost:5000/favorites"]}
     (app.add_favorite (sample_web_env (sample_env 200 (Ok empty_config)))
        sample_form [] (web_start sample_state)).2).1 = Ok (Redirect "favorites").
Proof.
  destruct (favorite_add_then_remove
              (sample_web_env (sample_env 200 (Ok empty_config)))
              sample_form {["Referer" := "http://localhost:5000/favorites"]}
              [] (web_start sample_state) ∅ "zoopla-1"
              eq_refl eq_refl eq_refl ltac:(discriminate))
    as (_ & _ & Hback & _ & Hto).
  split; [by apply Hback | exact Hto].
Defined.

(** X29.  A favourites file that does not load is never repaired: the
    homepage and both favourite handlers raise the loader's exception,
    the handlers before they have changed anything, and the file stays
    as it is.  The scanner's own store, by contrast, starts empty when
    its file does not load. *)
Theorem unreadable_favorites_break_the_pages (W : web_env)
  (args form headers : gmap string string) (images : list string)
  (w : web_state) (e : exn) (listing_id : string) :
  web_favorites_file w = Some (Raise e) ->
  form !! "listing_id" = Some listing_id ->
  listing_id <> "" ->
  (app.index W args w).1 = Raise e /\
  app.add_favorite W form images w = (Raise e, w) /\
  app.remove_favorite W form headers w = (Raise e, w) /\
  web_favorites_file (app.index W args w).2 = Some (Raise e).
Proof.
  intros Hfile Hid Hne.
  assert (forall w0, web_favorites_file w0 = Some (Raise e) ->
                     app.load_favorites w0 = (Raise e, w0)) as Hload.
  { intros w0 H0. unfold app.load_favorites. by rewrite H0. }
  assert (forall r w0, web_favorites_file w0 = Some (Raise e) ->
                       (page r w0).1 = Raise e) as Hpage.
  { intros r w0 H0. unfold page. web_step. by rewrite (Hload w0 H0). }
  apply String.eqb_neq in Hne.
  split; [| split; [| split]].
  - destruct (page_fetch W w) as (c & st1 & st2 & Hbuilt & Hfetch & _).
    destruct (app.index_loop (app.args_get_int args "min_price")
                (app.args_get_int args "max_price") (app.args_get_int args "min_beds")
                (app.args_get_int args "max_beds") (page_listings W w) [])
      as [kept | e0] eqn:Hloop.
    + destruct (filter_listings_run (web_E W) (scanner_of (web_E W) c) kept st2)
        as (r & st3 & Hfilter & _).
      rewrite (index_return W args w c st1 st2 st3 kept r Hbuilt Hfetch Hloop Hfilter).
      by apply Hpage.
    + rewrite (index_raise W args w c st1 st2 e0 Hbuilt Hfetch Hloop).
      by apply Hpage.
  - unfold app.add_favorite. cbv zeta. rewrite Hid. cbn [get]. rewrite Hne.
    web_step. by rewrite (Hload w Hfile).
  - unfold app.remove_favorite. cbv zeta. rewrite Hid. cbn [get]. rewrite Hne.
    web_step. by rewrite (Hload w Hfile).
  - destruct (index_effects W args w) as [_ ->]. exact Hfile.
Qed.

Lemma unreadable_favorites_break_the_pages_witness :
  (app.index (sample_web_env (sample_env 200 (Ok empty_config))) ∅
     corrupt_favorites_state).1 =
    Raise (Exn "JSONDecodeError" "Expecting value: line 1 column 1 (char 0)") /\
  app.add_favorite (sample_web_env (sample_env 200 (Ok empty_config)))
    sample_form [] corrupt_favorites_state =
    (Raise (Exn "JSONDecodeError" "Expecting value: line 1 column 1 (char 0)"),
     corrupt_favorites_state).
Proof.
  destruct (unreadable_favorites_break_the_pages
              (sample_web_env (sample_env 200 (Ok empty_config)))
              ∅ sample_form ∅ [] corrupt_favorites_state
              (Exn "JSONDecodeError" "Expecting value: line 1 column 1 (char 0)")
              "zoopla-1" eq_refl eq_refl ltac:(discriminate))
    as (Hindex & Hadd & _).
  split; [exact Hindex | exact Hadd].
Defined.
